(** * The primitive runtime: expression evaluator and combinators

    A shallow embedding of [runtime/primitives.py] (the expression
    parser/evaluator and the [Primitives] block factory) and of the result
    handling blocks of [runtime/io_primitives.py], followed by the properties
    established about them.

    Conventions of the embedding.
    - A Python [str] is a [string]; a character is its code point, and the
      embedding covers code points below 256.
    - A Python [int] is a [Z]; a [float] is a binary64 value of
      [SpecFloat] (precision 53, [emax] 1024).
    - A Python expression that may raise is a computation in [outcome]:
      [Ret v], [Raise e], or [Unmodelled] where the interpreter of the host
      language does something this development does not describe (the
      places are listed where they occur).
    - The evaluator recurses on strictly shorter pieces of its input; it is
      written with a fuel argument, and [eval_expr] supplies more fuel than
      the input is long.  The interpreter's recursion limit, its integer
      digit limit and memory exhaustion are not part of the embedding. *)

From Stdlib Require Import ZArith Lia List Bool Ascii String.
From Stdlib Require Import Floats.SpecFloat.
From stdpp Require Import gmap strings.

Local Open Scope string_scope.
Local Open Scope list_scope.

(** ** Characters and strings of the host language *)

Module Py.

Definition ord (c : ascii) : nat := nat_of_ascii c.

Definition between (lo hi n : nat) : bool := (lo <=? n)%nat && (n <=? hi)%nat.

(** [str.isspace] on one character. *)
Definition isspace (c : ascii) : bool :=
  let n := ord c in
  between 9 13 n || between 28 32 n || (n =? 133)%nat || (n =? 160)%nat.

(** The decimal digits ['0'] .. ['9']. *)
Definition isdecimal (c : ascii) : bool := between 48 57 (ord c).

(** [str.isdigit] on one character: the decimal digits and the superscript
    digits of Latin-1. *)
Definition isdigit (c : ascii) : bool :=
  let n := ord c in
  between 48 57 n || (n =? 178)%nat || (n =? 179)%nat || (n =? 185)%nat.

Definition xid_start (c : ascii) : bool :=
  let n := ord c in
  between 65 90 n || (n =? 95)%nat || between 97 122 n
  || (n =? 170)%nat || (n =? 181)%nat || (n =? 186)%nat
  || between 192 214 n || between 216 246 n || between 248 255 n.

Definition xid_continue (c : ascii) : bool :=
  xid_start c || isdecimal c || (ord c =? 183)%nat.

Fixpoint all_chars (p : ascii -> bool) (s : string) : bool :=
  match s with
  | EmptyString => true
  | String c s' => p c && all_chars p s'
  end.

(** [str.isidentifier]. *)
Definition isidentifier (s : string) : bool :=
  match s with
  | EmptyString => false
  | String c s' => xid_start c && all_chars xid_continue s'
  end.

Fixpoint take (n : nat) (s : string) : string :=
  match n, s with
  | S n', String c s' => String c (take n' s')
  | _, _ => EmptyString
  end.

Fixpoint drop (n : nat) (s : string) : string :=
  match n, s with
  | S n', String _ s' => drop n' s'
  | _, _ => s
  end.

(** Python's slice bounds: a negative bound counts from the end, and
    every bound is clamped to the string. *)
Definition clamp (len i : Z) : Z :=
  if (i <? 0)%Z then Z.max 0 (i + len) else Z.min i len.

(** [s[lo:hi]]; [None] is an omitted bound. *)
Definition slice (s : string) (lo hi : option Z) : string :=
  let len := Z.of_nat (String.length s) in
  let l := match lo with Some i => clamp len i | None => 0%Z end in
  let h := match hi with Some i => clamp len i | None => len end in
  take (Z.to_nat (h - l)) (drop (Z.to_nat l) s).

(** [s.startswith(p)]. *)
Fixpoint startswith (p s : string) : bool :=
  match p, s with
  | EmptyString, _ => true
  | String a p', String b s' => Ascii.eqb a b && startswith p' s'
  | String _ _, EmptyString => false
  end.

(** [s.endswith(p)]. *)
Definition endswith (p s : string) : bool :=
  (String.length p <=? String.length s)%nat
  && String.eqb (drop (String.length s - String.length p) s) p.

(** [sub in s]. *)
Fixpoint contains (sub s : string) {struct s} : bool :=
  startswith sub s
  || match s with
     | EmptyString => false
     | String _ s' => contains sub s'
     end.

(** [s.find(sub)]: the first position of [sub], counted from [i]. *)
Fixpoint find_from (sub s : string) (i : nat) {struct s} : option nat :=
  if startswith sub s then Some i
  else match s with
       | EmptyString => None
       | String _ s' => find_from sub s' (S i)
       end.

Definition find (sub s : string) : option nat := find_from sub s 0.

(** [s.rfind(sub)]: the last position of [sub]. *)
Fixpoint rfind (sub s : string) {struct s} : option nat :=
  match s with
  | EmptyString => if startswith sub s then Some 0%nat else None
  | String _ s' =>
      match rfind sub s' with
      | Some i => Some (S i)
      | None => if startswith sub s then Some 0%nat else None
      end
  end.

(** [s.split(sep, 1)]. *)
Definition split1 (sep s : string) : list string :=
  match find sep s with
  | Some i => [take i s; drop (i + String.length sep) s]
  | None => [s]
  end.

(** [s.split(c)] for a separator of one character. *)
Fixpoint split_char (c : ascii) (s : string) : list string :=
  match s with
  | EmptyString => [EmptyString]
  | String a s' =>
      if Ascii.eqb a c then EmptyString :: split_char c s'
      else match split_char c s' with
           | w :: ws => String a w :: ws
           | [] => [String a EmptyString]
           end
  end.

Fixpoint lstrip (s : string) : string :=
  match s with
  | EmptyString => EmptyString
  | String c s' => if isspace c then lstrip s' else s
  end.

Fixpoint rstrip (s : string) : string :=
  match s with
  | EmptyString => EmptyString
  | String c s' =>
      match rstrip s' with
      | EmptyString => if isspace c then EmptyString else String c EmptyString
      | r => String c r
      end
  end.

(** [s.strip()]. *)
Definition strip (s : string) : string := rstrip (lstrip s).

(** [sep.join(l)]. *)
Fixpoint join (sep : string) (l : list string) : string :=
  match l with
  | [] => EmptyString
  | [x] => x
  | x :: l' => x ++ sep ++ join sep l'
  end.

(** [s.replace(old, new)] for [old] and [new] of one character each. *)
Fixpoint replace_char (old new : ascii) (s : string) : string :=
  match s with
  | EmptyString => EmptyString
  | String c s' => String (if Ascii.eqb c old then new else c) (replace_char old new s')
  end.

(** [c in chars], for one character. *)
Fixpoint char_in (c : ascii) (chars : string) : bool :=
  match chars with
  | EmptyString => false
  | String a chars' => Ascii.eqb c a || char_in c chars'
  end.

(** [s.lstrip(chars)], [s.rstrip(chars)] and [s.strip(chars)]. *)
Fixpoint lstrip_chars (chars s : string) : string :=
  match s with
  | EmptyString => EmptyString
  | String c s' => if char_in c chars then lstrip_chars chars s' else s
  end.

Fixpoint rstrip_chars (chars s : string) : string :=
  match s with
  | EmptyString => EmptyString
  | String c s' =>
      match rstrip_chars chars s' with
      | EmptyString => if char_in c chars then EmptyString else String c EmptyString
      | r => String c r
      end
  end.

Definition strip_chars (chars s : string) : string :=
  rstrip_chars chars (lstrip_chars chars s).

End Py.

(** ** Values, exceptions and outcomes *)

(** The objects the evaluator and the blocks exchange.  [VNONE] is the
    singleton [NONE] of [primitives.py]; [VSome] and [VErr] are its
    dataclasses [Some] and [Err]; [VOk] and [VIOErr] are the dataclasses
    [Ok] and [Err] of [io_adapter.py], the ones [io_primitives.py] imports.
    A dict is kept in insertion order and has [str] keys.  [VAttr o n]
    stands for an attribute object of the host language that is not data
    (a bound method, say), obtained as attribute [n] of [o]. *)
#[warnings="-register-all"]
Inductive value : Type :=
  | VNONE
  | VBool (b : bool)
  | VInt (n : Z)
  | VFloat (f : spec_float)
  | VStr (s : string)
  | VList (l : list value)
  | VTuple (l : list value)
  | VDict (d : list (string * value))
  | VSome (v : value)
  | VErr (reason : value)
  | VOk (v : value)
  | VIOErr (error : value)
  | VAttr (owner : value) (name : string).

(** The exceptions the embedded code can raise.  [PyException text v] is
    [Exception(f"{text}{v}")]: the formatted value is kept as it is. *)
Inductive exc : Type :=
  | TypeError
  | ValueError
  | IndexError
  | ZeroDivisionError
  | OverflowError
  | PyException (text : string) (v : value).

Inductive outcome (A : Type) : Type :=
  | Ret (a : A)
  | Raise (e : exc)
  | Unmodelled
  | NoFuel.

Arguments Ret {A} a.
Arguments Raise {A} e.
Arguments Unmodelled {A}.
Arguments NoFuel {A}.

Definition outcome_bind {A B : Type} (m : outcome A) (f : A -> outcome B) : outcome B :=
  match m with
  | Ret a => f a
  | Raise e => Raise e
  | Unmodelled => Unmodelled
  | NoFuel => NoFuel
  end.

Notation "'let*' x := m 'in' k" := (outcome_bind m (fun x => k))
  (at level 10, x name, m at level 100, k at level 200).

(** [option] results of the host's partial functions, read as an outcome
    that raises [e] on [None]. *)
Definition or_raise {A : Type} (e : exc) (o : option A) : outcome A :=
  match o with
  | Some a => Ret a
  | None => Raise e
  end.

(** Monadic map and filter over a list, left to right, as a comprehension
    evaluates them. *)
Fixpoint mapM_outcome {A B : Type} (f : A -> outcome B) (l : list A) : outcome (list B) :=
  match l with
  | [] => Ret []
  | x :: l' => let* y := f x in let* ys := mapM_outcome f l' in Ret (y :: ys)
  end.

Fixpoint filterM_outcome {A : Type} (p : A -> outcome bool) (l : list A) : outcome (list A) :=
  match l with
  | [] => Ret []
  | x :: l' => let* b := p x in let* ys := filterM_outcome p l' in Ret (if b then x :: ys else ys)
  end.

(** ** Numbers of the host language *)

Module PyNum.

Definition prec : Z := 53.
Definition emax : Z := 1024.

Definition fadd := SFadd prec emax.
Definition fsub := SFsub prec emax.
Definition fmul := SFmul prec emax.

Definition neg_if (s : bool) (z : Z) : Z := if s then (- z)%Z else z.

(** [m * 2 ** e], rounded to the nearest float, ties to even. *)
Definition round_Z (m e : Z) (szero : bool) : spec_float :=
  binary_normalize prec emax m e szero.

(** [n / d] for integers with [d <> 0], rounded to the nearest float. *)
Definition round_quot (n d : Z) : spec_float :=
  let s := xorb (n <? 0)%Z (d <? 0)%Z in
  let '(m, e, l) := SFdiv_core_binary prec emax (Z.abs n) 0 (Z.abs d) 0 in
  binary_round_aux prec emax s m e l.

Definition is_inf (f : spec_float) : bool :=
  match f with S754_infinity _ => true | _ => false end.

Definition is_nan (f : spec_float) : bool :=
  match f with S754_nan => true | _ => false end.

Definition is_zero (f : spec_float) : bool :=
  match f with S754_zero _ => true | _ => false end.

Definition is_neg (f : spec_float) : bool :=
  match f with
  | S754_zero s | S754_infinity s | S754_finite s _ _ => s
  | S754_nan => false
  end.

(** [float(n)] of an [int]: [OverflowError] beyond the finite floats. *)
Definition of_int (n : Z) : outcome spec_float :=
  let f := round_Z n 0 false in
  if is_inf f then Raise OverflowError else Ret f.

(** [int(f)] of a [float]: truncation toward zero. *)
Definition to_int (f : spec_float) : outcome Z :=
  match f with
  | S754_zero _ => Ret 0%Z
  | S754_infinity _ => Raise OverflowError
  | S754_nan => Raise ValueError
  | S754_finite s m e => Ret (neg_if s (Z.shiftl (Zpos m) e))
  end.

(** [n / d] of two [int]s (true division). *)
Definition int_truediv (n d : Z) : outcome spec_float :=
  if (d =? 0)%Z then Raise ZeroDivisionError
  else let f := round_quot n d in
       if is_inf f then Raise OverflowError else Ret f.

Definition float_truediv (x y : spec_float) : outcome spec_float :=
  if is_zero y then Raise ZeroDivisionError else Ret (SFdiv prec emax x y).

(** C's [fmod]: exact, with the sign of [x]. *)
Definition fmod (x y : spec_float) : spec_float :=
  match x, y with
  | S754_nan, _ | _, S754_nan => S754_nan
  | S754_infinity _, _ => S754_nan
  | _, S754_zero _ => S754_nan
  | S754_zero _, _ => x
  | S754_finite _ _ _, S754_infinity _ => x
  | S754_finite sx mx ex, S754_finite _ my ey =>
      let e := Z.min ex ey in
      let a := Z.shiftl (Zpos mx) (ex - e) in
      let b := Z.shiftl (Zpos my) (ey - e) in
      round_Z (neg_if sx (a mod b)) e sx
  end.

(** [x % y] of two [float]s: the sign of the result follows [y]. *)
Definition float_mod (x y : spec_float) : outcome spec_float :=
  if is_zero y then Raise ZeroDivisionError
  else let m := fmod x y in
       if is_zero m then Ret (S754_zero (is_neg y))
       else if negb (Bool.eqb (SFltb y (S754_zero false)) (SFltb m (S754_zero false)))
            then Ret (fadd m y)
            else Ret m.

(** [n % d] of two [int]s: the sign of the result follows [d]. *)
Definition int_mod (n d : Z) : outcome Z :=
  if (d =? 0)%Z then Raise ZeroDivisionError else Ret (n mod d)%Z.

(** Exact comparison of an [int] with a [float]; [None] for a NaN. *)
Definition compare_int_float (n : Z) (f : spec_float) : option comparison :=
  match f with
  | S754_nan => None
  | S754_infinity s => Some (if s then Gt else Lt)
  | S754_zero _ => Some (n ?= 0)%Z
  | S754_finite s m e =>
      if (0 <=? e)%Z then Some (n ?= neg_if s (Z.shiftl (Zpos m) e))%Z
      else Some (Z.shiftl n (- e) ?= neg_if s (Zpos m))%Z
  end.

(** A number: an [int] (or a [bool], which is an [int]) or a [float]. *)
Inductive num : Type :=
  | NInt (n : Z)
  | NFloat (f : spec_float).

Definition compare (a b : num) : option comparison :=
  match a, b with
  | NInt x, NInt y => Some (x ?= y)%Z
  | NFloat x, NFloat y => SFcompare x y
  | NInt x, NFloat y => compare_int_float x y
  | NFloat x, NInt y => option_map CompOpp (compare_int_float y x)
  end.

Definition to_float (a : num) : outcome spec_float :=
  match a with
  | NInt n => of_int n
  | NFloat f => Ret f
  end.

(** A binary arithmetic operator: on two [int]s it is [iop]; with a
    [float] on either side both operands become floats and it is [fop]. *)
Definition arith (iop : Z -> Z -> outcome num)
    (fop : spec_float -> spec_float -> outcome spec_float) (a b : num) : outcome num :=
  match a, b with
  | NInt x, NInt y => iop x y
  | _, _ =>
      let* x := to_float a in
      let* y := to_float b in
      let* r := fop x y in
      Ret (NFloat r)
  end.

Definition add := arith (fun x y => Ret (NInt (x + y))) (fun x y => Ret (fadd x y)).
Definition sub := arith (fun x y => Ret (NInt (x - y))) (fun x y => Ret (fsub x y)).
Definition mul := arith (fun x y => Ret (NInt (x * y))) (fun x y => Ret (fmul x y)).
Definition truediv :=
  arith (fun x y => let* r := int_truediv x y in Ret (NFloat r)) float_truediv.
Definition mod_ :=
  arith (fun x y => let* r := int_mod x y in Ret (NInt r)) float_mod.

End PyNum.

(** ** Conversions between numbers and text *)

Module PyConv.

Definition digit_of (c : ascii) : Z := Z.of_nat (Py.ord c - 48).

(** A run of decimal digits in which single underscores may separate
    digits: the value read so far, the number of digits, and the rest.
    [None] when an underscore is not between two digits. *)
Fixpoint digits_run (s : string) (acc : Z) (n : nat) : option (Z * nat * string) :=
  match s with
  | EmptyString => Some (acc, n, s)
  | String c s' =>
      if Py.isdecimal c then digits_run s' (10 * acc + digit_of c)%Z (S n)
      else if Ascii.eqb c "_" then
        match n, s' with
        | S _, String c' _ => if Py.isdecimal c' then digits_run s' acc n else None
        | _, _ => None
        end
      else Some (acc, n, s)
  end.

(** The white space [int] and [float] accept around a numeral. *)
Definition numspace (c : ascii) : bool :=
  let n := Py.ord c in
  Py.between 9 13 n || (n =? 32)%nat || (n =? 133)%nat || (n =? 160)%nat.

Fixpoint lstrip_num (s : string) : string :=
  match s with
  | EmptyString => EmptyString
  | String c s' => if numspace c then lstrip_num s' else s
  end.

Fixpoint rstrip_num (s : string) : string :=
  match s with
  | EmptyString => EmptyString
  | String c s' =>
      match rstrip_num s' with
      | EmptyString => if numspace c then EmptyString else String c EmptyString
      | r => String c r
      end
  end.

(** An optional sign: whether it is a minus, and the rest. *)
Definition sign_of (s : string) : bool * string :=
  match s with
  | String c r =>
      if Ascii.eqb c "-" then (true, r)
      else if Ascii.eqb c "+" then (false, r)
      else (false, s)
  | EmptyString => (false, s)
  end.

(** [int(s)] in base 10; [None] is [ValueError]. *)
Definition int_of_str (s : string) : option Z :=
  let '(neg, body) := sign_of (rstrip_num (lstrip_num s)) in
  match digits_run body 0 0 with
  | Some (v, S _, EmptyString) => Some (PyNum.neg_if neg v)
  | _ => None
  end.

Definition lower_char (c : ascii) : ascii :=
  if Py.between 65 90 (Py.ord c) then ascii_of_nat (Py.ord c + 32) else c.

Definition upper_char (c : ascii) : ascii :=
  if Py.between 97 122 (Py.ord c) then ascii_of_nat (Py.ord c - 32) else c.

Fixpoint map_chars (f : ascii -> ascii) (s : string) : string :=
  match s with
  | EmptyString => EmptyString
  | String c s' => String (f c) (map_chars f s')
  end.

(** The decimal numeral [m * 10 ** e] as a float, correctly rounded. *)
Definition decimal_to_float (neg : bool) (m e : Z) : spec_float :=
  if (m =? 0)%Z then S754_zero neg
  else if (0 <=? e)%Z then PyNum.round_Z (PyNum.neg_if neg (m * 10 ^ e)) 0 neg
  else PyNum.round_quot (PyNum.neg_if neg m) (10 ^ (- e)).

(** The exponent part of a float numeral: empty, or [e], an optional sign
    and digits up to the end. *)
Definition exponent_of (s : string) : option Z :=
  match s with
  | EmptyString => Some 0%Z
  | String c r =>
      if Ascii.eqb (lower_char c) "e" then
        let '(neg, body) := sign_of r in
        match digits_run body 0 0 with
        | Some (v, S _, EmptyString) => Some (PyNum.neg_if neg v)
        | _ => None
        end
      else None
  end.

(** [float(s)]; [None] is [ValueError]. *)
Definition float_of_str (s : string) : option spec_float :=
  let '(neg, body) := sign_of (rstrip_num (lstrip_num s)) in
  let low := map_chars lower_char body in
  if String.eqb low "inf" || String.eqb low "infinity" then Some (S754_infinity neg)
  else if String.eqb low "nan" then Some S754_nan
  else
    match digits_run body 0 0 with
    | Some (ip, ni, rest) =>
        let after_point :=
          match rest with
          | String c r =>
              if Ascii.eqb c "." then
                match digits_run r 0 0 with
                | Some (fp, nf, rest') => Some (fp, nf, rest')
                | None => None
                end
              else Some (0%Z, 0%nat, rest)
          | EmptyString => Some (0%Z, 0%nat, rest)
          end in
        match after_point with
        | Some (fp, nf, rest') =>
            if ((ni + nf)%nat =? 0)%nat then None
            else
              match exponent_of rest' with
              | Some ex =>
                  Some (decimal_to_float neg (ip * 10 ^ Z.of_nat nf + fp)
                          (ex - Z.of_nat nf))
              | None => None
              end
        | None => None
        end
    | None => None
    end.

(** The decimal digits of a natural number, most significant first;
    [fuel] bounds the number of digits. *)
Fixpoint digits_of (fuel : nat) (n : Z) (acc : string) : string :=
  match fuel with
  | O => acc
  | S fuel' =>
      let acc' := String (ascii_of_nat (48 + Z.to_nat (n mod 10))) acc in
      if (n <? 10)%Z then acc' else digits_of fuel' (n / 10)%Z acc'
  end.

(** [str(n)] of an [int]. *)
Definition str_of_int (n : Z) : string :=
  let d := digits_of (S (Z.to_nat (Z.log2 (Z.abs n)))) (Z.abs n) EmptyString in
  if (n <? 0)%Z then String "-" d else d.

End PyConv.

(** ** Operations of the host language on values *)

Definition as_num (v : value) : option PyNum.num :=
  match v with
  | VBool b => Some (PyNum.NInt (Z.b2z b))
  | VInt n => Some (PyNum.NInt n)
  | VFloat f => Some (PyNum.NFloat f)
  | _ => None
  end.

Definition of_num (a : PyNum.num) : value :=
  match a with
  | PyNum.NInt n => VInt n
  | PyNum.NFloat f => VFloat f
  end.

Definition is_attr (v : value) : bool :=
  match v with VAttr _ _ => true | _ => false end.

(** [bool(v)].  The classes of the repository other than [None_] define
    neither [__bool__] nor [__len__], so their instances are true. *)
Definition truthy (v : value) : outcome bool :=
  match v with
  | VNONE => Ret false
  | VBool b => Ret b
  | VInt n => Ret (negb (n =? 0)%Z)
  | VFloat f => Ret (negb (PyNum.is_zero f))
  | VStr s => Ret (negb (String.eqb s ""))
  | VList l | VTuple l => Ret (negb (Nat.eqb (List.length l) 0))
  | VDict d => Ret (negb (Nat.eqb (List.length d) 0))
  | VSome _ | VErr _ | VOk _ | VIOErr _ => Ret true
  | VAttr _ _ => Unmodelled
  end.

(** [d.get(k)] on the association list of a dict. *)
Fixpoint dict_lookup (k : string) (d : list (string * value)) : option value :=
  match d with
  | [] => None
  | (k', v) :: d' => if String.eqb k k' then Some v else dict_lookup k d'
  end.

(** [d[k] = v]: a present key keeps its place, a new one goes last. *)
Fixpoint dict_set (k : string) (v : value) (d : list (string * value)) : list (string * value) :=
  match d with
  | [] => [(k, v)]
  | (k', v') :: d' => if String.eqb k k' then (k, v) :: d' else (k', v') :: dict_set k v d'
  end.

Definition both_nan (a b : value) : bool :=
  match a, b with
  | VFloat x, VFloat y => PyNum.is_nan x && PyNum.is_nan y
  | _, _ => false
  end.

(** [a == b].  Containers compare their items with a shortcut for
    identical objects, which only shows when both items are NaN: with
    [inner] set (an item of a container) that case is [Unmodelled].  What
    an attribute object equals is not modelled either. *)
Fixpoint py_eq (inner : bool) (a b : value) {struct a} : outcome bool :=
  let other := if is_attr b then Unmodelled else Ret false in
  let items :=
    fix items (l1 l2 : list value) {struct l1} : outcome bool :=
      match l1, l2 with
      | x :: l1', y :: l2' =>
          let* r := py_eq true x y in
          if r then items l1' l2' else Ret false
      | _, _ => Ret true
      end in
  match a with
  | VNONE => match b with VNONE => Ret true | _ => other end
  | VBool _ | VInt _ | VFloat _ =>
      match as_num a, as_num b with
      | Some x, Some y =>
          if inner && both_nan a b then Unmodelled
          else Ret (match PyNum.compare x y with Some Eq => true | _ => false end)
      | _, _ => other
      end
  | VStr s => match b with VStr t => Ret (String.eqb s t) | _ => other end
  | VList l1 =>
      match b with
      | VList l2 =>
          if Nat.eqb (List.length l1) (List.length l2) then items l1 l2 else Ret false
      | _ => other
      end
  | VTuple l1 =>
      match b with
      | VTuple l2 =>
          if Nat.eqb (List.length l1) (List.length l2) then items l1 l2 else Ret false
      | _ => other
      end
  | VDict d1 =>
      match b with
      | VDict d2 =>
          if Nat.eqb (List.length d1) (List.length d2) then
            (fix entries (d : list (string * value)) : outcome bool :=
               match d with
               | [] => Ret true
               | (k, v) :: d' =>
                   match dict_lookup k d2 with
                   | None => Ret false
                   | Some v' =>
                       let* r := py_eq true v v' in
                       if r then entries d' else Ret false
                   end
               end) d1
          else Ret false
      | _ => other
      end
  | VSome x => match b with VSome y => py_eq true x y | _ => other end
  | VErr x => match b with VErr y => py_eq true x y | _ => other end
  | VOk x => match b with VOk y => py_eq true x y | _ => other end
  | VIOErr x => match b with VIOErr y => py_eq true x y | _ => other end
  | VAttr _ _ => Unmodelled
  end.

Inductive cmpop : Type := OpLt | OpLe | OpGt | OpGe.

Definition cmp_holds (op : cmpop) (c : option comparison) : bool :=
  match c, op with
  | Some Lt, (OpLt | OpLe) => true
  | Some Eq, (OpLe | OpGe) => true
  | Some Gt, (OpGt | OpGe) => true
  | _, _ => false
  end.

(** [a < b], [a <= b], [a > b], [a >= b].  Numbers compare by value,
    strings by code point, lists with lists and tuples with tuples by their
    first differing item; anything else is a [TypeError]. *)
Fixpoint py_order (op : cmpop) (a b : value) {struct a} : outcome bool :=
  let other := if is_attr b then Unmodelled else Raise TypeError in
  let items :=
    fix items (l1 l2 : list value) {struct l1} : outcome bool :=
      match l1, l2 with
      | x :: l1', y :: l2' =>
          let* r := py_eq true x y in
          if r then items l1' l2' else py_order op x y
      | _, _ => Ret (cmp_holds op (Some (Nat.compare (List.length l1) (List.length l2))))
      end in
  match a with
  | VBool _ | VInt _ | VFloat _ =>
      match as_num a, as_num b with
      | Some x, Some y => Ret (cmp_holds op (PyNum.compare x y))
      | _, _ => other
      end
  | VStr s => match b with VStr t => Ret (cmp_holds op (Some (String.compare s t))) | _ => other end
  | VList l1 => match b with VList l2 => items l1 l2 | _ => other end
  | VTuple l1 => match b with VTuple l2 => items l1 l2 | _ => other end
  | VAttr _ _ => Unmodelled
  | _ => other
  end.

(** The operators of the [operator] module the evaluator uses. *)
Definition operator_eq (a b : value) : outcome value :=
  let* r := py_eq false a b in Ret (VBool r).
Definition operator_ne (a b : value) : outcome value :=
  let* r := py_eq false a b in Ret (VBool (negb r)).
Definition operator_cmp (op : cmpop) (a b : value) : outcome value :=
  let* r := py_order op a b in Ret (VBool r).

Fixpoint repeat_str (n : nat) (s : string) : string :=
  match n with
  | O => EmptyString
  | S n' => s ++ repeat_str n' s
  end.

Fixpoint repeat_list {A : Type} (n : nat) (l : list A) : list A :=
  match n with
  | O => []
  | S n' => l ++ repeat_list n' l
  end.

(** An [int] or a [bool] as a repetition count. *)
Definition as_count (v : value) : option nat :=
  match v with
  | VBool b => Some (Z.to_nat (Z.b2z b))
  | VInt n => Some (Z.to_nat n)
  | _ => None
  end.

Definition lift_num (op : PyNum.num -> PyNum.num -> outcome PyNum.num)
    (a b : value) : outcome value :=
  match as_num a, as_num b with
  | Some x, Some y => let* r := op x y in Ret (of_num r)
  | _, _ => if is_attr a || is_attr b then Unmodelled else Raise TypeError
  end.

(** [operator.add]: numbers add, two strings, two lists or two tuples
    concatenate. *)
Definition operator_add (a b : value) : outcome value :=
  match a, b with
  | VStr s, VStr t => Ret (VStr (s ++ t))
  | VList l1, VList l2 => Ret (VList (l1 ++ l2))
  | VTuple l1, VTuple l2 => Ret (VTuple (l1 ++ l2))
  | _, _ => lift_num PyNum.add a b
  end.

Definition operator_sub (a b : value) : outcome value := lift_num PyNum.sub a b.

(** [operator.mul]: numbers multiply; a string, list or tuple times an
    [int] is repeated. *)
Definition operator_mul (a b : value) : outcome value :=
  let rep (seq count : value) : option value :=
    match as_count count with
    | Some n =>
        match seq with
        | VStr s => Some (VStr (repeat_str n s))
        | VList l => Some (VList (repeat_list n l))
        | VTuple l => Some (VTuple (repeat_list n l))
        | _ => None
        end
    | None => None
    end in
  match rep a b with
  | Some r => Ret r
  | None =>
      match rep b a with
      | Some r => Ret r
      | None => lift_num PyNum.mul a b
      end
  end.

Definition operator_truediv (a b : value) : outcome value := lift_num PyNum.truediv a b.

(** [operator.mod]: numbers; [str % x] is the host's string formatting,
    which is not modelled. *)
Definition operator_mod (a b : value) : outcome value :=
  match a with
  | VStr _ => Unmodelled
  | _ => lift_num PyNum.mod_ a b
  end.

(** Whether [hash(v)] succeeds: lists, dicts and the dataclass instances
    (which define [__eq__] and are not frozen) are unhashable. *)
Fixpoint hashable (v : value) : outcome bool :=
  match v with
  | VNONE | VBool _ | VInt _ | VFloat _ | VStr _ => Ret true
  | VTuple l =>
      (fix all (l : list value) : outcome bool :=
         match l with
         | [] => Ret true
         | x :: l' => let* h := hashable x in if h then all l' else Ret false
         end) l
  | VList _ | VDict _ | VSome _ | VErr _ | VOk _ | VIOErr _ => Ret false
  | VAttr _ _ => Unmodelled
  end.

(** [d.get(index, default)] for a dict with [str] keys. *)
Definition dict_get (d : list (string * value)) (index default : value) : outcome value :=
  let* h := hashable index in
  if h then
    match index with
    | VStr k => Ret (match dict_lookup k d with Some v => v | None => default end)
    | _ => Ret default
    end
  else Raise TypeError.

(** [int(v)]. *)
Definition py_int (v : value) : outcome Z :=
  match v with
  | VBool b => Ret (Z.b2z b)
  | VInt n => Ret n
  | VFloat f => PyNum.to_int f
  | VStr s => or_raise ValueError (PyConv.int_of_str s)
  | VAttr _ _ => Unmodelled
  | _ => Raise TypeError
  end.

(** [float(v)]. *)
Definition py_float (v : value) : outcome spec_float :=
  match v with
  | VBool b => PyNum.of_int (Z.b2z b)
  | VInt n => PyNum.of_int n
  | VFloat f => Ret f
  | VStr s => or_raise ValueError (PyConv.float_of_str s)
  | VAttr _ _ => Unmodelled
  | _ => Raise TypeError
  end.

(** [seq[i]] for an [int] index: a negative index counts from the end. *)
Definition seq_index (l : list value) (i : Z) : outcome value :=
  let n := Z.of_nat (List.length l) in
  let j := if (i <? 0)%Z then (i + n)%Z else i in
  if (j <? 0)%Z || (n <=? j)%Z then Raise IndexError
  else or_raise IndexError (nth_error l (Z.to_nat j)).

(** The items a [for] loop over [v] visits; [TypeError] when [v] is not
    iterable. *)
Definition chars_of (s : string) : list value :=
  List.map (fun c => VStr (String c EmptyString)) (list_ascii_of_string s).

Definition py_iter (v : value) : outcome (list value) :=
  match v with
  | VList l | VTuple l => Ret l
  | VStr s => Ret (chars_of s)
  | VDict d => Ret (List.map (fun kv => VStr (fst kv)) d)
  | VAttr _ _ => Unmodelled
  | _ => Raise TypeError
  end.

(** *** [repr] and [str] *)

Definition squote : ascii := "'"%char.
Definition dquote : ascii := "034"%char.
Definition backslash : ascii := "\"%char.

Definition hex_digit (n : nat) : ascii :=
  if (n <? 10)%nat then ascii_of_nat (48 + n) else ascii_of_nat (87 + n).

(** Whether [repr] writes a character of a string as it is. *)
Definition printable (c : ascii) : bool :=
  let n := Py.ord c in
  Py.between 32 126 n || (Py.between 161 255 n && negb (n =? 173)%nat).

Definition repr_char (quote c : ascii) : string :=
  let n := Py.ord c in
  if Ascii.eqb c backslash then String backslash (String backslash EmptyString)
  else if Ascii.eqb c quote then String backslash (String quote EmptyString)
  else if (n =? 9)%nat then String backslash "t"
  else if (n =? 10)%nat then String backslash "n"
  else if (n =? 13)%nat then String backslash "r"
  else if printable c then String c EmptyString
  else String backslash (String "x" (String (hex_digit (n / 16)) (String (hex_digit (n mod 16)) EmptyString))).

Fixpoint repr_chars (quote : ascii) (s : string) : string :=
  match s with
  | EmptyString => EmptyString
  | String c s' => repr_char quote c ++ repr_chars quote s'
  end.

(** [repr(s)] of a string: single quotes, unless the string has a single
    quote and no double quote. *)
Definition repr_str (s : string) : string :=
  let quote :=
    if Py.contains (String squote EmptyString) s
       && negb (Py.contains (String dquote EmptyString) s)
    then dquote else squote in
  String quote (repr_chars quote s ++ String quote EmptyString).

(** [repr(v)].  The classes of the repository define [__repr__]
    themselves.  The text of a float and of an attribute object is not
    modelled. *)
Fixpoint py_repr (v : value) : outcome string :=
  let items :=
    fix items (l : list value) : outcome (list string) :=
      match l with
      | [] => Ret []
      | x :: l' => let* r := py_repr x in let* rs := items l' in Ret (r :: rs)
      end in
  let wrap (name : string) (x : value) : outcome string :=
    let* r := py_repr x in Ret (name ++ "(" ++ r ++ ")")%string in
  match v with
  | VNONE => Ret "None_"
  | VBool b => Ret (if b then "True" else "False")
  | VInt n => Ret (PyConv.str_of_int n)
  | VFloat _ => Unmodelled
  | VStr s => Ret (repr_str s)
  | VList l => let* rs := items l in Ret ("[" ++ Py.join ", " rs ++ "]")%string
  | VTuple l =>
      let* rs := items l in
      match rs with
      | [r] => Ret ("(" ++ r ++ ",)")%string
      | _ => Ret ("(" ++ Py.join ", " rs ++ ")")%string
      end
  | VDict d =>
      let* rs :=
        (fix entries (d : list (string * value)) : outcome (list string) :=
           match d with
           | [] => Ret []
           | (k, x) :: d' =>
               let* r := py_repr x in
               let* rs := entries d' in
               Ret ((repr_str k ++ ": " ++ r)%string :: rs)
           end) d in
      Ret ("{" ++ Py.join ", " rs ++ "}")%string
  | VSome x => wrap "Some" x
  | VErr x => wrap "Err" x
  | VOk x => wrap "Ok" x
  | VIOErr x => wrap "Err" x
  | VAttr _ _ => Unmodelled
  end.

(** [str(v)]. *)
Definition py_str (v : value) : outcome string :=
  match v with
  | VStr s => Ret s
  | _ => py_repr v
  end.

(** [s.upper()] and [s.lower()]; beyond ASCII the case mapping of the
    host is not modelled. *)
Definition is_ascii (s : string) : bool :=
  Py.all_chars (fun c => (Py.ord c <? 128)%nat) s.

Definition py_upper (s : string) : outcome string :=
  if is_ascii s then Ret (PyConv.map_chars PyConv.upper_char s) else Unmodelled.

Definition py_lower (s : string) : outcome string :=
  if is_ascii s then Ret (PyConv.map_chars PyConv.lower_char s) else Unmodelled.

(** *** Attributes *)

(** The attributes the classes of the repository give their instances:
    the fields of the dataclasses and the class attribute of [None_]. *)
Definition class_getattr (v : value) (name : string) : option value :=
  match v with
  | VNONE => if String.eqb name "_instance" then Some VNONE else None
  | VSome x => if String.eqb name "value" then Some x else None
  | VErr x => if String.eqb name "reason" then Some x else None
  | VOk x => if String.eqb name "value" then Some x else None
  | VIOErr x => if String.eqb name "error" then Some x else None
  | _ => None
  end.

(** The attributes the host language gives an object: a table from a value
    and a name to the attribute, [None] where [getattr] raises
    [AttributeError].  The evaluator is parametric in it. *)
Definition attr_table : Type := value -> string -> option value.

(** [getattr(v, name)], [None] where [hasattr(v, name)] is false. *)
Definition py_getattr (host : attr_table) (v : value) (name : string) : option value :=
  match class_getattr v name with
  | Some r => Some r
  | None => host v name
  end.

(** ** The expression evaluator of [primitives.py] *)

(** [c in "([{"] and [c in ")]}"], for one character. *)
Definition opens (c : ascii) : bool :=
  Ascii.eqb c "(" || Ascii.eqb c "[" || Ascii.eqb c "{".

Definition closes (c : ascii) : bool :=
  Ascii.eqb c ")" || Ascii.eqb c "]" || Ascii.eqb c "}".

(** The loop of [find_at_depth_0]: [rest] is [expr[i:]].  The loop runs
    while [i < len(expr) - len(target) + 1], that is while [target] is no
    longer than [rest].  (With an empty [target] the source reads
    [expr[len(expr)]] and fails; it is only called with targets of one
    character or more.) *)
Fixpoint find_at_depth_0_loop (target : string) (rightmost : bool) (rest : string)
    (i depth found : Z) {struct rest} : Z :=
  match rest with
  | EmptyString => found
  | String c rest' =>
      if (String.length target <=? String.length rest)%nat then
        if opens c then
          find_at_depth_0_loop target rightmost rest' (i + 1) (depth + 1) found
        else if closes c then
          find_at_depth_0_loop target rightmost rest' (i + 1) (depth - 1) found
        else if (depth =? 0)%Z && Py.startswith target rest then
          if rightmost then find_at_depth_0_loop target rightmost rest' (i + 1) depth i
          else i
        else find_at_depth_0_loop target rightmost rest' (i + 1) depth found
      else found
  end.

(** [find_at_depth_0(expr, target, rightmost)]: the position of [target]
    outside brackets, or [-1]. *)
Definition find_at_depth_0 (expr target : string) (rightmost : bool) : Z :=
  find_at_depth_0_loop target rightmost expr 0 0 (-1).

(** [eval_literal(s)]. *)
Definition eval_literal (s : string) : value :=
  let s := Py.strip s in
  let dq := String dquote EmptyString in
  let sq := String squote EmptyString in
  if String.eqb s "true" then VBool true
  else if String.eqb s "false" then VBool false
  else if String.eqb s "null" then VNONE
  else if Py.startswith dq s && Py.endswith dq s then VStr (Py.slice s (Some 1%Z) (Some (-1)%Z))
  else if Py.startswith sq s && Py.endswith sq s then VStr (Py.slice s (Some 1%Z) (Some (-1)%Z))
  else match PyConv.int_of_str s with
       | Some n => VInt n
       | None =>
           match PyConv.float_of_str s with
           | Some f => VFloat f
           | None => VStr s
           end
       end.

(** The parameter names of a lambda, from the text before [=>]. *)
Definition param_names_of (params : string) : list string :=
  if Py.startswith "(" params && Py.endswith ")" params
  then List.map Py.strip (Py.split_char "," (Py.slice params (Some 1%Z) (Some (-1)%Z)))
  else [Py.strip params].

(** The loop [for i, name in enumerate(param_names)] of [evaluate]. *)
Fixpoint bind_each (names : list string) (i : nat) (input : list value)
    (ctx : gmap string value) : gmap string value :=
  match names with
  | [] => ctx
  | name :: names' =>
      let v := if (i <? List.length input)%nat then nth i input VNONE else VNONE in
      bind_each names' (S i) input (<[name := v]> ctx)
  end.

(** The binding context [evaluate] builds for an input.  ([param_names]
    comes from a [split] and is never empty; [param_names[0]] on an empty
    list would be an [IndexError].) *)
Definition bind_params (param_names : list string) (input : value)
    : outcome (gmap string value) :=
  match param_names with
  | [name] => Ret {[name := input]}
  | _ =>
      match input with
      | VTuple l | VList l => Ret (bind_each param_names 0 l ∅)
      | _ =>
          match param_names with
          | name :: _ => Ret {[name := input]}
          | [] => Raise IndexError
          end
      end
  end.

(** [split_args(s)]: the arguments of a call, split at the commas outside
    brackets. *)
Fixpoint split_args_loop (s : string) (depth : Z) (current : string) (result : list string)
    : list string :=
  match s with
  | EmptyString =>
      if negb (String.eqb (Py.strip current) "") then result ++ [Py.strip current]
      else result
  | String char s' =>
      let depth :=
        if opens char then (depth + 1)%Z
        else if closes char then (depth - 1)%Z
        else depth in
      if Ascii.eqb char "," && (depth =? 0)%Z
      then split_args_loop s' depth EmptyString (result ++ [Py.strip current])
      else split_args_loop s' depth (current ++ String char EmptyString) result
  end.

Definition split_args (s : string) : list string :=
  split_args_loop s 0 EmptyString [].

(** The net count of [(] against [)] in [s]. *)
Fixpoint paren_depth (s : string) (depth : Z) : Z :=
  match s with
  | EmptyString => depth
  | String c s' =>
      if Ascii.eqb c "(" then paren_depth s' (depth + 1)
      else if Ascii.eqb c ")" then paren_depth s' (depth - 1)
      else paren_depth s' depth
  end.

(** The scan of the ternary test: the first [?] outside brackets, or [-1]. *)
Fixpoint ternary_scan (s : string) (i depth q_pos : Z) : Z :=
  match s with
  | EmptyString => q_pos
  | String c s' =>
      if opens c then ternary_scan s' (i + 1) (depth + 1) q_pos
      else if closes c then ternary_scan s' (i + 1) (depth - 1) q_pos
      else if Ascii.eqb c "?" && (depth =? 0)%Z && (q_pos =? -1)%Z
      then ternary_scan s' (i + 1) depth i
      else ternary_scan s' (i + 1) depth q_pos
  end.

Definition builtin_names : list string :=
  ["length"; "uppercase"; "lowercase"; "toString"; "toNumber";
   "abs"; "min"; "max"; "sum"; "keys"; "values"].

(** The names the call test of [eval_expr] lists beside identifiers. *)
Definition call_names : list string :=
  ["filter"; "map"; "length"; "uppercase"; "lowercase"; "toString"; "toNumber";
   "abs"; "min"; "max"; "sum"; "keys"; "values"].

Definition mem_str (s : string) (l : list string) : bool :=
  existsb (String.eqb s) l.

(** [char in "{["] and [char in "}]"], as the literal parsers count depth. *)
Definition opens_literal (c : ascii) : bool := Ascii.eqb c "{" || Ascii.eqb c "[".
Definition closes_literal (c : ascii) : bool := Ascii.eqb c "}" || Ascii.eqb c "]".

Section Evaluator.

(** The attribute table of the host. *)
Variable host : attr_table.

(** The evaluator the functions below call back: [eval_expr] itself. *)
Variable ev : string -> gmap string value -> outcome value.

(** [parse_expr(expr)]: the function a lambda expression compiles to. *)
Definition parse_expr_with (expr : string) : value -> outcome value :=
  if negb (Py.contains "=>" expr) then fun _ => Ret (eval_literal expr)
  else
    match Py.split1 "=>" expr with
    | [p; b] =>
        let params := Py.strip p in
        let body := Py.strip b in
        let param_names := param_names_of params in
        fun input_ =>
          let* ctx := bind_params param_names input_ in
          ev body ctx
    | _ => fun _ => Raise IndexError
    end.

(** [k, v = current.split(":", 1); result[k.strip()] = eval_expr(v.strip(), ctx)] *)
Definition object_entry (current : string) (ctx : gmap string value)
    (result : list (string * value)) : outcome (list (string * value)) :=
  match Py.split1 ":" current with
  | [k; v] =>
      let* x := ev (Py.strip v) ctx in
      Ret (dict_set (Py.strip k) x result)
  | _ => Raise ValueError
  end.

Fixpoint eval_object_loop (inner : string) (ctx : gmap string value) (depth : Z)
    (current : string) (result : list (string * value)) : outcome (list (string * value)) :=
  match inner with
  | EmptyString =>
      if negb (String.eqb (Py.strip current) "") && Py.contains ":" current
      then object_entry current ctx result
      else Ret result
  | String char inner' =>
      let depth :=
        if opens_literal char then (depth + 1)%Z
        else if closes_literal char then (depth - 1)%Z
        else depth in
      if Ascii.eqb char "," && (depth =? 0)%Z then
        let* result :=
          if Py.contains ":" current then object_entry current ctx result
          else Ret result in
        eval_object_loop inner' ctx depth EmptyString result
      else eval_object_loop inner' ctx depth (current ++ String char EmptyString) result
  end.

(** [eval_object(expr, ctx)]. *)
Definition eval_object (expr : string) (ctx : gmap string value) : outcome value :=
  let inner := Py.strip (Py.slice expr (Some 1%Z) (Some (-1)%Z)) in
  if String.eqb inner "" then Ret (VDict [])
  else
    let* result := eval_object_loop inner ctx 0 EmptyString [] in
    Ret (VDict result).

Fixpoint eval_array_loop (inner : string) (ctx : gmap string value) (depth : Z)
    (current : string) (result : list value) : outcome (list value) :=
  match inner with
  | EmptyString =>
      if negb (String.eqb (Py.strip current) "") then
        let* x := ev (Py.strip current) ctx in
        Ret (result ++ [x])
      else Ret result
  | String char inner' =>
      let depth :=
        if opens_literal char then (depth + 1)%Z
        else if closes_literal char then (depth - 1)%Z
        else depth in
      if Ascii.eqb char "," && (depth =? 0)%Z then
        let* x := ev (Py.strip current) ctx in
        eval_array_loop inner' ctx depth EmptyString (result ++ [x])
      else eval_array_loop inner' ctx depth (current ++ String char EmptyString) result
  end.

(** [eval_array(expr, ctx)]. *)
Definition eval_array (expr : string) (ctx : gmap string value) : outcome value :=
  let inner := Py.strip (Py.slice expr (Some 1%Z) (Some (-1)%Z)) in
  if String.eqb inner "" then Ret (VList [])
  else
    let* result := eval_array_loop inner ctx 0 EmptyString [] in
    Ret (VList result).

(** [eval_ternary(expr, ctx)]: the three parts are split at the first [?]
    and the last [:] of the text, and all three are evaluated. *)
Definition eval_ternary (expr : string) (ctx : gmap string value) : outcome value :=
  let* q_idx := or_raise ValueError (Py.find "?" expr) in
  let* c_idx := or_raise ValueError (Py.rfind ":" expr) in
  let q := Z.of_nat q_idx in
  let c := Z.of_nat c_idx in
  let* cond := ev (Py.slice expr None (Some q)) ctx in
  let* then_val := ev (Py.slice expr (Some (q + 1)%Z) (Some c)) ctx in
  let* else_val := ev (Py.slice expr (Some (c + 1)%Z) None) ctx in
  let* t := truthy cond in
  Ret (if t then then_val else else_val).

(** The loop of [eval_property_access] over [parts[1:]]. *)
Fixpoint property_loop (parts : list string) (v : value) : value :=
  match parts with
  | [] => v
  | part :: parts' =>
      match v with
      | VDict d =>
          property_loop parts' (match dict_lookup part d with Some x => x | None => VNONE end)
      | _ =>
          match py_getattr host v part with
          | Some x => property_loop parts' x
          | None => VNONE
          end
      end
  end.

(** [eval_property_access(expr, ctx)]. *)
Definition eval_property_access (expr : string) (ctx : gmap string value) : outcome value :=
  match Py.split_char "." expr with
  | first :: rest =>
      let v := match ctx !! first with Some x => x | None => eval_literal first end in
      Ret (property_loop rest v)
  | [] => Raise IndexError
  end.

(** [eval_index_access(expr, ctx)]. *)
Definition eval_index_access (expr : string) (ctx : gmap string value) : outcome value :=
  let* bracket_idx := or_raise ValueError (Py.find "[" expr) in
  let b := Z.of_nat bracket_idx in
  let* base := ev (Py.slice expr None (Some b)) ctx in
  let* index := ev (Py.slice expr (Some (b + 1)%Z) (Some (-1)%Z)) ctx in
  match base with
  | VList l | VTuple l =>
      let* i := py_int index in
      if (i <? Z.of_nat (List.length l))%Z then seq_index l i else Ret VNONE
  | VDict d => dict_get d index VNONE
  | _ => Ret VNONE
  end.

End Evaluator.

(** *** The builtin functions of [eval_function_call] *)

(** [abs(v)]. *)
Definition py_abs (v : value) : outcome value :=
  match v with
  | VBool b => Ret (VInt (Z.b2z b))
  | VInt n => Ret (VInt (Z.abs n))
  | VFloat f => Ret (VFloat (SFabs f))
  | VAttr _ _ => Unmodelled
  | _ => Raise TypeError
  end.

(** The loop of [min] and [max]: an item replaces the best so far when
    it compares [op] against it. *)
Fixpoint extremum (op : cmpop) (best : value) (l : list value) : outcome value :=
  match l with
  | [] => Ret best
  | x :: l' =>
      let* b := py_order op x best in
      extremum op (if b then x else best) l'
  end.

(** [min(v)] and [max(v)] of one iterable argument. *)
Definition py_extremum (op : cmpop) (v : value) : outcome value :=
  let* items := py_iter v in
  match items with
  | [] => Raise ValueError
  | x :: l => extremum op x l
  end.

(** [sum(v)]: the items added to [0] from left to right.  How the host
    adds floats in [sum] depends on its version and is not modelled. *)
Fixpoint sum_loop (acc : value) (l : list value) : outcome value :=
  match l with
  | [] => Ret acc
  | x :: l' =>
      match x with
      | VFloat _ => Unmodelled
      | _ => let* acc' := operator_add acc x in sum_loop acc' l'
      end
  end.

Definition py_sum (v : value) : outcome value :=
  let* items := py_iter v in sum_loop (VInt 0) items.

Section Calls.

Variable host : attr_table.
Variable ev : string -> gmap string value -> outcome value.

(** [len(x) if hasattr(x, "__len__") else 0] *)
Definition builtin_length (x : value) : outcome value :=
  match py_getattr host x "__len__" with
  | Some _ =>
      match x with
      | VStr s => Ret (VInt (Z.of_nat (String.length s)))
      | VList l | VTuple l => Ret (VInt (Z.of_nat (List.length l)))
      | VDict d => Ret (VInt (Z.of_nat (List.length d)))
      | _ => Unmodelled
      end
  | None => Ret (VInt 0)
  end.

(** [float(x) if "." in str(x) else int(x)] *)
Definition builtin_toNumber (x : value) : outcome value :=
  let* s := py_str x in
  if Py.contains "." s then let* f := py_float x in Ret (VFloat f)
  else let* n := py_int x in Ret (VInt n).

(** The table [builtins] of [eval_function_call]. *)
Definition builtin (fn_name : string) : option (value -> outcome value) :=
  if String.eqb fn_name "length" then Some builtin_length
  else if String.eqb fn_name "uppercase" then
    Some (fun x => let* s := py_str x in let* u := py_upper s in Ret (VStr u))
  else if String.eqb fn_name "lowercase" then
    Some (fun x => let* s := py_str x in let* u := py_lower s in Ret (VStr u))
  else if String.eqb fn_name "toString" then
    Some (fun x => let* s := py_str x in Ret (VStr s))
  else if String.eqb fn_name "toNumber" then Some builtin_toNumber
  else if String.eqb fn_name "abs" then Some py_abs
  else if String.eqb fn_name "min" then Some (py_extremum OpLt)
  else if String.eqb fn_name "max" then Some (py_extremum OpGt)
  else if String.eqb fn_name "sum" then Some py_sum
  else if String.eqb fn_name "keys" then
    Some (fun x => match x with
                   | VDict d => Ret (VList (List.map (fun kv => VStr (fst kv)) d))
                   | _ => Ret (VList [])
                   end)
  else if String.eqb fn_name "values" then
    Some (fun x => match x with
                   | VDict d => Ret (VList (List.map snd d))
                   | _ => Ret (VList [])
                   end)
  else None.

(** [eval_function_call(expr, ctx)]. *)
Definition eval_function_call (expr : string) (ctx : gmap string value) : outcome value :=
  let* paren_idx := or_raise ValueError (Py.find "(" expr) in
  let p := Z.of_nat paren_idx in
  let fn_name := Py.slice expr None (Some p) in
  let args_str := Py.slice expr (Some (p + 1)%Z) (Some (-1)%Z) in
  match builtin fn_name with
  | Some f => let* arg := ev args_str ctx in f arg
  | None =>
      if String.eqb fn_name "filter" then
        let parts := split_args args_str in
        let* part0 := or_raise IndexError (nth_error parts 0) in
        let* lst := ev part0 ctx in
        let* part1 := or_raise IndexError (nth_error parts 1) in
        let pred := parse_expr_with ev part1 in
        let* items := py_iter lst in
        let* kept := filterM_outcome (fun x => let* r := pred x in truthy r) items in
        Ret (VList kept)
      else if String.eqb fn_name "map" then
        let parts := split_args args_str in
        let* part0 := or_raise IndexError (nth_error parts 0) in
        let* lst := ev part0 ctx in
        let* part1 := or_raise IndexError (nth_error parts 1) in
        let fn := parse_expr_with ev part1 in
        let* items := py_iter lst in
        let* mapped := mapM_outcome fn items in
        Ret (VList mapped)
      else Ret VNONE
  end.

(** The call test of [eval_expr]: [None] when the text is not taken as a
    call. *)
Definition try_function_call (expr : string) (ctx : gmap string value)
    : option (outcome value) :=
  if Py.contains "(" expr && Py.endswith ")" expr then
    match Py.find "(" expr with
    | Some paren_idx =>
        let p := Z.of_nat paren_idx in
        let fn_name := Py.slice expr None (Some p) in
        if Py.isidentifier fn_name || mem_str fn_name call_names then
          if (paren_depth (Py.slice expr (Some p) None) 0 =? 0)%Z
          then Some (eval_function_call expr ctx)
          else None
        else None
    | None => Some (Raise ValueError)
    end
  else None.

(** The ternary test of [eval_expr]. *)
Definition try_ternary (expr : string) (ctx : gmap string value) : option (outcome value) :=
  if Py.contains "?" expr && Py.contains ":" expr then
    if (0 <? ternary_scan expr 0 0 (-1))%Z then Some (eval_ternary ev expr ctx)
    else None
  else None.

(** The comparison operators, in the order [eval_expr] tries them. *)
Definition comparison_ops : list (string * (value -> value -> outcome value)) :=
  [("==", operator_eq); ("!=", operator_ne);
   (">=", operator_cmp OpGe); ("<=", operator_cmp OpLe);
   (">", operator_cmp OpGt); ("<", operator_cmp OpLt)].

Fixpoint try_comparison (ops : list (string * (value -> value -> outcome value)))
    (expr : string) (ctx : gmap string value) : option (outcome value) :=
  match ops with
  | [] => None
  | (op, fn) :: ops' =>
      if Py.contains op expr then
        let idx := find_at_depth_0 expr op false in
        if (0 <=? idx)%Z then
          Some (let* left := ev (Py.slice expr None (Some idx)) ctx in
                let* right :=
                  ev (Py.slice expr (Some (idx + Z.of_nat (String.length op))%Z) None) ctx in
                fn left right)
        else try_comparison ops' expr ctx
      else try_comparison ops' expr ctx
  end.

(** [a && b] and [a || b]: Python's [and] and [or] on the two values. *)
Definition try_logical (is_and : bool) (expr : string) (ctx : gmap string value)
    : option (outcome value) :=
  let op := if is_and then " && " else " || " in
  if Py.contains op expr then
    let idx := find_at_depth_0 expr op false in
    if (0 <=? idx)%Z then
      Some (let* left := ev (Py.slice expr None (Some idx)) ctx in
            let* t := truthy left in
            if Bool.eqb t is_and
            then ev (Py.slice expr (Some (idx + 4)%Z) None) ctx
            else Ret left)
    else None
  else None.

(** The arithmetic operators, in the order [eval_expr] tries them. *)
Definition arithmetic_ops : list (string * (value -> value -> outcome value)) :=
  [("+", operator_add); ("-", operator_sub); ("*", operator_mul);
   ("/", operator_truediv); ("%", operator_mod)].

Fixpoint try_arithmetic (ops : list (string * (value -> value -> outcome value)))
    (expr : string) (ctx : gmap string value) : option (outcome value) :=
  match ops with
  | [] => None
  | (op, fn) :: ops' =>
      let spaced_op := (" " ++ op ++ " ")%string in
      if Py.contains spaced_op expr then
        let idx := find_at_depth_0 expr spaced_op true in
        if (0 <=? idx)%Z then
          let left_part := Py.strip (Py.slice expr None (Some idx)) in
          let right_part :=
            Py.strip (Py.slice expr (Some (idx + Z.of_nat (String.length spaced_op))%Z) None) in
          if negb (String.eqb left_part "") && negb (String.eqb right_part "") then
            Some (let* left := ev left_part ctx in
                  let* right := ev right_part ctx in
                  match left with
                  | VStr s =>
                      if String.eqb op "+"
                      then let* t := py_str right in Ret (VStr (s ++ t))
                      else fn left right
                  | _ => fn left right
                  end)
          else try_arithmetic ops' expr ctx
        else try_arithmetic ops' expr ctx
      else try_arithmetic ops' expr ctx
  end.

(** The body of [eval_expr(expr, ctx)]. *)
Definition eval_expr_body (expr : string) (ctx : gmap string value) : outcome value :=
  let expr := Py.strip expr in
  if Py.startswith "{" expr && Py.endswith "}" expr then eval_object ev expr ctx
  else if Py.startswith "[" expr && Py.endswith "]" expr then eval_array ev expr ctx
  else
    match try_function_call expr ctx with Some r => r | None =>
    match try_ternary expr ctx with Some r => r | None =>
    match try_comparison comparison_ops expr ctx with Some r => r | None =>
    match try_logical true expr ctx with Some r => r | None =>
    match try_logical false expr ctx with Some r => r | None =>
    match try_arithmetic arithmetic_ops expr ctx with Some r => r | None =>
      if Py.contains "." expr
         && negb (match expr with String c _ => Py.isdigit c | EmptyString => false end)
      then eval_property_access host expr ctx
      else if Py.contains "[" expr && Py.endswith "]" expr
      then eval_index_access ev expr ctx
      else
        match ctx !! expr with
        | Some v => Ret v
        | None => Ret (eval_literal expr)
        end
    end end end end end end.

End Calls.

(** [eval_expr] with a bound on the depth of the recursion. *)
Fixpoint eval_expr_fuel (host : attr_table) (fuel : nat) (expr : string)
    (ctx : gmap string value) : outcome value :=
  match fuel with
  | O => NoFuel
  | S fuel' => eval_expr_body host (eval_expr_fuel host fuel') expr ctx
  end.

(** [eval_expr(expr, ctx)].  Every recursive call is on a shorter text, so
    the length of the text is fuel enough ([eval_expr_unfold] below). *)
Definition eval_expr (host : attr_table) (expr : string) (ctx : gmap string value)
    : outcome value :=
  eval_expr_fuel host (S (String.length expr)) expr ctx.

(** [parse_expr(expr)]. *)
Definition parse_expr (host : attr_table) (expr : string) : value -> outcome value :=
  parse_expr_with (eval_expr host) expr.

(** ** Blocks and the primitives that build them *)

(** [Block]: a name and a function; calling a block calls the function. *)
Record Block : Type := { name : string; fn : value -> outcome value }.

Definition call (b : Block) (input_ : value) : outcome value := fn b input_.

(** What [branch] takes for [then] and [else_]: an expression or a block. *)
Inductive target : Type :=
  | TExpr (expr : string)
  | TBlock (b : Block).

(** The loop of [repeat_fn]: [n] iterations of [range(max_iterations)]
    are left. *)
Fixpoint repeat_loop (cond : value -> outcome value) (block : Block) (n : nat)
    (result : value) : outcome value :=
  match n with
  | O => Ret result
  | S n' =>
      let* c := cond result in
      let* t := truthy c in
      if negb t then Ret result
      else let* result' := call block result in repeat_loop cond block n' result'
  end.

(** The loop of [pipe_fn]. *)
Fixpoint pipe_loop (blocks : list Block) (result : value) : outcome value :=
  match blocks with
  | [] => Ret result
  | block :: blocks' => let* result' := call block result in pipe_loop blocks' result'
  end.

Module Primitives.
Section WithHost.

Variable host : attr_table.

Definition transform (f : string) : Block :=
  {| name := "transform(" ++ f ++ ")"; fn := parse_expr host f |}.

Definition filter_fn (pred : value -> outcome value) (x : value) : outcome value :=
  match x with
  | VList l =>
      let* kept := filterM_outcome (fun item => let* r := pred item in truthy r) l in
      Ret (VList kept)
  | _ =>
      let* r := pred x in
      let* t := truthy r in
      Ret (if t then VSome x else VNONE)
  end.

Definition filter (predicate : string) : Block :=
  {| name := "filter(" ++ predicate ++ ")"; fn := filter_fn (parse_expr host predicate) |}.

Definition target_fn (t : target) : value -> outcome value :=
  match t with
  | TExpr expr => parse_expr host expr
  | TBlock b => call b
  end.

Definition branch_fn (cond then_fn else_fn : value -> outcome value) (x : value)
    : outcome value :=
  let* c := cond x in
  let* t := truthy c in
  if t then then_fn x else else_fn x.

Definition branch (condition : string) (then_ else_ : target) : Block :=
  {| name := "branch(" ++ condition ++ ")";
     fn := branch_fn (parse_expr host condition) (target_fn then_) (target_fn else_) |}.

Definition pipe (blocks : list Block) : Block :=
  {| name := "pipe(" ++ Py.join " | " (List.map name blocks) ++ ")";
     fn := pipe_loop blocks |}.

Definition parallel_fn (blocks : list Block) (x : value) : outcome value :=
  let* results := mapM_outcome (fun block => call block x) blocks in
  Ret (VTuple results).

Definition parallel (blocks : list Block) : Block :=
  {| name := "parallel(" ++ PyConv.str_of_int (Z.of_nat (List.length blocks)) ++ " blocks)";
     fn := parallel_fn blocks |}.

Definition fanout (blocks : list Block) : Block := parallel blocks.

Definition merge (f : string) : Block :=
  {| name := "merge(" ++ f ++ ")"; fn := parse_expr host f |}.

Definition default_max_iterations : Z := 1000.

Definition repeat_fn (cond : value -> outcome value) (block : Block) (max_iterations : Z)
    (x : value) : outcome value :=
  repeat_loop cond block (Z.to_nat max_iterations) x.

Definition repeat (condition : string) (block : Block) (max_iterations : Z) : Block :=
  {| name := "repeat(" ++ condition ++ ")";
     fn := repeat_fn (parse_expr host condition) block max_iterations |}.

End WithHost.
End Primitives.

(** ** The result handling blocks of [io_primitives.py] *)

Definition unwrap_fn (result : value) : outcome value :=
  match result with
  | VOk v => Ret v
  | VIOErr error => Raise (PyException "Unwrap failed: " error)
  | _ => Ret result
  end.

Definition unwrap : Block := {| name := "unwrap()"; fn := unwrap_fn |}.

(** ** A table of host attributes

    The attribute names CPython 3.11 lists ([dir]) for the builtin types and
    for instances of the classes of the repository.  The evaluator and the
    theorems about it are parametric in the table; this one instantiates
    the examples.  An attribute that is a number is given as the number,
    any other as an attribute object; attribute objects are given no
    attributes of their own here, so with this table a chain that goes on
    through a method or through [__doc__], [__dict__] or [__name__] ends
    in [NONE] where the host would go on.  No theorem below rests on such
    a chain: the theorems hold for every table. *)

Module HostAttrs.

(** Attributes of every object. *)
Definition object_attrs : list string :=
  ["__class__"; "__delattr__"; "__dir__"; "__doc__"; "__eq__"; "__format__";
   "__ge__"; "__getattribute__"; "__getstate__"; "__gt__"; "__hash__"; "__init__";
   "__init_subclass__"; "__le__"; "__lt__"; "__ne__"; "__new__"; "__reduce__";
   "__reduce_ex__"; "__repr__"; "__setattr__"; "__sizeof__"; "__str__";
   "__subclasshook__"].

(** Attributes of an [int] or a [bool], beside those of every object. *)
Definition int_attrs : list string :=
  ["__abs__"; "__add__"; "__and__"; "__bool__"; "__ceil__"; "__divmod__";
   "__float__"; "__floor__"; "__floordiv__"; "__getnewargs__"; "__index__";
   "__int__"; "__invert__"; "__lshift__"; "__mod__"; "__mul__"; "__neg__"; "__or__";
   "__pos__"; "__pow__"; "__radd__"; "__rand__"; "__rdivmod__"; "__rfloordiv__";
   "__rlshift__"; "__rmod__"; "__rmul__"; "__ror__"; "__round__"; "__rpow__";
   "__rrshift__"; "__rshift__"; "__rsub__"; "__rtruediv__"; "__rxor__"; "__sub__";
   "__truediv__"; "__trunc__"; "__xor__"; "as_integer_ratio"; "bit_count";
   "bit_length"; "conjugate"; "denominator"; "from_bytes"; "imag"; "numerator";
   "real"; "to_bytes"].

(** Attributes of a [float], beside those of every object. *)
Definition float_attrs : list string :=
  ["__abs__"; "__add__"; "__bool__"; "__ceil__"; "__divmod__"; "__float__";
   "__floor__"; "__floordiv__"; "__getformat__"; "__getnewargs__"; "__int__";
   "__mod__"; "__mul__"; "__neg__"; "__pos__"; "__pow__"; "__radd__"; "__rdivmod__";
   "__rfloordiv__"; "__rmod__"; "__rmul__"; "__round__"; "__rpow__"; "__rsub__";
   "__rtruediv__"; "__sub__"; "__truediv__"; "__trunc__"; "as_integer_ratio";
   "conjugate"; "fromhex"; "hex"; "imag"; "is_integer"; "real"].

(** Attributes of a [str], beside those of every object. *)
Definition str_attrs : list string :=
  ["__add__"; "__contains__"; "__getitem__"; "__getnewargs__"; "__iter__"; "__len__";
   "__mod__"; "__mul__"; "__rmod__"; "__rmul__"; "capitalize"; "casefold"; "center";
   "count"; "encode"; "endswith"; "expandtabs"; "find"; "format"; "format_map";
   "index"; "isalnum"; "isalpha"; "isascii"; "isdecimal"; "isdigit"; "isidentifier";
   "islower"; "isnumeric"; "isprintable"; "isspace"; "istitle"; "isupper"; "join";
   "ljust"; "lower"; "lstrip"; "maketrans"; "partition"; "removeprefix";
   "removesuffix"; "replace"; "rfind"; "rindex"; "rjust"; "rpartition"; "rsplit";
   "rstrip"; "split"; "splitlines"; "startswith"; "strip"; "swapcase"; "title";
   "translate"; "upper"; "zfill"].

(** Attributes of a [list], beside those of every object. *)
Definition list_attrs : list string :=
  ["__add__"; "__class_getitem__"; "__contains__"; "__delitem__"; "__getitem__";
   "__iadd__"; "__imul__"; "__iter__"; "__len__"; "__mul__"; "__reversed__";
   "__rmul__"; "__setitem__"; "append"; "clear"; "copy"; "count"; "extend"; "index";
   "insert"; "pop"; "remove"; "reverse"; "sort"].

(** Attributes of a [tuple], beside those of every object. *)
Definition tuple_attrs : list string :=
  ["__add__"; "__class_getitem__"; "__contains__"; "__getitem__"; "__getnewargs__";
   "__iter__"; "__len__"; "__mul__"; "__rmul__"; "count"; "index"].

(** Attributes of a [dict], beside those of every object. *)
Definition dict_attrs : list string :=
  ["__class_getitem__"; "__contains__"; "__delitem__"; "__getitem__"; "__ior__";
   "__iter__"; "__len__"; "__or__"; "__reversed__"; "__ror__"; "__setitem__";
   "clear"; "copy"; "fromkeys"; "get"; "items"; "keys"; "pop"; "popitem";
   "setdefault"; "update"; "values"].

(** Attributes of an instance of a dataclass, beside its fields. *)
Definition dataclass_attrs : list string :=
  ["__annotations__"; "__dataclass_fields__"; "__dataclass_params__"; "__dict__";
   "__match_args__"; "__module__"; "__weakref__"].

(** Attributes of [NONE], beside [_instance]. *)
Definition none_attrs : list string :=
  ["__bool__"; "__dict__"; "__module__"; "__weakref__"].

(** The methods of [Ok] and [Err] of [io_adapter.py]. *)
Definition result_attrs : list string := ["is_ok"; "is_err"; "unwrap"].

Definition names_of (v : value) : list string :=
  object_attrs ++
  match v with
  | VNONE => none_attrs
  | VBool _ | VInt _ => int_attrs
  | VFloat _ => float_attrs
  | VStr _ => str_attrs
  | VList _ => list_attrs
  | VTuple _ => tuple_attrs
  | VDict _ => dict_attrs
  | VSome _ | VErr _ => dataclass_attrs
  | VOk _ | VIOErr _ => dataclass_attrs ++ result_attrs
  | VAttr _ _ => []
  end.

(** The attributes that are numbers. *)
Definition number_attr (v : value) (name : string) : option value :=
  match as_num v with
  | Some (PyNum.NInt n) =>
      if String.eqb name "real" || String.eqb name "numerator" then Some (VInt n)
      else if String.eqb name "imag" then Some (VInt 0)
      else if String.eqb name "denominator" then Some (VInt 1)
      else None
  | Some (PyNum.NFloat f) =>
      if String.eqb name "real" then Some (VFloat f)
      else if String.eqb name "imag" then Some (VFloat (S754_zero false))
      else None
  | None => None
  end.

Definition cpython : attr_table :=
  fun v name =>
    match v with
    | VAttr _ _ => None
    | _ =>
        if mem_str name (names_of v) then
          match number_attr v name with
          | Some x => Some x
          | None => Some (VAttr v name)
          end
        else None
    end.

End HostAttrs.

(** ** The other result handling blocks of [io_primitives.py] *)

Section ResultBlocks.

Variable host : attr_table.



(** [map_ok(fn_expr)] *)
Definition map_ok_fn (f : value -> outcome value) (result : value) : outcome value :=
  match result with
  | VOk v => let* r := f v in Ret (VOk r)
  | _ => Ret result
  end.

Definition map_ok (fn_expr : string) : Block :=
  {| name := "map_ok(" ++ fn_expr ++ ")"; fn := map_ok_fn (parse_expr host fn_expr) |}.

(** [map_err(fn_expr)] *)
Definition map_err_fn (f : value -> outcome value) (result : value) : outcome value :=
  match result with
  | VIOErr error => let* r := f error in Ret (VIOErr r)
  | _ => Ret result
  end.

Definition map_err (fn_expr : string) : Block :=
  {| name := "map_err(" ++ fn_expr ++ ")"; fn := map_err_fn (parse_expr host fn_expr) |}.

End ResultBlocks.

(** [is_ok()] and [is_err()] *)
Definition is_ok_fn (result : value) : outcome value :=
  Ret (VBool (match result with VOk _ => true | _ => false end)).

Definition is_ok : Block := {| name := "is_ok()"; fn := is_ok_fn |}.



(** ** The store and the runtime of [primitives.py] *)

(** [Store]: the dict [_data] behind [set], [get] and [update].  The
    methods are written on the content of the store: a method that changes
    it returns the new content, and one that raises leaves the store as it
    was.  ([__repr__] is not modelled.) *)
Module Store.

Definition t : Type := gmap string value.

(** [Store()] *)
Definition init : t := ∅.

(** [store.set(key, value)] *)
Definition set (store : t) (key : string) (v : value) : t := <[key := v]> store.

(** [store.get(key)]: [self._data.get(key, NONE)] *)
Definition get (store : t) (key : string) : value :=
  match store !! key with
  | Some v => v
  | None => VNONE
  end.

(** [store.update(key, fn)]: [self._data[key] = fn(self._data.get(key, NONE))] *)
Definition update (store : t) (key : string) (f : value -> outcome value) : outcome t :=
  let* v := f (get store key) in
  Ret (<[key := v]> store).

End Store.

(** [KeyError(key)]: what the lookup of a block that is not registered
    raises. *)
Inductive key_error : Type := KeyError (key : string).

(** [Runtime]: a store and the registered blocks. *)
Module Runtime.

Record t : Type := { store : Store.t; blocks : gmap string Block }.

(** [Runtime()] *)
Definition init : t := {| store := Store.init; blocks := ∅ |}.

(** [runtime.register(name, block)] *)
Definition register (rt : t) (block_name : string) (block : Block) : t :=
  {| store := store rt; blocks := <[block_name := block]> (blocks rt) |}.

(** [runtime.run(block, input_)], with [NONE] for an omitted input. *)
Definition run (rt : t) (block : Block) (input_ : option value) : outcome value :=
  call block (match input_ with Some v => v | None => VNONE end).

(** [[self.blocks[n] for n in block_names]]: the first name that is not
    registered is a [KeyError]. *)
Fixpoint lookup_blocks (rt : t) (block_names : list string) : key_error + list Block :=
  match block_names with
  | [] => inr []
  | n :: block_names' =>
      match blocks rt !! n with
      | None => inl (KeyError n)
      | Some b =>
          match lookup_blocks rt block_names' with
          | inl e => inl e
          | inr bs => inr (b :: bs)
          end
      end
  end.

(** [runtime.pipe(...)] on the names [block_names] *)
Definition pipe (rt : t) (block_names : list string) : key_error + Block :=
  match lookup_blocks rt block_names with
  | inl e => inl e
  | inr bs => inr (Primitives.pipe bs)
  end.

End Runtime.

(** ** Dicts with values of any one type *)

(** A dict with [str] keys as the list of its items in insertion order;
    the keys of a dict are pairwise different. *)
Module PyDict.
Section Ops.

Context {A : Type}.

(** [d.get(k)] *)
Fixpoint get (k : string) (d : list (string * A)) : option A :=
  match d with
  | [] => None
  | (k', v) :: d' => if String.eqb k k' then Some v else get k d'
  end.

(** [k in d] *)
Definition mem (k : string) (d : list (string * A)) : bool :=
  match get k d with Some _ => true | None => false end.

(** [d[k] = v]: a present key keeps its place, a new one goes last. *)
Fixpoint set (k : string) (v : A) (d : list (string * A)) : list (string * A) :=
  match d with
  | [] => [(k, v)]
  | (k', v') :: d' => if String.eqb k k' then (k, v) :: d' else (k', v') :: set k v d'
  end.

(** [del d[k]], for a key of [d]. *)
Fixpoint del (k : string) (d : list (string * A)) : list (string * A) :=
  match d with
  | [] => []
  | (k', v') :: d' => if String.eqb k k' then d' else (k', v') :: del k d'
  end.

(** The keys, in the order a loop over the dict visits them. *)
Definition keys (d : list (string * A)) : list string := List.map fst d.

End Ops.
End PyDict.

(** ** The mock adapter of [io_adapter.py] *)

(** [MockAdapter]: the file system, the environment and the console, all
    held in memory.  A method is a function of the state of the adapter
    that returns its result and the state it leaves.  The arguments have
    the types the methods declare.  The HTTP, time, random, argument and
    log methods, [setup] and [reset_captures] are not part of the
    embedding. *)
Module Mock.

(** [IOError(type, message=None, path=None)] *)
Inductive IOError : Type :=
  | mkIOError (type : string) (message : option string) (path : option string).

(** [Ok(value)] and [Err(error)] *)
Inductive result (A : Type) : Type :=
  | Ok (value : A)
  | Err (error : IOError).

Arguments Ok {A} value.
Arguments Err {A} error.

Record t : Type := {
  fs : list (string * string);
  env : list (string * string);
  stdin_buffer : string;
  stdout_buffer : string;
  stderr_buffer : string
}.

(** [MockAdapter()] *)
Definition init : t :=
  {| fs := []; env := []; stdin_buffer := ""; stdout_buffer := ""; stderr_buffer := "" |}.

Definition with_fs (st : t) (fs' : list (string * string)) : t :=
  {| fs := fs'; env := env st; stdin_buffer := stdin_buffer st;
     stdout_buffer := stdout_buffer st; stderr_buffer := stderr_buffer st |}.

Definition with_stdout (st : t) (buffer : string) : t :=
  {| fs := fs st; env := env st; stdin_buffer := stdin_buffer st;
     stdout_buffer := buffer; stderr_buffer := stderr_buffer st |}.

Definition with_stderr (st : t) (buffer : string) : t :=
  {| fs := fs st; env := env st; stdin_buffer := stdin_buffer st;
     stdout_buffer := stdout_buffer st; stderr_buffer := buffer |}.

(** [_normalize_path(path)]: [path.replace("\\", "/").strip("/")] *)
Definition normalize_path (path : string) : string :=
  Py.strip_chars "/" (Py.replace_char "\" "/" path).

(** [fs_read(path)]; the mock adapter does not look at the encoding. *)
Definition fs_read (st : t) (path : string) : result string :=
  let path := normalize_path path in
  match PyDict.get path (fs st) with
  | Some content => Ok content
  | None => Err (mkIOError "NotFound" None (Some path))
  end.

(** [fs_write(path, content, mode)]; [Ok(None)] is [Ok tt]. *)
Definition fs_write (st : t) (path content mode : string) : result unit * t :=
  let path := normalize_path path in
  if String.eqb mode "create_new" && PyDict.mem path (fs st) then
    (Err (mkIOError "AlreadyExists" None (Some path)), st)
  else
    match (if String.eqb mode "append" then PyDict.get path (fs st) else None) with
    | Some old => (Ok tt, with_fs st (PyDict.set path (old ++ content)%string (fs st)))
    | None => (Ok tt, with_fs st (PyDict.set path content (fs st)))
    end.

(** [fs_exists(path)] *)
Definition fs_exists (st : t) (path : string) : bool :=
  PyDict.mem (normalize_path path) (fs st).

(** [fs_delete(path)] *)
Definition fs_delete (st : t) (path : string) : result unit * t :=
  let path := normalize_path path in
  if PyDict.mem path (fs st) then (Ok tt, with_fs st (PyDict.del path (fs st)))
  else (Err (mkIOError "NotFound" None (Some path)), st).

(** [_matches_glob(name, pattern)] *)
Definition matches_glob (entry_name pattern : string) : bool :=
  if String.eqb pattern "*" then true
  else if Py.startswith "*." pattern
  then Py.endswith (Py.slice pattern (Some 1%Z) None) entry_name
  else String.eqb entry_name pattern.

(** An entry of a listing: [{"name": name, "type": entry_type}]. *)
Record entry : Type := { entry_name : string; entry_type : string }.

(** The loop of [fs_list] over the paths of the file system. *)
Fixpoint fs_list_loop (path : string) (pattern : option string) (file_paths : list string)
    (entries : list entry) (seen : gset string) : list entry :=
  match file_paths with
  | [] => entries
  | file_path :: file_paths' =>
      if Py.startswith path file_path then
        let remainder := Py.slice file_path (Some (Z.of_nat (String.length path))) None in
        let '(n, entry_type) :=
          if Py.contains "/" remainder
          then (hd EmptyString (Py.split_char "/" remainder), "directory")
          else (remainder, "file") in
        if negb (String.eqb n "") && negb (bool_decide (n ∈ seen)) then
          if match pattern with
             | None => true
             | Some pat => matches_glob n pat
             end
          then fs_list_loop path pattern file_paths'
                 (entries ++ [{| entry_name := n; entry_type := entry_type |}])
                 (seen ∪ {[n]})
          else fs_list_loop path pattern file_paths' entries seen
        else fs_list_loop path pattern file_paths' entries seen
      else fs_list_loop path pattern file_paths' entries seen
  end.

(** [fs_list(path, pattern)] *)
Definition fs_list (st : t) (path : string) (pattern : option string) : result (list entry) :=
  let path := normalize_path path in
  let path := if negb (Py.endswith "/" path) then (path ++ "/")%string else path in
  Ok (fs_list_loop path pattern (PyDict.keys (fs st)) [] ∅).

(** [env_get(name, default)]: [Some(value)] or [NONE]. *)
Definition env_get (st : t) (var : string) (default : option string) : option string :=
  match PyDict.get var (env st) with
  | Some v => Some v
  | None => default
  end.

(** [stdout(text, newline)] *)
Definition stdout (st : t) (text : string) (newline : bool) : t :=
  let buffer := (stdout_buffer st ++ text)%string in
  with_stdout st (if newline then buffer ++ String "010" EmptyString else buffer)%string.

(** [stderr(text)] *)
Definition stderr (st : t) (text : string) : t :=
  with_stderr st (stderr_buffer st ++ (text ++ String "010" EmptyString))%string.

(** [stdin(prompt)]: a prompt that is given and not empty goes to the
    standard output. *)
Definition stdin (st : t) (prompt : option string) : result string * t :=
  let st' :=
    match prompt with
    | Some pr => if String.eqb pr "" then st else stdout st pr false
    | None => st
    end in
  (Ok (stdin_buffer st'), st').

End Mock.


(** * Vocabulary of the properties *)

(** ** Induction on values, through lists and dicts *)

Section ValueInduction.

Variable P : value -> Prop.
Hypothesis HNONE : P VNONE.
Hypothesis HBool : forall b, P (VBool b).
Hypothesis HInt : forall n, P (VInt n).
Hypothesis HFloat : forall f, P (VFloat f).
Hypothesis HStr : forall s, P (VStr s).
Hypothesis HList : forall l, List.Forall P l -> P (VList l).
Hypothesis HTuple : forall l, List.Forall P l -> P (VTuple l).
Hypothesis HDict : forall d, List.Forall (fun kv => P (snd kv)) d -> P (VDict d).
Hypothesis HSome : forall v, P v -> P (VSome v).
Hypothesis HErr : forall v, P v -> P (VErr v).
Hypothesis HOk : forall v, P v -> P (VOk v).
Hypothesis HIOErr : forall v, P v -> P (VIOErr v).
Hypothesis HAttr : forall v n, P v -> P (VAttr v n).

Fixpoint value_nested_ind (v : value) : P v :=
  match v with
  | VNONE => HNONE
  | VBool b => HBool b
  | VInt n => HInt n
  | VFloat f => HFloat f
  | VStr s => HStr s
  | VList l =>
      HList l ((fix all (l : list value) : List.Forall P l :=
                  match l with
                  | [] => @List.Forall_nil _ P
                  | x :: l' => @List.Forall_cons _ P x l' (value_nested_ind x) (all l')
                  end) l)
  | VTuple l =>
      HTuple l ((fix all (l : list value) : List.Forall P l :=
                   match l with
                   | [] => @List.Forall_nil _ P
                   | x :: l' => @List.Forall_cons _ P x l' (value_nested_ind x) (all l')
                   end) l)
  | VDict d =>
      HDict d ((fix all (d : list (string * value))
                  : List.Forall (fun kv => P (snd kv)) d :=
                  match d with
                  | [] => @List.Forall_nil _ _
                  | kv :: d' =>
                      @List.Forall_cons _ (fun kv => P (snd kv)) kv d'
                        (value_nested_ind (snd kv)) (all d')
                  end) d)
  | VSome x => HSome x (value_nested_ind x)
  | VErr x => HErr x (value_nested_ind x)
  | VOk x => HOk x (value_nested_ind x)
  | VIOErr x => HIOErr x (value_nested_ind x)
  | VAttr o n => HAttr o n (value_nested_ind o)
  end.

End ValueInduction.

(** ** Truth values *)

(** The values the specification lists as false: [None], [false], zero,
    the empty string and the empty sequence. *)
Definition listed_falsy (v : value) : bool :=
  match v with
  | VNONE | VBool false | VInt 0 | VStr EmptyString | VList [] | VTuple [] => true
  | VFloat f => PyNum.is_zero f
  | _ => false
  end.

(** The values that are false in the host language: the listed ones and
    the empty dict. *)
Definition falsy (v : value) : bool :=
  match v with
  | VDict [] => true
  | _ => listed_falsy v
  end.

(** Whether a predicate's outcome counts as true. *)
Definition holds (o : outcome value) : bool :=
  match o with
  | Ret r => negb (falsy r)
  | _ => false
  end.

(** ** Runs of the bounded loop *)

(** [Steps cond block k x y]: from [x], [k] applications of the block, each
    one after the condition was true on the current value, lead to [y]. *)
Inductive Steps (cond : value -> outcome value) (block : Block) : nat -> value -> value -> Prop :=
  | Steps_done (x : value) : Steps cond block 0 x x
  | Steps_next (k : nat) (x c y z : value) :
      cond x = Ret c -> truthy c = Ret true -> call block x = Ret y ->
      Steps cond block k y z -> Steps cond block (S k) x z.

(** What one more turn of the loop does on [y]. *)
Definition turn (cond : value -> outcome value) (block : Block) (y : value) : outcome value :=
  let* c := cond y in
  let* t := truthy c in
  if negb t then Ret y else call block y.

(** The body of the Collatz example of the specification. *)
Definition collatz_step : Block :=
  Primitives.branch HostAttrs.cpython "n => n % 2 == 0" (TExpr "n => n / 2") (TExpr "n => n * 3 + 1").

(** The float nearest to an integer. *)
Definition float_of_Z (n : Z) : spec_float := PyNum.round_Z n 0 false.

(** ** A ternary with a bracket before its question mark *)

Definition nested_ternary : string := "a[x ? 0 : 1] ? 'yes' : 'no'".

Definition nested_ternary_ctx : gmap string value :=
  <["a" := VList [VInt 0; VInt 5]]> {["x" := VBool true]}.

(** ** Texts *)

(** The characters of [str(n)]: the decimal digits and the minus sign. *)
Definition numchar (c : ascii) : bool := Py.isdecimal c || Ascii.eqb c "-".

(** The value of a run of decimal digits. *)
Fixpoint digits_value (s : string) (acc : Z) : Z :=
  match s with
  | EmptyString => acc
  | String c s' => digits_value s' (10 * acc + PyConv.digit_of c)
  end.

(** The character of a decimal digit. *)
Definition digit_char (d : Z) : ascii := ascii_of_nat (48 + Z.to_nat d).

(** [avoids c s]: the character [c] does not occur in [s]. *)
Definition avoids (c : ascii) (s : string) : bool :=
  Py.all_chars (fun x => negb (Ascii.eqb x c)) s.

(** The characters the evaluator gives a meaning to, and white space. *)
Definition special (c : ascii) : bool :=
  Py.isspace c || negb (avoids c "{}[]()?=<>&|.").

(** An atom is a text with no special character: a name or a numeral. *)
Definition is_atom (s : string) : bool := Py.all_chars (fun c => negb (special c)) s.

(** The bracket depth after the characters of [s], from depth [d]. *)
Fixpoint depth_after (s : string) (d : Z) : Z :=
  match s with
  | EmptyString => d
  | String c s' =>
      depth_after s' (if opens c then d + 1 else if closes c then d - 1 else d)
  end.

(** [target] stands at position [j] of [s], outside brackets when the
    depth at the start of [s] is [d]. *)
Definition occurs_at (target s : string) (d : Z) (j : nat) : Prop :=
  (j + String.length target <= String.length s)%nat
  /\ depth_after (Py.take j s) d = 0%Z
  /\ Py.startswith target (Py.drop j s) = true.

(** ** Evaluators that are called back *)

(** Two evaluators agree on every text shorter than [L]. *)
Definition agree_below (ev ev' : string -> gmap string value -> outcome value) (L : nat)
    : Prop :=
  forall s c, (String.length s < L)%nat -> ev s c = ev' s c.

(** An evaluator has fuel enough on every text shorter than [L]. *)
Definition fueled_below (ev : string -> gmap string value -> outcome value) (L : nat)
    : Prop :=
  forall s c, (String.length s < L)%nat -> ev s c <> NoFuel.

(** ** Writes to a store *)

(** The store after the writes [store.set(k, v)], in the order of the list. *)
Definition store_writes (writes : list (string * value)) (store : Store.t) : Store.t :=
  fold_left (fun s kv => Store.set s (fst kv) (snd kv)) writes store.

(** The value of the last write to [key], if there is one. *)
Definition last_write (key : string) (writes : list (string * value)) : option value :=
  match List.find (fun kv => String.eqb (fst kv) key) (rev writes) with
  | Some kv => Some (snd kv)
  | None => None
  end.

(** [n] times [store.update(key, fn)], as long as [fn] returns. *)
Fixpoint store_updates (n : nat) (key : string) (f : value -> outcome value)
    (store : Store.t) : outcome Store.t :=
  match n with
  | O => Ret store
  | S n' => let* store' := Store.update store key f in store_updates n' key f store'
  end.

(** The runtime after [runtime.register(name, block)] for each pair of the
    list, in order. *)
Definition register_all (named : list (string * Block)) (rt : Runtime.t) : Runtime.t :=
  fold_left (fun r nb => Runtime.register r (fst nb) (snd nb)) named rt.

(** ** Operators between operands *)

(** An operator of one character with a space on either side. *)
Definition spaced (o : ascii) : string := String " " (String o (String " " EmptyString)).

(** The characters of the arithmetic operators. *)
Definition arith_char (o : ascii) : bool := Py.char_in o "+-*/%".

(** ** File systems of the mock adapter *)

(** The dict of a file system as the adapter keeps it: the paths are
    pairwise different, as the keys of a dict are, and every path is
    normalized, as every path the adapter writes is. *)
Definition fs_wf (fs : list (string * string)) : Prop :=
  List.NoDup (PyDict.keys fs)
  /\ Forall (fun path => Mock.normalize_path path = path) (PyDict.keys fs).

(** What holds of every entry of a listing: it has a name, the name has
    no slash, and it is a file or a directory. *)
Definition entry_ok (en : Mock.entry) : Prop :=
  Mock.entry_name en <> EmptyString
  /\ Py.contains "/" (Mock.entry_name en) = false
  /\ (Mock.entry_type en = "file" \/ Mock.entry_type en = "directory").

(** [target] stands nowhere in [p ++ rest] at a position inside [p]. *)
Definition no_match_in (target p rest : string) : Prop :=
  forall p1 a p2, p = (p1 ++ String a p2)%string ->
                  Py.startswith target (String a (p2 ++ rest)) = false.

(** ** Operands of an operator *)

(** No character of [chars] occurs in [s]. *)
Definition avoids_all (chars s : string) : bool :=
  Py.all_chars (fun c => negb (Py.char_in c chars)) s.

(** An operand: a text that is not empty, has no white space at either
    end and none of the characters [chars]. *)
Definition is_operand (chars s : string) : Prop :=
  avoids_all chars s = true /\ Py.strip s = s /\ s <> EmptyString.

(** The brackets and the characters of the ternary and the comparisons. *)
Definition comparison_chars : string := "{}[]()?=<>".

(** The same with the characters of the logical operators. *)
Definition operator_chars : string := "{}[]()?=<>&|".

(** The brackets and the question mark. *)
Definition ternary_chars : string := "{}[]()?".

(** * Properties *)

(** ** The outcome monad *)

Lemma bind_ret_l {A B : Type} (a : A) (f : A -> outcome B) :
  (let* x := Ret a in f x) = f a.
Proof. reflexivity. Qed.

Lemma bind_ret_r {A : Type} (m : outcome A) : (let* x := m in Ret x) = m.
Proof. destruct m; reflexivity. Qed.

Lemma bind_assoc {A B C : Type} (m : outcome A) (f : A -> outcome B) (g : B -> outcome C) :
  (let* y := (let* x := m in f x) in g y) = (let* x := m in let* y := f x in g y).
Proof. destruct m; reflexivity. Qed.

Lemma bind_returns {A B : Type} (m : outcome A) (f : A -> outcome B) (b : B) :
  (let* x := m in f x) = Ret b <-> exists a, m = Ret a /\ f a = Ret b.
Proof.
  split.
  - destruct m as [a| | |]; simpl; intros H; try discriminate. exists a. auto.
  - intros (a & -> & H). exact H.
Qed.

(** ** Sequential composition *)

Lemma pipe_loop_app (l1 l2 : list Block) (x : value) :
  pipe_loop (l1 ++ l2) x = (let* y := pipe_loop l1 x in pipe_loop l2 y).
Proof.
  revert x. induction l1 as [|b l1 IH]; intros x; simpl.
  - reflexivity.
  - rewrite bind_assoc. destruct (call b x); simpl; auto.
Qed.

Lemma pipe_singleton (b : Block) (x : value) : call (Primitives.pipe [b]) x = call b x.
Proof. unfold call at 1. simpl. apply bind_ret_r. Qed.

(** Nesting pipes is the same as one pipe over the concatenated blocks. *)
Lemma pipe_flatten (l1 l2 : list Block) (x : value) :
  call (Primitives.pipe [Primitives.pipe l1; Primitives.pipe l2]) x
  = call (Primitives.pipe (l1 ++ l2)) x.
Proof.
  unfold call. simpl. rewrite pipe_loop_app. unfold call. simpl.
  destruct (pipe_loop l1 x); simpl; auto. apply bind_ret_r.
Qed.

(** C6.  [pipe] is a monoid up to what the blocks compute: the pipe of no
    block returns its input, it is a unit on both sides, and for all blocks
    [A], [B], [C] and every input [x] the two nestings of [pipe] compute
    the same outcome, which is [C] applied to the result of [B] applied to
    the result of [A] on [x] (an exception of an earlier block
    propagating). *)
Theorem pipe_monoid_laws (A B C : Block) (x : value) :
  call (Primitives.pipe []) x = Ret x
  /\ call (Primitives.pipe [Primitives.pipe []; A]) x = call A x
  /\ call (Primitives.pipe [A; Primitives.pipe []]) x = call A x
  /\ call (Primitives.pipe [Primitives.pipe [A; B]; C]) x
     = call (Primitives.pipe [A; Primitives.pipe [B; C]]) x
  /\ call (Primitives.pipe [A; Primitives.pipe [B; C]]) x
     = (let* a := call A x in let* b := call B a in call C b).
Proof.
  unfold call. simpl. unfold call. simpl.
  repeat split.
  - apply bind_ret_r.
  - destruct (fn A x); simpl; reflexivity.
  - destruct (fn A x) as [a| | |]; simpl; try reflexivity.
    destruct (fn B a) as [b| | |]; simpl; try reflexivity.
    destruct (fn C b); reflexivity.
  - destruct (fn A x) as [a| | |]; simpl; try reflexivity.
    destruct (fn B a) as [b| | |]; simpl; try reflexivity.
    destruct (fn C b); reflexivity.
Qed.

(** The example of the specification:
    [pipe(transform("x => x + 1"), transform("x => x * 2"))(5) == 12]. *)
Example pipe_example :
  call (Primitives.pipe [Primitives.transform HostAttrs.cpython "x => x + 1";
                         Primitives.transform HostAttrs.cpython "x => x * 2"]) (VInt 5)
  = Ret (VInt 12).
Proof. vm_compute. reflexivity. Qed.

(** ** Fan-out *)

Lemma mapM_outcome_returns {A B : Type} (f : A -> outcome B) (l : list A) (rs : list B) :
  mapM_outcome f l = Ret rs <-> Forall2 (fun a r => f a = Ret r) l rs.
Proof.
  revert rs. induction l as [|a l IH]; intros rs; simpl.
  - split.
    + intros [= <-]. constructor.
    + intros H. inversion H. reflexivity.
  - split.
    + intros H. apply bind_returns in H as (r & Hr & H).
      apply bind_returns in H as (rs' & Hrs & [= <-]).
      constructor; [exact Hr | apply IH; exact Hrs].
    + intros H. inversion H as [|? r ? rs' Hr Hrs]; subst.
      rewrite Hr. simpl. apply IH in Hrs. rewrite Hrs. reflexivity.
Qed.

(** C7.  When every block of [parallel(U1, ..., Un)] returns on the input
    [x], the block built by [parallel], and by its alias [fanout], returns
    a tuple of [n] components whose [i]-th component is what the [i]-th
    block returns on that same [x]. *)
Theorem parallel_ordered (blocks : list Block) (x : value) (rs : list value) :
  Forall2 (fun b r => call b x = Ret r) blocks rs ->
  call (Primitives.parallel blocks) x = Ret (VTuple rs)
  /\ call (Primitives.fanout blocks) x = Ret (VTuple rs)
  /\ List.length rs = List.length blocks
  /\ forall (i : nat) (b : Block), nth_error blocks i = Some b ->
       exists r, nth_error rs i = Some r /\ call b x = Ret r.
Proof.
  intros H.
  assert (Hp : call (Primitives.parallel blocks) x = Ret (VTuple rs)).
  { unfold call at 1. simpl. unfold Primitives.parallel_fn.
    apply mapM_outcome_returns in H. rewrite H. reflexivity. }
  split; [exact Hp|]. split; [exact Hp|]. split.
  - symmetry. eapply Forall2_length. exact H.
  - clear Hp. induction H as [|b0 r0 bs rs0 H0 H IH]; intros i b Hi.
    + destruct i; discriminate.
    + destruct i as [|i]; simpl in *.
      * injection Hi as <-. exists r0. auto.
      * apply IH; auto.
Qed.

(** An instance: three blocks on the input [5]. *)
Lemma parallel_ordered_witness :
  call (Primitives.parallel
          [Primitives.transform HostAttrs.cpython "x => x + 1";
           Primitives.transform HostAttrs.cpython "x => x * 2";
           Primitives.transform HostAttrs.cpython "x => x - 3"]) (VInt 5)
  = Ret (VTuple [VInt 6; VInt 10; VInt 2]).
Proof.
  apply (parallel_ordered
           [Primitives.transform HostAttrs.cpython "x => x + 1";
            Primitives.transform HostAttrs.cpython "x => x * 2";
            Primitives.transform HostAttrs.cpython "x => x - 3"]
           (VInt 5) [VInt 6; VInt 10; VInt 2]).
  repeat constructor.
Defined.

(** X15.  The first block that does not return decides the outcome: the blocks
    after it are not reached. *)
Lemma parallel_propagates (before after : list Block) (b : Block) (x : value)
    (rs : list value) (e : exc) :
  Forall2 (fun b r => call b x = Ret r) before rs ->
  call b x = Raise e ->
  call (Primitives.parallel (before ++ b :: after)) x = Raise e.
Proof.
  intros H Hb. unfold call at 1. simpl. unfold Primitives.parallel_fn.
  induction H as [|b0 r0 bs rs0 H0 H IH]; simpl.
  - rewrite Hb. reflexivity.
  - rewrite H0. simpl.
    destruct (mapM_outcome (fun block => call block x) (bs ++ b :: after));
      simpl in *; try discriminate; auto.
Qed.

(** ** Unwrapping a result *)

(** C9.  [unwrap()] raises exactly on the inputs [Err(e)], and the
    exception it raises is [Exception(f"Unwrap failed: {e}")]; on [Ok(v)]
    it returns [v]; every other input is returned unchanged. *)
Theorem unwrap_spec (result : value) :
  ((exists e, call unwrap result = Raise e) <-> (exists error, result = VIOErr error))
  /\ (forall error, result = VIOErr error ->
        call unwrap result = Raise (PyException "Unwrap failed: " error))
  /\ (forall v, result = VOk v -> call unwrap result = Ret v)
  /\ ((forall v, result <> VOk v) -> (forall error, result <> VIOErr error) ->
        call unwrap result = Ret result).
Proof.
  unfold call. simpl. repeat split.
  - intros [e He]. destruct result; simpl in He; try discriminate. eauto.
  - intros [error ->]. simpl. eauto.
  - intros error ->. reflexivity.
  - intros v ->. reflexivity.
  - intros Hok Herr. destruct result; simpl; try reflexivity.
    + exfalso. eapply Hok. reflexivity.
    + exfalso. eapply Herr. reflexivity.
Qed.

(** Instances: an [Err], an [Ok], a plain value, and the [Err] class of
    [primitives.py], which is not the one [unwrap] tests for. *)
Lemma unwrap_spec_witness :
  call unwrap (VIOErr (VStr "NotFound")) = Raise (PyException "Unwrap failed: " (VStr "NotFound"))
  /\ call unwrap (VOk (VInt 3)) = Ret (VInt 3)
  /\ call unwrap (VInt 3) = Ret (VInt 3)
  /\ call unwrap (VErr (VStr "r")) = Ret (VErr (VStr "r")).
Proof.
  split; [| split; [| split]].
  - apply (unwrap_spec (VIOErr (VStr "NotFound"))). reflexivity.
  - apply (unwrap_spec (VOk (VInt 3))). reflexivity.
  - apply (unwrap_spec (VInt 3)); intros; discriminate.
  - apply (unwrap_spec (VErr (VStr "r"))); intros; discriminate.
Defined.

(** ** Filtering *)

Lemma truthy_falsy (r : value) : is_attr r = false -> truthy r = Ret (negb (falsy r)).
Proof.
  intros H. destruct r as [|b|n|f|s|l|l|d| | | | |]; simpl in *;
    try reflexivity; try discriminate.
  - destruct b; reflexivity.
  - destruct s; reflexivity.
  - destruct l; reflexivity.
  - destruct l; reflexivity.
  - destruct d; reflexivity.
Qed.

Lemma filterM_outcome_filter (p : value -> outcome value) (l : list value) :
  (forall x, In x l -> exists r, p x = Ret r /\ is_attr r = false) ->
  filterM_outcome (fun item => let* r := p item in truthy r) l
  = Ret (List.filter (fun x => holds (p x)) l).
Proof.
  induction l as [|x l IH]; intros H; simpl.
  - reflexivity.
  - destruct (H x) as (r & Hr & Ha); [left; reflexivity|].
    rewrite Hr. simpl. rewrite (truthy_falsy r Ha). simpl.
    rewrite IH by (intros y Hy; apply H; right; exact Hy). simpl.
    destruct (falsy r); reflexivity.
Qed.

(** C5, the amended claim.  On a list, [filter(predicateExpr)] returns the
    list of those items, in order, on which the compiled predicate is
    true; on an input that is not a list it returns [Some(input)] when the
    predicate is true on it and [NONE] otherwise.  False are [NONE],
    [false], zero, the empty string, the empty sequence and the empty
    dict; every other value (attribute objects of the host apart) is true.
    The predicate is supposed to return on the items it is applied to. *)
Theorem filter_spec (host : attr_table) (predicate : string) :
  let pred := parse_expr host predicate in
  (forall l : list value,
      (forall x, In x l -> exists r, pred x = Ret r /\ is_attr r = false) ->
      call (Primitives.filter host predicate) (VList l)
      = Ret (VList (List.filter (fun x => holds (pred x)) l)))
  /\ (forall v r : value,
        (forall l, v <> VList l) -> pred v = Ret r -> is_attr r = false ->
        call (Primitives.filter host predicate) v
        = Ret (if falsy r then VNONE else VSome v))
  /\ (forall r : value, is_attr r = false -> truthy r = Ret (negb (falsy r))).
Proof.
  intros pred. split; [| split].
  - intros l H. unfold call. simpl. unfold Primitives.filter_fn.
    fold pred. rewrite filterM_outcome_filter by exact H. reflexivity.
  - intros v r Hv Hr Ha. unfold call. simpl. unfold Primitives.filter_fn. fold pred.
    destruct v; try (rewrite Hr; simpl; rewrite (truthy_falsy r Ha); simpl;
                     destruct (falsy r); reflexivity).
    exfalso. eapply Hv. reflexivity.
  - exact truthy_falsy.
Qed.

(** The example of the specification:
    [filter("x => x % 2 == 0")([1,2,3,4,5,6]) == [2,4,6]], and the two
    cases of an input that is not a list. *)
Lemma filter_spec_witness :
  call (Primitives.filter HostAttrs.cpython "x => x % 2 == 0")
       (VList [VInt 1; VInt 2; VInt 3; VInt 4; VInt 5; VInt 6])
  = Ret (VList [VInt 2; VInt 4; VInt 6])
  /\ call (Primitives.filter HostAttrs.cpython "x => x % 2 == 0") (VInt 4)
     = Ret (VSome (VInt 4))
  /\ call (Primitives.filter HostAttrs.cpython "x => x % 2 == 0") (VInt 5) = Ret VNONE.
Proof.
  pose proof (filter_spec HostAttrs.cpython "x => x % 2 == 0") as (Hl & Hv & _).
  split; [| split].
  - rewrite Hl.
    + vm_compute. reflexivity.
    + intros x Hx. simpl in Hx.
      repeat (destruct Hx as [<- | Hx];
              [eexists; split; [vm_compute; reflexivity | reflexivity] |]).
      destruct Hx.
  - rewrite (Hv (VInt 4) (VBool true)); [reflexivity | discriminate | vm_compute; reflexivity | reflexivity].
  - rewrite (Hv (VInt 5) (VBool false)); [reflexivity | discriminate | vm_compute; reflexivity | reflexivity].
Defined.

(** C5 as stated fails on the empty dict: the specification's list of
    false values leaves it out, so it would be true and [filter("x => x")]
    would return [Some({})]; the code returns [NONE]. *)
Lemma filter_empty_dict_counterexample :
  listed_falsy (VDict []) = false
  /\ parse_expr HostAttrs.cpython "x => x" (VDict []) = Ret (VDict [])
  /\ call (Primitives.filter HostAttrs.cpython "x => x") (VDict []) = Ret VNONE.
Proof. vm_compute. repeat split. Qed.

(** ** The bounded loop *)

Lemma repeat_loop_run (cond : value -> outcome value) (block : Block) (n : nat) (x : value) :
  exists (k : nat) (y : value),
    (k <= n)%nat /\ Steps cond block k x y
    /\ ((k = n /\ repeat_loop cond block n x = Ret y)
        \/ ((k < n)%nat /\ (exists c, cond y = Ret c /\ truthy c = Ret false)
            /\ repeat_loop cond block n x = Ret y)
        \/ ((k < n)%nat /\ (forall v, turn cond block y <> Ret v)
            /\ repeat_loop cond block n x = turn cond block y)).
Proof.
  revert x. induction n as [|n IH]; intros x.
  - exists 0%nat, x. split; [lia|]. split; [constructor|]. left. auto.
  - simpl. destruct (cond x) as [c| | |] eqn:Hc;
      try (exists 0%nat, x; split; [lia|]; split; [constructor|]; right; right;
           unfold turn; rewrite Hc; simpl; split; [lia|]; split; [discriminate | reflexivity]).
    simpl. destruct (truthy c) as [t| | |] eqn:Ht;
      try (exists 0%nat, x; split; [lia|]; split; [constructor|]; right; right;
           unfold turn; rewrite Hc; simpl; rewrite Ht; simpl;
           split; [lia|]; split; [discriminate | reflexivity]).
    simpl. destruct t; simpl.
    + destruct (call block x) as [y| | |] eqn:Hb;
        try (exists 0%nat, x; split; [lia|]; split; [constructor|]; right; right;
             unfold turn; rewrite Hc; simpl; rewrite Ht; simpl; rewrite Hb;
             split; [lia|]; split; [discriminate | reflexivity]).
      simpl. destruct (IH y) as (k & z & Hk & Hs & Hr).
      exists (S k), z. split; [lia|]. split; [econstructor; eauto|].
      destruct Hr as [[-> Hr] | [(Hlt & Hf & Hr) | (Hlt & Hf & Hr)]].
      * left. auto.
      * right. left. split; [lia|]. auto.
      * right. right. split; [lia|]. auto.
    + exists 0%nat, x. split; [lia|]. split; [constructor|]. right. left.
      split; [lia|]. split; [exists c; auto | reflexivity].
Qed.

(** C8.  For every condition, body block, cap and input, the block built
    by [repeat] applies the body [k] times, each time after the condition
    was true on the current value, with [k] at most the cap, and then
    either: the cap is reached and the current value is returned, whatever
    the condition says of it; or the condition is false on the current
    value, which is returned; or the condition or the body does not return
    on the current value, and its outcome is the outcome of the loop. *)
Theorem repeat_bounded (host : attr_table) (condition : string) (block : Block)
    (max_iterations : Z) (x : value) :
  let cond := parse_expr host condition in
  let r := call (Primitives.repeat host condition block max_iterations) x in
  let cap := Z.to_nat max_iterations in
  exists (k : nat) (y : value),
    (k <= cap)%nat /\ Steps cond block k x y
    /\ ((k = cap /\ r = Ret y)
        \/ ((k < cap)%nat /\ (exists c, cond y = Ret c /\ truthy c = Ret false) /\ r = Ret y)
        \/ ((k < cap)%nat /\ (forall v, turn cond block y <> Ret v) /\ r = turn cond block y)).
Proof.
  intros cond r cap. subst r. unfold call. simpl. unfold Primitives.repeat_fn.
  apply repeat_loop_run.
Qed.

(** The example of the specification: the Collatz loop from 27 ends at 1
    (the float [1.0], since [/] is true division) within the default cap of
    1000 iterations.  It takes 111 applications of the body: a cap of 111
    gives the same result, and a cap of 110 stops one step short, at 2. *)
Example collatz_27 :
  call (Primitives.repeat HostAttrs.cpython "n => n > 1" collatz_step
          Primitives.default_max_iterations) (VInt 27)
  = Ret (VFloat (float_of_Z 1))
  /\ operator_eq (VFloat (float_of_Z 1)) (VInt 1) = Ret (VBool true)
  /\ call (Primitives.repeat HostAttrs.cpython "n => n > 1" collatz_step 111) (VInt 27)
     = Ret (VFloat (float_of_Z 1))
  /\ call (Primitives.repeat HostAttrs.cpython "n => n > 1" collatz_step 110) (VInt 27)
     = Ret (VFloat (float_of_Z 2)).
Proof. vm_compute. repeat split. Qed.

(** The cap stops a loop whose condition stays true. *)
Example repeat_cap_reached :
  call (Primitives.repeat HostAttrs.cpython "x => true"
          (Primitives.transform HostAttrs.cpython "x => x + 1") 5) (VInt 0)
  = Ret (VInt 5).
Proof. vm_compute. reflexivity. Qed.

(** ** Parameters of a compiled lambda *)

Lemma find_from_contains (sub s : string) (i j : nat) :
  Py.find_from sub s i = Some j -> Py.contains sub s = true.
Proof.
  revert i. induction s as [|c s IH]; intros i; simpl.
  - destruct (Py.startswith sub ""); [reflexivity | discriminate].
  - destruct (Py.startswith sub (String c s)); [reflexivity|].
    simpl. apply IH.
Qed.

Lemma contains_find_from (sub s : string) (i : nat) :
  Py.contains sub s = true -> exists j, Py.find_from sub s i = Some j.
Proof.
  revert i. induction s as [|c s IH]; intros i; simpl.
  - destruct (Py.startswith sub ""); [eauto | discriminate].
  - destruct (Py.startswith sub (String c s)); [eauto|].
    simpl. apply IH.
Qed.

Lemma split1_two (sep s p b : string) :
  Py.split1 sep s = [p; b] -> Py.contains sep s = true.
Proof.
  unfold Py.split1, Py.find. destruct (Py.find_from sep s 0) eqn:H; [|discriminate].
  intros _. eapply find_from_contains. exact H.
Qed.

(** A parameter past the end of the input stays bound to [NONE], whatever
    parameters follow it. *)
Lemma bind_each_keeps_none (names : list string) (i : nat) (l : list value)
    (ctx : gmap string value) (name : string) :
  (List.length l <= i)%nat -> ctx !! name = Some VNONE ->
  bind_each names i l ctx !! name = Some VNONE.
Proof.
  revert i ctx. induction names as [|n names IH]; intros i ctx Hi Hc; simpl.
  - exact Hc.
  - apply IH; [lia|].
    assert ((i <? List.length l)%nat = false) as -> by (apply Nat.ltb_ge; lia).
    destruct (decide (n = name)) as [->|Hne].
    + apply lookup_insert_eq.
    + rewrite lookup_insert_ne by exact Hne. exact Hc.
Qed.

Lemma bind_each_surplus (names : list string) (i : nat) (l : list value)
    (ctx : gmap string value) (j : nat) (name : string) :
  nth_error names j = Some name -> (List.length l <= i + j)%nat ->
  bind_each names i l ctx !! name = Some VNONE.
Proof.
  revert i ctx j. induction names as [|n names IH]; intros i ctx j Hj Hl.
  - destruct j; discriminate.
  - destruct j as [|j]; simpl in *.
    + injection Hj as ->.
      apply bind_each_keeps_none; [lia|].
      assert ((i <? List.length l)%nat = false) as -> by (apply Nat.ltb_ge; lia).
      apply lookup_insert_eq.
    + apply (IH (S i) _ j); [exact Hj | lia].
Qed.

(** A parameter within the input, whose name no later parameter repeats,
    is bound to the item at its position. *)
Lemma bind_each_keeps (names : list string) (i : nat) (l : list value)
    (ctx : gmap string value) (name : string) :
  ~ In name names -> bind_each names i l ctx !! name = ctx !! name.
Proof.
  revert i ctx. induction names as [|n names IH]; intros i ctx Hn; simpl.
  - reflexivity.
  - rewrite IH by (intros H; apply Hn; right; exact H).
    apply lookup_insert_ne. intros ->. apply Hn. left. reflexivity.
Qed.

Lemma bind_each_positional (names : list string) (i : nat) (l : list value)
    (ctx : gmap string value) (j : nat) (name : string) (x : value) :
  nth_error names j = Some name -> ~ In name (skipn (S j) names) ->
  nth_error l (i + j) = Some x ->
  bind_each names i l ctx !! name = Some x.
Proof.
  revert i ctx j. induction names as [|n names IH]; intros i ctx j Hj Hn Hx.
  - destruct j; discriminate.
  - destruct j as [|j]; simpl in *.
    + injection Hj as ->. rewrite bind_each_keeps by exact Hn.
      replace (i + 0)%nat with i in Hx by lia.
      assert ((i <? List.length l)%nat = true) as ->.
      { apply Nat.ltb_lt. apply nth_error_Some. rewrite Hx. discriminate. }
      rewrite lookup_insert_eq. f_equal. apply nth_error_nth. exact Hx.
    + apply (IH (S i) _ j); auto.
      replace (S i + j)%nat with (i + S j)%nat by lia. exact Hx.
Qed.

(** C10.  A lambda whose parameter list declares two names or more,
    applied to a list or a tuple, evaluates its body in the context that
    binds every parameter past the end of the input to [NONE] (and every
    parameter within it, if its name is not repeated later, to the item at
    its position): a short input raises nothing by itself.  Applied to any
    other value, it evaluates its body in the context that binds the first
    parameter to that value and nothing else. *)
Theorem multi_param_binding (host : attr_table) (expr p b : string) :
  Py.split1 "=>" expr = [p; b] ->
  (2 <= List.length (param_names_of (Py.strip p)))%nat ->
  let names := param_names_of (Py.strip p) in
  let body := Py.strip b in
  (forall (l : list value) (input : value),
      input = VList l \/ input = VTuple l ->
      parse_expr host expr input = eval_expr host body (bind_each names 0 l ∅)
      /\ (forall j name, nth_error names j = Some name -> (List.length l <= j)%nat ->
            bind_each names 0 l ∅ !! name = Some VNONE)
      /\ (forall j name x, nth_error names j = Some name ->
            ~ In name (skipn (S j) names) -> nth_error l j = Some x ->
            bind_each names 0 l ∅ !! name = Some x))
  /\ (forall v : value,
        (forall l, v <> VList l) -> (forall l, v <> VTuple l) ->
        exists first,
          nth_error names 0 = Some first
          /\ parse_expr host expr v = eval_expr host body {[first := v]}
          /\ forall name, name <> first ->
               ({[first := v]} : gmap string value) !! name = None).
Proof.
  intros Hs Hlen names body.
  assert (Hc : Py.contains "=>" expr = true) by (eapply split1_two; exact Hs).
  assert (Hp : forall input, parse_expr host expr input
               = (let* ctx := bind_params names input in eval_expr host body ctx)).
  { intros input. unfold parse_expr, parse_expr_with. rewrite Hc, Hs. reflexivity. }
  fold names in Hlen.
  split.
  - intros l input Hin. split; [| split].
    + rewrite Hp. unfold bind_params.
      destruct names as [|n1 [|n2 names']]; simpl in Hlen; try lia.
      destruct Hin as [-> | ->]; reflexivity.
    + intros j name Hj Hl. apply (bind_each_surplus names 0 l ∅ j); auto.
    + intros j name x Hj Hn Hx. apply (bind_each_positional names 0 l ∅ j); auto.
  - intros v Hl Ht.
    destruct names as [|n1 [|n2 names']] eqn:En; simpl in Hlen; try lia.
    exists n1. split; [reflexivity|]. split.
    + rewrite Hp. unfold bind_params.
      destruct v; try reflexivity.
      * exfalso. eapply Hl. reflexivity.
      * exfalso. eapply Ht. reflexivity.
    + intros name Hne. apply lookup_singleton_ne. congruence.
Qed.

(** Instances: [(a, b) => b] on the one-item list [[1]] gives [NONE], and on
    the plain value [1], where [b] is unbound, the body falls through to the
    literal text [b]; [(a, b) => a + b] on [[1]] gets as far as adding
    [NONE] to [1]. *)
Lemma multi_param_binding_witness :
  parse_expr HostAttrs.cpython "(a, b) => b" (VList [VInt 1]) = Ret VNONE
  /\ parse_expr HostAttrs.cpython "(a, b) => b" (VInt 1) = Ret (VStr "b")
  /\ parse_expr HostAttrs.cpython "(a, b) => a + b" (VList [VInt 1]) = Raise TypeError.
Proof.
  pose proof (multi_param_binding HostAttrs.cpython "(a, b) => b" "(a, b) " " b"
                eq_refl ltac:(vm_compute; lia)) as [Hseq Hother].
  split; [| split].
  - destruct (Hseq [VInt 1] (VList [VInt 1]) (or_introl eq_refl)) as (-> & _).
    vm_compute. reflexivity.
  - destruct (Hother (VInt 1)) as (first & Hf & -> & _); try discriminate.
    vm_compute in Hf. injection Hf as <-. vm_compute. reflexivity.
  - vm_compute. reflexivity.
Defined.

(** ** Property access *)

Lemma split_char_cons (c : ascii) (s : string) :
  exists first rest, Py.split_char c s = first :: rest.
Proof.
  induction s as [|a s IH]; simpl.
  - eauto.
  - destruct (Ascii.eqb a c); [eauto|].
    destruct IH as (first & rest & ->). eauto.
Qed.

(** C4.  Property access returns a value on every text and every binding
    context, whatever the attribute table of the host: it never raises.
    The text always splits, at its dots, into a first part and a chain;
    the first part is looked up in the context, or read as a literal, and
    the result is that value taken through the chain.  An empty chain
    leaves the value as it is.  Each step of the chain reads the field of
    a dict ([NONE] for a missing key) or the attribute of another value,
    and an attribute the value does not have ends the chain with [NONE]. *)
Theorem property_access_total (host : attr_table) (expr : string) (ctx : gmap string value) :
  (exists first rest v,
     Py.split_char "." expr = first :: rest
     /\ eval_property_access host expr ctx = Ret v
     /\ v = property_loop host rest
              (match ctx !! first with Some x => x | None => eval_literal first end))
  /\ (forall v, property_loop host [] v = v)
  /\ (forall part parts d,
        property_loop host (part :: parts) (VDict d)
        = property_loop host parts
            (match dict_lookup part d with Some x => x | None => VNONE end))
  /\ (forall part parts v x,
        (forall d, v <> VDict d) -> py_getattr host v part = Some x ->
        property_loop host (part :: parts) v = property_loop host parts x)
  /\ (forall part parts v,
        (forall d, v <> VDict d) -> py_getattr host v part = None ->
        property_loop host (part :: parts) v = VNONE).
Proof.
  split; [| split; [| split; [| split]]].
  - unfold eval_property_access.
    destruct (split_char_cons "." expr) as (first & rest & ->).
    exists first, rest. eexists. repeat split.
  - reflexivity.
  - reflexivity.
  - intros part parts v x Hv Hx. simpl. rewrite Hx.
    destruct v; try reflexivity. exfalso. eapply Hv. reflexivity.
  - intros part parts v Hv Hx. simpl. rewrite Hx.
    destruct v; try reflexivity. exfalso. eapply Hv. reflexivity.
Qed.

(** Instances: a chain through nested dicts, a missing key, a field of a
    dataclass, and an attribute no value has. *)
Example property_access_examples :
  eval_property_access HostAttrs.cpython "x.y.z"
    {["x" := VDict [("y", VDict [("z", VStr "deep")])]]} = Ret (VStr "deep")
  /\ eval_property_access HostAttrs.cpython "x.q.z"
       {["x" := VDict [("y", VInt 1)]]} = Ret VNONE
  /\ eval_property_access HostAttrs.cpython "x.value" {["x" := VSome (VInt 1)]} = Ret (VInt 1)
  /\ eval_property_access HostAttrs.cpython "x.nothing" {["x" := VInt 1]} = Ret VNONE.
Proof. vm_compute. repeat split. Qed.

(** ** The ternary split *)

(** C2 fails on the code.  In [a[x ? 0 : 1] ? 'yes' : 'no'] the test of
    [eval_expr] finds the [?] outside brackets, at position 13, and the
    condition before it, [a[x ? 0 : 1]], evaluates to [0], which is false:
    the expression should be ['no'].  But [eval_ternary] splits at the
    first [?] of the text, at position 4, inside the brackets: the
    condition it evaluates is the text [a[x], a true string, and the
    result is the text between that [?] and the last [:]. *)
Theorem ternary_splits_inside_brackets :
  ternary_scan nested_ternary 0 0 (-1) = 13%Z
  /\ eval_expr HostAttrs.cpython (Py.slice nested_ternary None (Some 13%Z)) nested_ternary_ctx
     = Ret (VInt 0)
  /\ Py.find "?" nested_ternary = Some 4%nat
  /\ eval_expr HostAttrs.cpython (Py.slice nested_ternary None (Some 4%Z)) nested_ternary_ctx
     = Ret (VStr "a[x")
  /\ eval_expr HostAttrs.cpython nested_ternary nested_ternary_ctx
     = Ret (VStr "0 : 1] ? 'yes'").
Proof. vm_compute. repeat split. Qed.

(** Where the first [?] of the text is the one outside brackets, the
    split is the one the specification describes. *)
Example ternary_plain :
  parse_expr HostAttrs.cpython "x => x % 3 == 0 ? 'fizz' : x" (VInt 9) = Ret (VStr "fizz")
  /\ parse_expr HostAttrs.cpython "x => x % 3 == 0 ? 'fizz' : x" (VInt 10) = Ret (VInt 10).
Proof. vm_compute. repeat split. Qed.

(** ** Index access *)

(** C3 fails on the code for an index below [-len(s)]: the test
    [int(index) < len(base)] lets every negative index through, and
    [base[int(index)]] raises [IndexError]. *)
Theorem index_below_range_raises :
  eval_expr HostAttrs.cpython "a[i]"
    (<["a" := VList [VInt 1; VInt 2]]> {["i" := VInt (-3)]}) = Raise IndexError
  /\ eval_expr HostAttrs.cpython "a[-3]" {["a" := VList [VInt 1; VInt 2]]} = Raise IndexError
  /\ eval_expr HostAttrs.cpython "a[-3]" {["a" := VTuple [VInt 1; VInt 2]]} = Raise IndexError.
Proof. vm_compute. repeat split. Qed.

(** ** Arithmetic *)

(** C1 fails on the code for a negative float: the right operand [-1.5]
    has a dot and does not start with a digit, so [eval_expr] takes it for
    a property access, [-1] with the attribute [5], which is [NONE]; the
    sum of a number and [NONE] is a [TypeError]. *)
Theorem add_negative_float_raises :
  eval_expr HostAttrs.cpython "-1.5" {["x" := VInt 10]} = Ret VNONE
  /\ parse_expr HostAttrs.cpython "x => x + -1.5" (VInt 10) = Raise TypeError
  /\ parse_expr HostAttrs.cpython "x => x + 1.5" (VInt 10)
     = Ret (VFloat (PyNum.round_quot 23 2)).
Proof. vm_compute. repeat split. Qed.

(** Chained subtraction is split at the rightmost operator:
    [compile("x => x - 1 - 1")(10) == 8]. *)
Example sub_chain :
  find_at_depth_0 "x - 1 - 1" " - " true = 5%Z
  /\ parse_expr HostAttrs.cpython "x => x - 1 - 1" (VInt 10) = Ret (VInt 8).
Proof. vm_compute. repeat split. Qed.

(** * The recursion of the evaluator *)

(** ** Lengths of the pieces of a text *)

Lemma length_take (n : nat) (s : string) :
  String.length (Py.take n s) = Nat.min n (String.length s).
Proof.
  revert s. induction n as [|n IH]; intros [|c s]; simpl; try reflexivity.
  rewrite IH. reflexivity.
Qed.

Lemma length_drop (n : nat) (s : string) :
  String.length (Py.drop n s) = (String.length s - n)%nat.
Proof.
  revert s. induction n as [|n IH]; intros [|c s]; simpl; try reflexivity.
  apply IH.
Qed.

Lemma clamp_range (len i : Z) : (0 <= len -> 0 <= Py.clamp len i <= len)%Z.
Proof. unfold Py.clamp. destruct (i <? 0)%Z eqn:H; lia. Qed.

Lemma length_slice (s : string) (lo hi : option Z) :
  (String.length (Py.slice s lo hi) <= String.length s)%nat.
Proof. unfold Py.slice. rewrite length_take, length_drop. lia. Qed.

(** [s[:h]] has at most [h] characters. *)
Lemma length_slice_to (s : string) (h : Z) :
  (0 <= h)%Z -> (Z.of_nat (String.length (Py.slice s None (Some h))) <= h)%Z.
Proof.
  intros Hh. unfold Py.slice. rewrite length_take, length_drop.
  pose proof (clamp_range (Z.of_nat (String.length s)) h ltac:(lia)).
  unfold Py.clamp in *. destruct (h <? 0)%Z eqn:E; lia.
Qed.

(** [s[l:hi]] with [l > 0] is shorter than a non-empty [s]. *)
Lemma length_slice_from (s : string) (l : Z) (hi : option Z) :
  (0 < l)%Z -> (0 < String.length s)%nat ->
  (String.length (Py.slice s (Some l) hi) < String.length s)%nat.
Proof.
  intros Hl Hs. unfold Py.slice. rewrite length_take, length_drop.
  unfold Py.clamp. destruct (l <? 0)%Z eqn:E; lia.
Qed.

Lemma length_lstrip (s : string) : (String.length (Py.lstrip s) <= String.length s)%nat.
Proof.
  induction s as [|c s IH]; simpl; [lia|].
  destruct (Py.isspace c); simpl; lia.
Qed.

Lemma length_rstrip (s : string) : (String.length (Py.rstrip s) <= String.length s)%nat.
Proof.
  induction s as [|c s IH]; simpl; [lia|].
  destruct (Py.rstrip s); [destruct (Py.isspace c)|]; simpl in *; lia.
Qed.

Lemma length_strip (s : string) : (String.length (Py.strip s) <= String.length s)%nat.
Proof.
  unfold Py.strip. pose proof (length_rstrip (Py.lstrip s)). pose proof (length_lstrip s). lia.
Qed.

Lemma append_cons (c : ascii) (s t : string) :
  (String c s ++ t)%string = String c (s ++ t).
Proof. reflexivity. Qed.

Lemma append_assoc (s t u : string) : ((s ++ t) ++ u = s ++ (t ++ u))%string.
Proof.
  induction s as [|c s IH]; [reflexivity|].
  rewrite !append_cons, IH. reflexivity.
Qed.

Lemma append_empty_r (s : string) : (s ++ EmptyString)%string = s.
Proof.
  induction s as [|c s IH]; [reflexivity|].
  rewrite append_cons, IH. reflexivity.
Qed.

Lemma length_append (s t : string) :
  String.length (s ++ t) = (String.length s + String.length t)%nat.
Proof. induction s as [|c s IH]; simpl; [reflexivity | rewrite IH; reflexivity]. Qed.

Lemma startswith_length (p s : string) :
  Py.startswith p s = true -> (String.length p <= String.length s)%nat.
Proof.
  revert s. induction p as [|a p IH]; intros [|b s]; simpl; try lia; try discriminate.
  intros H. apply andb_true_iff in H as [_ H]. apply IH in H. lia.
Qed.

(** A position [find] returns leaves room for the text found. *)
Lemma find_from_range (sub s : string) (i j : nat) :
  Py.find_from sub s i = Some j ->
  (i <= j /\ j + String.length sub <= i + String.length s)%nat.
Proof.
  revert i. induction s as [|c s IH]; intros i; simpl.
  - destruct (Py.startswith sub "") eqn:E; [|discriminate].
    intros [= <-]. apply startswith_length in E. simpl in E. lia.
  - destruct (Py.startswith sub (String c s)) eqn:E.
    + intros [= <-]. apply startswith_length in E. simpl in E. lia.
    + intros H. apply IH in H. lia.
Qed.

Lemma find_range (sub s : string) (j : nat) :
  Py.find sub s = Some j -> (j + String.length sub <= String.length s)%nat.
Proof. intros H. apply find_from_range in H. lia. Qed.

Lemma rfind_range (sub s : string) (j : nat) :
  Py.rfind sub s = Some j -> (j + String.length sub <= String.length s)%nat.
Proof.
  revert j. induction s as [|c s IH]; intros j; simpl.
  - destruct (Py.startswith sub "") eqn:E; [|discriminate].
    intros [= <-]. apply startswith_length in E. simpl in E. lia.
  - destruct (Py.rfind sub s) as [i|].
    + intros [= <-]. specialize (IH i eq_refl). lia.
    + destruct (Py.startswith sub (String c s)) eqn:E; [|discriminate].
      intros [= <-]. apply startswith_length in E. simpl in E. lia.
Qed.

Lemma split1_lengths (sep s k v : string) :
  Py.split1 sep s = [k; v] ->
  (String.length k <= String.length s /\ String.length v <= String.length s)%nat.
Proof.
  unfold Py.split1. destruct (Py.find sep s) as [i|]; [|discriminate].
  intros [= <- <-]. rewrite length_take, length_drop. lia.
Qed.

(** Every argument [split_args] returns is no longer than the text. *)
Lemma split_args_loop_lengths (s : string) (depth : Z) (current : string)
    (result : list string) (bound : nat) :
  (String.length current + String.length s <= bound)%nat ->
  Forall (fun a => (String.length a <= bound)%nat) result ->
  Forall (fun a => (String.length a <= bound)%nat) (split_args_loop s depth current result).
Proof.
  revert depth current result. induction s as [|c s IH]; intros depth current result Hb Hr; simpl.
  - destruct (negb (String.eqb (Py.strip current) "")); [|exact Hr].
    apply Forall_app. split; [exact Hr|]. constructor; [|constructor].
    pose proof (length_strip current). simpl in Hb. lia.
  - simpl in Hb.
    destruct (Ascii.eqb c "," && _).
    + apply IH; [simpl; lia|].
      apply Forall_app. split; [exact Hr|]. constructor; [|constructor].
      pose proof (length_strip current). lia.
    + apply IH; [|exact Hr]. rewrite length_append. simpl. lia.
Qed.

Lemma split_args_lengths (s : string) (i : nat) (a : string) :
  nth_error (split_args s) i = Some a -> (String.length a <= String.length s)%nat.
Proof.
  intros H.
  pose proof (split_args_loop_lengths s 0 EmptyString [] (String.length s)
                ltac:(simpl; lia) ltac:(constructor)) as HF.
  rewrite List.Forall_forall in HF. apply HF. eapply nth_error_In. exact H.
Qed.

(** A position [find_at_depth_0] returns leaves room for the target. *)
Lemma find_at_depth_0_loop_range (target : string) (rightmost : bool) (rest : string)
    (i depth found N : Z) :
  (0 <= i)%Z -> (i + Z.of_nat (String.length rest) = N)%Z ->
  (found = -1 \/ 0 <= found /\ found + Z.of_nat (String.length target) <= N)%Z ->
  let r := find_at_depth_0_loop target rightmost rest i depth found in
  (r = -1 \/ 0 <= r /\ r + Z.of_nat (String.length target) <= N)%Z.
Proof.
  revert i depth found. induction rest as [|c rest IH]; intros i depth found Hi HN Hf; simpl.
  - exact Hf.
  - destruct (String.length target <=? S (String.length rest))%nat eqn:E; [|exact Hf].
    apply Nat.leb_le in E. simpl in HN.
    destruct (opens c); [apply IH; lia|].
    destruct (closes c); [apply IH; lia|].
    destruct ((depth =? 0)%Z && Py.startswith target (String c rest)).
    + destruct rightmost; [apply IH; lia | lia].
    + apply IH; lia.
Qed.

Lemma find_at_depth_0_range (expr target : string) (rightmost : bool) :
  (0 <= find_at_depth_0 expr target rightmost)%Z ->
  (find_at_depth_0 expr target rightmost + Z.of_nat (String.length target)
   <= Z.of_nat (String.length expr))%Z.
Proof.
  intros H.
  pose proof (find_at_depth_0_loop_range target rightmost expr 0 0 (-1)
                (Z.of_nat (String.length expr)) ltac:(lia) ltac:(lia) ltac:(lia)) as Hr.
  fold (find_at_depth_0 expr target rightmost) in Hr. simpl in Hr. lia.
Qed.

(** ** The evaluator calls itself on shorter texts only *)

Lemma mapM_outcome_ext {A B : Type} (f g : A -> outcome B) (l : list A) :
  (forall x, f x = g x) -> mapM_outcome f l = mapM_outcome g l.
Proof.
  intros H. induction l as [|x l IH]; simpl; [reflexivity|].
  rewrite H, IH. reflexivity.
Qed.

Lemma filterM_outcome_ext {A : Type} (p q : A -> outcome bool) (l : list A) :
  (forall x, p x = q x) -> filterM_outcome p l = filterM_outcome q l.
Proof.
  intros H. induction l as [|x l IH]; simpl; [reflexivity|].
  rewrite H, IH. reflexivity.
Qed.

Section Locality.

Variable host : attr_table.
Variables ev ev' : string -> gmap string value -> outcome value.

Lemma parse_expr_with_ext (L : nat) (expr : string) (x : value) :
  agree_below ev ev' L -> (String.length expr < L)%nat ->
  parse_expr_with ev expr x = parse_expr_with ev' expr x.
Proof.
  intros Ha Hl. unfold parse_expr_with.
  destruct (negb (Py.contains "=>" expr)); [reflexivity|].
  destruct (Py.split1 "=>" expr) as [|p [|b [|? ?]]] eqn:Hs; try reflexivity.
  apply split1_lengths in Hs as [_ Hb].
  destruct (bind_params _ x); simpl; try reflexivity.
  apply Ha. pose proof (length_strip b). lia.
Qed.

Lemma object_entry_ext (L : nat) (current : string) (ctx : gmap string value)
    (result : list (string * value)) :
  agree_below ev ev' L -> (String.length current < L)%nat ->
  object_entry ev current ctx result = object_entry ev' current ctx result.
Proof.
  intros Ha Hl. unfold object_entry.
  destruct (Py.split1 ":" current) as [|k [|v [|? ?]]] eqn:Hs; try reflexivity.
  apply split1_lengths in Hs as [_ Hv].
  rewrite Ha; [reflexivity|]. pose proof (length_strip v). lia.
Qed.

Lemma eval_object_loop_ext (L : nat) (inner : string) (ctx : gmap string value) (depth : Z)
    (current : string) (result : list (string * value)) :
  agree_below ev ev' L -> (String.length current + String.length inner < L)%nat ->
  eval_object_loop ev inner ctx depth current result
  = eval_object_loop ev' inner ctx depth current result.
Proof.
  intros Ha. revert depth current result.
  induction inner as [|c inner IH]; intros depth current result Hl; simpl in *.
  - destruct (_ && _); [|reflexivity]. apply (object_entry_ext L); [exact Ha | lia].
  - destruct (Ascii.eqb c "," && _).
    + destruct (Py.contains ":" current).
      * rewrite (object_entry_ext L) by (auto; lia).
        destruct (object_entry ev' current ctx result); simpl; try reflexivity.
        apply IH. simpl. lia.
      * simpl. apply IH. simpl. lia.
    + apply IH. rewrite length_append. simpl. lia.
Qed.

Lemma eval_array_loop_ext (L : nat) (inner : string) (ctx : gmap string value) (depth : Z)
    (current : string) (result : list value) :
  agree_below ev ev' L -> (String.length current + String.length inner < L)%nat ->
  eval_array_loop ev inner ctx depth current result
  = eval_array_loop ev' inner ctx depth current result.
Proof.
  intros Ha. revert depth current result.
  induction inner as [|c inner IH]; intros depth current result Hl; simpl in *.
  - destruct (negb _); [|reflexivity].
    rewrite Ha; [reflexivity|]. pose proof (length_strip current). lia.
  - destruct (Ascii.eqb c "," && _).
    + rewrite Ha by (pose proof (length_strip current); lia).
      destruct (ev' (Py.strip current) ctx); simpl; try reflexivity.
      apply IH. simpl. lia.
    + apply IH. rewrite length_append. simpl. lia.
Qed.

Lemma startswith_nonempty (p s : string) :
  p <> EmptyString -> Py.startswith p s = true -> (0 < String.length s)%nat.
Proof.
  intros Hp H. apply startswith_length in H. destruct p; [congruence|]. simpl in H. lia.
Qed.

Lemma length_inner (expr : string) :
  (0 < String.length expr)%nat ->
  (String.length (Py.strip (Py.slice expr (Some 1%Z) (Some (-1)%Z))) < String.length expr)%nat.
Proof.
  intros H. pose proof (length_strip (Py.slice expr (Some 1%Z) (Some (-1)%Z))).
  pose proof (length_slice_from expr 1 (Some (-1)%Z) ltac:(lia) H). lia.
Qed.

Lemma eval_object_ext (expr : string) (ctx : gmap string value) :
  agree_below ev ev' (String.length expr) -> (0 < String.length expr)%nat ->
  eval_object ev expr ctx = eval_object ev' expr ctx.
Proof.
  intros Ha Hl. unfold eval_object. destruct (String.eqb _ ""); [reflexivity|].
  rewrite (eval_object_loop_ext (String.length expr)); [reflexivity | exact Ha |].
  pose proof (length_inner expr Hl). simpl. lia.
Qed.

Lemma eval_array_ext (expr : string) (ctx : gmap string value) :
  agree_below ev ev' (String.length expr) -> (0 < String.length expr)%nat ->
  eval_array ev expr ctx = eval_array ev' expr ctx.
Proof.
  intros Ha Hl. unfold eval_array. destruct (String.eqb _ ""); [reflexivity|].
  rewrite (eval_array_loop_ext (String.length expr)); [reflexivity | exact Ha |].
  pose proof (length_inner expr Hl). simpl. lia.
Qed.

Lemma eval_ternary_ext (expr : string) (ctx : gmap string value) :
  agree_below ev ev' (String.length expr) ->
  eval_ternary ev expr ctx = eval_ternary ev' expr ctx.
Proof.
  intros Ha. unfold eval_ternary.
  destruct (Py.find "?" expr) as [q|] eqn:Hq; simpl; [|reflexivity].
  destruct (Py.rfind ":" expr) as [c|] eqn:Hc; simpl; [|reflexivity].
  apply find_range in Hq. apply rfind_range in Hc. simpl in Hq, Hc.
  rewrite (Ha (Py.slice expr None (Some (Z.of_nat q))))
    by (pose proof (length_slice_to expr (Z.of_nat q)); lia).
  rewrite (Ha (Py.slice expr (Some (Z.of_nat q + 1)%Z) (Some (Z.of_nat c))))
    by (apply length_slice_from; lia).
  rewrite (Ha (Py.slice expr (Some (Z.of_nat c + 1)%Z) None))
    by (apply length_slice_from; lia).
  reflexivity.
Qed.

Lemma eval_index_access_ext (expr : string) (ctx : gmap string value) :
  agree_below ev ev' (String.length expr) ->
  eval_index_access ev expr ctx = eval_index_access ev' expr ctx.
Proof.
  intros Ha. unfold eval_index_access.
  destruct (Py.find "[" expr) as [b|] eqn:Hb; simpl; [|reflexivity].
  apply find_range in Hb. simpl in Hb.
  rewrite (Ha (Py.slice expr None (Some (Z.of_nat b))))
    by (pose proof (length_slice_to expr (Z.of_nat b)); lia).
  rewrite (Ha (Py.slice expr (Some (Z.of_nat b + 1)%Z) (Some (-1)%Z)))
    by (apply length_slice_from; lia).
  reflexivity.
Qed.

Lemma eval_function_call_ext (expr : string) (ctx : gmap string value) :
  agree_below ev ev' (String.length expr) ->
  eval_function_call host ev expr ctx = eval_function_call host ev' expr ctx.
Proof.
  intros Ha. unfold eval_function_call.
  destruct (Py.find "(" expr) as [p|] eqn:Hp; cbn [outcome_bind or_raise]; [|reflexivity].
  apply find_range in Hp. cbn [String.length] in Hp.
  set (args_str := Py.slice expr (Some (Z.of_nat p + 1)%Z) (Some (-1)%Z)).
  assert (Hargs : (String.length args_str < String.length expr)%nat)
    by (apply length_slice_from; lia).
  destruct (builtin host _) as [f|].
  { rewrite (Ha args_str) by exact Hargs. reflexivity. }
  assert (Hpart : forall i a, nth_error (split_args args_str) i = Some a ->
                    (String.length a < String.length expr)%nat).
  { intros i a H. apply split_args_lengths in H. lia. }
  destruct (String.eqb _ "filter").
  { destruct (nth_error (split_args args_str) 0) as [part0|] eqn:H0; cbn [outcome_bind or_raise]; [|reflexivity].
    rewrite (Ha part0) by (eapply Hpart; exact H0).
    destruct (ev' part0 ctx) as [lst| | |]; cbn [outcome_bind or_raise]; try reflexivity.
    destruct (nth_error (split_args args_str) 1) as [part1|] eqn:H1; cbn [outcome_bind or_raise]; [|reflexivity].
    destruct (py_iter lst) as [items| | |]; cbn [outcome_bind or_raise]; try reflexivity.
    erewrite filterM_outcome_ext; [reflexivity|].
    intros x.
    rewrite (parse_expr_with_ext (String.length expr)); [reflexivity | exact Ha |].
    eapply Hpart. exact H1. }
  destruct (String.eqb _ "map"); [|reflexivity].
  destruct (nth_error (split_args args_str) 0) as [part0|] eqn:H0; cbn [outcome_bind or_raise]; [|reflexivity].
  rewrite (Ha part0) by (eapply Hpart; exact H0).
  destruct (ev' part0 ctx) as [lst| | |]; cbn [outcome_bind or_raise]; try reflexivity.
  destruct (nth_error (split_args args_str) 1) as [part1|] eqn:H1; cbn [outcome_bind or_raise]; [|reflexivity].
  destruct (py_iter lst) as [items| | |]; cbn [outcome_bind or_raise]; try reflexivity.
  erewrite mapM_outcome_ext; [reflexivity|].
  intros x. apply (parse_expr_with_ext (String.length expr)); [exact Ha|].
  eapply Hpart. exact H1.
Qed.

Lemma try_function_call_ext (expr : string) (ctx : gmap string value) :
  agree_below ev ev' (String.length expr) ->
  try_function_call host ev expr ctx = try_function_call host ev' expr ctx.
Proof.
  intros Ha. unfold try_function_call.
  destruct (_ && _); [|reflexivity].
  destruct (Py.find "(" expr); [|reflexivity].
  destruct (_ || _); [|reflexivity].
  destruct (_ =? 0)%Z; [|reflexivity].
  rewrite eval_function_call_ext by exact Ha. reflexivity.
Qed.

Lemma try_ternary_ext (expr : string) (ctx : gmap string value) :
  agree_below ev ev' (String.length expr) ->
  try_ternary ev expr ctx = try_ternary ev' expr ctx.
Proof.
  intros Ha. unfold try_ternary.
  destruct (_ && _); [|reflexivity].
  destruct (0 <? _)%Z; [|reflexivity].
  rewrite eval_ternary_ext by exact Ha. reflexivity.
Qed.

(** Both sides of an operator found by [find_at_depth_0] are shorter than
    the text. *)
Lemma length_sides (expr op : string) (rightmost : bool) :
  op <> EmptyString ->
  let idx := find_at_depth_0 expr op rightmost in
  (0 <= idx)%Z ->
  (String.length (Py.slice expr None (Some idx)) < String.length expr)%nat
  /\ (String.length (Py.slice expr (Some (idx + Z.of_nat (String.length op))%Z) None)
      < String.length expr)%nat.
Proof.
  intros Hop idx Hidx.
  pose proof (find_at_depth_0_range expr op rightmost Hidx) as Hr. fold idx in Hr.
  assert (0 < String.length op)%nat by (destruct op; [congruence | simpl; lia]).
  split.
  - pose proof (length_slice_to expr idx Hidx). lia.
  - apply length_slice_from; lia.
Qed.

Lemma try_comparison_ext (ops : list (string * (value -> value -> outcome value)))
    (expr : string) (ctx : gmap string value) :
  Forall (fun o => fst o <> EmptyString) ops ->
  agree_below ev ev' (String.length expr) ->
  try_comparison ev ops expr ctx = try_comparison ev' ops expr ctx.
Proof.
  intros Hops Ha. induction Hops as [|[op f] ops Hop Hops IH]; simpl; [reflexivity|].
  destruct (Py.contains op expr); [|exact IH].
  destruct (0 <=? find_at_depth_0 expr op false)%Z eqn:E; [|exact IH].
  apply Z.leb_le in E. destruct (length_sides expr op false Hop E) as [Hl Hr].
  rewrite (Ha _ ctx Hl), (Ha _ ctx Hr). reflexivity.
Qed.

Lemma try_logical_ext (is_and : bool) (expr : string) (ctx : gmap string value) :
  agree_below ev ev' (String.length expr) ->
  try_logical ev is_and expr ctx = try_logical ev' is_and expr ctx.
Proof.
  intros Ha. unfold try_logical.
  set (op := if is_and then " && " else " || ").
  assert (Hop : op <> EmptyString) by (subst op; destruct is_and; discriminate).
  assert (Hlen : Z.of_nat (String.length op) = 4%Z) by (subst op; destruct is_and; reflexivity).
  destruct (Py.contains op expr); [|reflexivity].
  destruct (0 <=? find_at_depth_0 expr op false)%Z eqn:E; [|reflexivity].
  apply Z.leb_le in E. destruct (length_sides expr op false Hop E) as [Hl Hr].
  rewrite Hlen in Hr. rewrite (Ha _ ctx Hl), (Ha _ ctx Hr). reflexivity.
Qed.

Lemma try_arithmetic_ext (ops : list (string * (value -> value -> outcome value)))
    (expr : string) (ctx : gmap string value) :
  agree_below ev ev' (String.length expr) ->
  try_arithmetic ev ops expr ctx = try_arithmetic ev' ops expr ctx.
Proof.
  intros Ha. induction ops as [|[op f] ops IH]; simpl; [reflexivity|].
  set (spaced_op := (" " ++ op ++ " ")%string).
  destruct (Py.contains spaced_op expr); [|exact IH].
  destruct (0 <=? find_at_depth_0 expr spaced_op true)%Z eqn:E; [|exact IH].
  apply Z.leb_le in E.
  destruct (length_sides expr spaced_op true ltac:(discriminate) E) as [Hl Hr].
  destruct (_ && _); [|exact IH].
  rewrite (Ha (Py.strip (Py.slice expr None _)))
    by (pose proof (length_strip (Py.slice expr None (Some (find_at_depth_0 expr spaced_op true)))); lia).
  rewrite (Ha (Py.strip (Py.slice expr (Some _) None))).
  - reflexivity.
  - match goal with |- (String.length (Py.strip (Py.slice _ (Some ?l) None)) < _)%nat =>
      pose proof (length_strip (Py.slice expr (Some l) None));
      pose proof (length_slice_from expr l None ltac:(lia) ltac:(lia))
    end. lia.
Qed.

(** The body of [eval_expr] only consults the evaluator it calls back on
    texts shorter than its own. *)
Lemma eval_expr_body_ext (expr : string) (ctx : gmap string value) :
  agree_below ev ev' (String.length expr) ->
  eval_expr_body host ev expr ctx = eval_expr_body host ev' expr ctx.
Proof.
  intros Ha0. unfold eval_expr_body.
  set (e := Py.strip expr).
  assert (Ha : agree_below ev ev' (String.length e)).
  { intros s c Hs. apply Ha0. pose proof (length_strip expr). fold e in H. lia. }
  clearbody e. clear Ha0.
  destruct (Py.startswith "{" e && Py.endswith "}" e) eqn:E1.
  { apply eval_object_ext; [exact Ha|].
    apply andb_true_iff in E1 as [E1 _].
    eapply startswith_nonempty; [|exact E1]. discriminate. }
  destruct (Py.startswith "[" e && Py.endswith "]" e) eqn:E2.
  { apply eval_array_ext; [exact Ha|].
    apply andb_true_iff in E2 as [E2 _].
    eapply startswith_nonempty; [|exact E2]. discriminate. }
  rewrite (try_function_call_ext e ctx Ha).
  destruct (try_function_call host ev' e ctx); [reflexivity|].
  rewrite (try_ternary_ext e ctx Ha).
  destruct (try_ternary ev' e ctx); [reflexivity|].
  rewrite (try_comparison_ext comparison_ops e ctx)
    by (auto; repeat constructor; discriminate).
  destruct (try_comparison ev' comparison_ops e ctx); [reflexivity|].
  rewrite (try_logical_ext true e ctx Ha).
  destruct (try_logical ev' true e ctx); [reflexivity|].
  rewrite (try_logical_ext false e ctx Ha).
  destruct (try_logical ev' false e ctx); [reflexivity|].
  rewrite (try_arithmetic_ext arithmetic_ops e ctx Ha).
  destruct (try_arithmetic ev' arithmetic_ops e ctx); [reflexivity|].
  destruct (Py.contains "." e && _); [reflexivity|].
  destruct (Py.contains "[" e && _); [|reflexivity].
  apply eval_index_access_ext. exact Ha.
Qed.

End Locality.

(** More fuel than the text is long is as good as any. *)
Lemma eval_expr_fuel_stable (host : attr_table) (n m : nat) (expr : string)
    (ctx : gmap string value) :
  (String.length expr < n)%nat -> (String.length expr < m)%nat ->
  eval_expr_fuel host n expr ctx = eval_expr_fuel host m expr ctx.
Proof.
  revert m expr ctx. induction n as [|n IH]; intros m expr ctx Hn Hm; [lia|].
  destruct m as [|m]; [lia|]. simpl.
  apply eval_expr_body_ext. intros s c Hs. apply IH; lia.
Qed.

(** [eval_expr] satisfies the recursive equation of the source: its body,
    calling [eval_expr] back.  The fuel does not show. *)
Theorem eval_expr_unfold (host : attr_table) (expr : string) (ctx : gmap string value) :
  eval_expr host expr ctx = eval_expr_body host (eval_expr host) expr ctx.
Proof.
  unfold eval_expr at 1. simpl. apply eval_expr_body_ext.
  intros s c Hs. unfold eval_expr. apply eval_expr_fuel_stable; lia.
Qed.

(** Any function that satisfies that equation is [eval_expr]. *)
Theorem eval_expr_unique (host : attr_table)
    (f : string -> gmap string value -> outcome value) :
  (forall expr ctx, f expr ctx = eval_expr_body host f expr ctx) ->
  forall expr ctx, f expr ctx = eval_expr host expr ctx.
Proof.
  intros Hf expr. remember (String.length expr) as n eqn:Hn.
  revert expr Hn. induction n as [n IH] using lt_wf_ind. intros expr Hn ctx.
  rewrite Hf, eval_expr_unfold. apply eval_expr_body_ext.
  intros s c Hs. apply (IH (String.length s)); [lia | reflexivity].
Qed.

(** * Integer numerals *)

Lemma digits_run_all (s : string) (acc : Z) (n : nat) :
  Py.all_chars Py.isdecimal s = true ->
  PyConv.digits_run s acc n = Some (digits_value s acc, (n + String.length s)%nat, EmptyString).
Proof.
  revert acc n. induction s as [|c s IH]; intros acc n H; simpl in *.
  - replace (n + 0)%nat with n by lia. reflexivity.
  - apply andb_true_iff in H as [Hc Hs]. rewrite Hc. rewrite IH by exact Hs.
    replace (n + S (String.length s))%nat with (S n + String.length s)%nat by lia.
    reflexivity.
Qed.

Lemma digits_value_app (s t : string) (acc : Z) :
  digits_value (s ++ t) acc = digits_value t (digits_value s acc).
Proof.
  revert acc. induction s as [|c s IH]; intros acc; simpl; [reflexivity | apply IH].
Qed.

Lemma all_chars_app (p : ascii -> bool) (s t : string) :
  Py.all_chars p (s ++ t) = Py.all_chars p s && Py.all_chars p t.
Proof.
  induction s as [|c s IH]; simpl; [reflexivity|]. rewrite IH. apply andb_assoc.
Qed.

Lemma digit_char_decimal (d : Z) :
  (0 <= d < 10)%Z -> Py.isdecimal (digit_char d) = true /\ PyConv.digit_of (digit_char d) = d.
Proof.
  intros Hd. unfold Py.isdecimal, PyConv.digit_of, Py.ord, digit_char.
  rewrite nat_ascii_embedding by lia. unfold Py.between.
  split.
  - apply andb_true_iff. split; apply Nat.leb_le; lia.
  - lia.
Qed.

(** One step of [digits_of]. *)
Lemma digits_of_S (fuel : nat) (n : Z) (acc : string) :
  PyConv.digits_of (S fuel) n acc =
  if (n <? 10)%Z then String (digit_char (n mod 10)) acc
  else PyConv.digits_of fuel (n / 10)%Z (String (digit_char (n mod 10)) acc).
Proof. reflexivity. Qed.

(** [digits_of] writes the decimal digits of [n] in front of [acc]. *)
Lemma digits_of_spec (fuel : nat) (n : Z) (acc : string) :
  (0 <= n < 10 ^ Z.of_nat (S fuel))%Z ->
  exists d, PyConv.digits_of (S fuel) n acc = (d ++ acc)%string
            /\ Py.all_chars Py.isdecimal d = true
            /\ d <> EmptyString
            /\ digits_value d 0 = n.
Proof.
  revert n acc. induction fuel as [|fuel IH]; intros n acc Hn;
    rewrite digits_of_S;
    assert (Hm : (0 <= n mod 10 < 10)%Z) by (apply Z.mod_pos_bound; lia);
    destruct (digit_char_decimal (n mod 10) Hm) as [Hdec Hval].
  - assert ((n <? 10)%Z = true) as -> by (apply Z.ltb_lt; simpl in Hn; lia).
    exists (String (digit_char (n mod 10)) EmptyString).
    repeat split.
    + cbn [Py.all_chars]. rewrite Hdec. reflexivity.
    + discriminate.
    + cbn [digits_value]. rewrite Hval. rewrite Z.mod_small by (simpl in Hn; lia). lia.
  - destruct (n <? 10)%Z eqn:E.
    + apply Z.ltb_lt in E. exists (String (digit_char (n mod 10)) EmptyString).
      repeat split.
      * cbn [Py.all_chars]. rewrite Hdec. reflexivity.
      * discriminate.
      * cbn [digits_value]. rewrite Hval. rewrite Z.mod_small by lia. lia.
    + apply Z.ltb_ge in E.
      destruct (IH (n / 10)%Z (String (digit_char (n mod 10)) acc)) as (d & Hd & Hall & Hne & Hv).
      { split; [apply Z.div_pos; lia|].
        apply Z.div_lt_upper_bound; [lia|].
        rewrite (Nat2Z.inj_succ (S fuel)), Z.pow_succ_r in Hn by lia. lia. }
      exists (d ++ String (digit_char (n mod 10)) EmptyString)%string.
      repeat split.
      * rewrite Hd, append_assoc. reflexivity.
      * rewrite all_chars_app, Hall. cbn [Py.all_chars]. rewrite Hdec. reflexivity.
      * destruct d; [congruence | discriminate].
      * rewrite digits_value_app, Hv. cbn [digits_value]. rewrite Hval.
        pose proof (Z.div_mod n 10 ltac:(lia)). lia.
Qed.

Lemma pow10_log2 (n : Z) :
  (0 <= n)%Z -> (n < 10 ^ Z.of_nat (S (Z.to_nat (Z.log2 n))))%Z.
Proof.
  intros Hn. rewrite Nat2Z.inj_succ, Z2Nat.id by apply Z.log2_nonneg.
  destruct (Z.eq_dec n 0%Z) as [->|Hz]; [reflexivity|].
  pose proof (Z.log2_spec n ltac:(lia)) as [_ H].
  eapply Z.lt_le_trans; [exact H|].
  apply Z.pow_le_mono_l. lia.
Qed.

(** [str(n)] is an optional minus sign and the decimal digits of [|n|]. *)
Lemma str_of_int_spec (n : Z) :
  exists d, PyConv.str_of_int n = (if (n <? 0)%Z then String "-" d else d)
            /\ Py.all_chars Py.isdecimal d = true
            /\ d <> EmptyString
            /\ digits_value d 0 = Z.abs n.
Proof.
  unfold PyConv.str_of_int.
  destruct (digits_of_spec (Z.to_nat (Z.log2 (Z.abs n))) (Z.abs n) EmptyString)
    as (d & Hd & Hall & Hne & Hv).
  { split; [lia | apply pow10_log2; lia]. }
  exists d. rewrite Hd.
  rewrite append_empty_r. auto.
Qed.

Lemma decimal_numchar (s : string) :
  Py.all_chars Py.isdecimal s = true -> Py.all_chars numchar s = true.
Proof.
  induction s as [|c s IH]; cbn [Py.all_chars]; [reflexivity|].
  intros H. apply andb_true_iff in H as [Hc Hs]. apply andb_true_iff.
  split; [unfold numchar; rewrite Hc; reflexivity | apply IH; exact Hs].
Qed.

Lemma str_of_int_numchars (n : Z) :
  Py.all_chars numchar (PyConv.str_of_int n) = true
  /\ exists c s, PyConv.str_of_int n = String c s.
Proof.
  destruct (str_of_int_spec n) as (d & -> & Hall & Hne & _).
  apply decimal_numchar in Hall. destruct (n <? 0)%Z.
  - split; [simpl; exact Hall | eauto].
  - split; [exact Hall|]. destruct d; [congruence | eauto].
Qed.

Lemma lstrip_num_numeral (s : string) :
  Py.all_chars numchar s = true -> PyConv.lstrip_num s = s.
Proof.
  destruct s as [|c s]; simpl; [reflexivity|].
  intros H. apply andb_true_iff in H as [Hc _].
  assert (PyConv.numspace c = false) as ->; [|reflexivity].
  unfold numchar, Py.isdecimal in Hc. unfold PyConv.numspace.
  apply orb_true_iff in Hc as [Hc | Hc].
  - unfold Py.between in *. apply andb_true_iff in Hc as [H1 H2].
    apply Nat.leb_le in H1, H2.
    repeat (apply orb_false_iff; split);
      try (apply andb_false_iff); try (apply Nat.eqb_neq); try lia.
    right. apply Nat.leb_gt. lia.
  - apply Ascii.eqb_eq in Hc. subst c. reflexivity.
Qed.

Lemma numchar_not_numspace (c : ascii) : numchar c = true -> PyConv.numspace c = false.
Proof.
  intros Hc. pose proof (lstrip_num_numeral (String c EmptyString)) as H.
  simpl in H. rewrite Hc in H. specialize (H eq_refl).
  destruct (PyConv.numspace c); [discriminate | reflexivity].
Qed.

Lemma rstrip_num_numeral (s : string) :
  Py.all_chars numchar s = true -> PyConv.rstrip_num s = s.
Proof.
  induction s as [|c s IH]; simpl; [reflexivity|].
  intros H. apply andb_true_iff in H as [Hc Hs]. rewrite IH by exact Hs.
  destruct s; [|reflexivity]. rewrite (numchar_not_numspace c Hc). reflexivity.
Qed.

(** [int(str(n)) == n]. *)
Theorem int_of_str_of_int (n : Z) : PyConv.int_of_str (PyConv.str_of_int n) = Some n.
Proof.
  unfold PyConv.int_of_str.
  destruct (str_of_int_numchars n) as [Hnum _].
  rewrite lstrip_num_numeral, rstrip_num_numeral by
    (try rewrite lstrip_num_numeral; exact Hnum).
  destruct (str_of_int_spec n) as (d & -> & Hall & Hne & Hv).
  destruct (n <? 0)%Z eqn:E.
  - simpl. rewrite digits_run_all by exact Hall. rewrite Hv.
    destruct d as [|c d]; [congruence|]. simpl.
    apply Z.ltb_lt in E. f_equal. lia.
  - apply Z.ltb_ge in E. destruct d as [|c d]; [congruence|].
    assert (Hc : Py.isdecimal c = true) by (simpl in Hall; apply andb_true_iff in Hall; tauto).
    unfold PyConv.sign_of.
    assert (Ascii.eqb c "-" = false) as ->.
    { apply Ascii.eqb_neq. intros ->. discriminate. }
    assert (Ascii.eqb c "+" = false) as ->.
    { apply Ascii.eqb_neq. intros ->. discriminate. }
    rewrite digits_run_all by exact Hall. rewrite Hv. simpl. f_equal. lia.
Qed.

(** * Operands without operators *)

Lemma avoids_app (c : ascii) (s t : string) : avoids c (s ++ t) = avoids c s && avoids c t.
Proof. apply all_chars_app. Qed.

Lemma atom_avoids (c : ascii) (s : string) :
  is_atom s = true -> special c = true -> avoids c s = true.
Proof.
  unfold is_atom, avoids. intros Hs Hc.
  induction s as [|a s IH]; cbn [Py.all_chars] in *; [reflexivity|].
  apply andb_true_iff in Hs as [Ha Hs]. rewrite IH by exact Hs.
  destruct (Ascii.eqb a c) eqn:E; [|reflexivity].
  apply Ascii.eqb_eq in E. subst a. rewrite Hc in Ha. discriminate.
Qed.

Lemma startswith_avoids (c : ascii) (p s : string) :
  avoids c s = true -> avoids c p = false -> Py.startswith p s = false.
Proof.
  unfold avoids. revert s.
  induction p as [|a p IH]; intros s Hs Hp; cbn [Py.all_chars Py.startswith] in *;
    [discriminate|].
  destruct s as [|b s]; [reflexivity|]. cbn [Py.all_chars] in Hs.
  apply andb_true_iff in Hs as [Hb Hs].
  destruct (Ascii.eqb a b) eqn:E; [|reflexivity]. cbn [andb].
  apply Ascii.eqb_eq in E. subst b. rewrite Hb in Hp. cbn [andb] in Hp.
  apply IH; assumption.
Qed.

Lemma contains_avoids (c : ascii) (p s : string) :
  avoids c s = true -> avoids c p = false -> Py.contains p s = false.
Proof.
  intros Hs Hp. induction s as [|b s IH]; cbn [Py.contains].
  - rewrite (startswith_avoids c) by assumption. reflexivity.
  - rewrite (startswith_avoids c) by assumption. cbn [orb].
    apply IH. unfold avoids in *. cbn [Py.all_chars] in Hs.
    apply andb_true_iff in Hs. tauto.
Qed.

Lemma atom_not_space (s : string) :
  is_atom s = true -> Py.all_chars (fun c => negb (Py.isspace c)) s = true.
Proof.
  unfold is_atom. induction s as [|a s IH]; cbn [Py.all_chars]; [reflexivity|].
  intros H. apply andb_true_iff in H as [Ha Hs]. rewrite IH by exact Hs.
  unfold special in Ha. destruct (Py.isspace a); [discriminate | reflexivity].
Qed.

Lemma lstrip_no_space (s : string) :
  Py.all_chars (fun c => negb (Py.isspace c)) s = true -> Py.lstrip s = s.
Proof.
  destruct s as [|a s]; simpl; [reflexivity|].
  intros H. apply andb_true_iff in H as [Ha _].
  destruct (Py.isspace a); [discriminate | reflexivity].
Qed.

(** Nothing is stripped from the right of a text that ends in a non-empty
    run of characters that are not white space. *)
Lemma rstrip_app_no_space (p s : string) :
  s <> EmptyString -> Py.all_chars (fun c => negb (Py.isspace c)) s = true ->
  Py.rstrip (p ++ s) = (p ++ s)%string.
Proof.
  intros Hne Hs. induction p as [|a p IH].
  - change ("" ++ s)%string with s. clear Hne.
    induction s as [|b s IHs]; simpl in *; [reflexivity|].
    apply andb_true_iff in Hs as [Hb Hs]. rewrite IHs by exact Hs.
    destruct s; [|reflexivity]. destruct (Py.isspace b); [discriminate | reflexivity].
  - change (String a p ++ s)%string with (String a (p ++ s)%string).
    cbn [Py.rstrip]. rewrite IH.
    destruct (p ++ s)%string eqn:E; [|reflexivity].
    destruct p; [exact (False_ind _ (Hne E)) | discriminate].
Qed.

Lemma strip_atom (s : string) : is_atom s = true -> Py.strip s = s.
Proof.
  intros H. apply atom_not_space in H. unfold Py.strip.
  rewrite lstrip_no_space by exact H.
  destruct s as [|a s]; [reflexivity|].
  apply (rstrip_app_no_space EmptyString (String a s)); [discriminate | exact H].
Qed.

Lemma endswith_nonempty (p s : string) :
  Py.endswith p s = true -> p <> EmptyString -> s <> EmptyString.
Proof.
  unfold Py.endswith. intros H Hp ->. destruct p; [congruence|]. discriminate.
Qed.

Section Atoms.

Variable host : attr_table.
Variable ev : string -> gmap string value -> outcome value.

Lemma try_function_call_none (e : string) (ctx : gmap string value) :
  avoids "(" e = true -> try_function_call host ev e ctx = None.
Proof.
  intros H. unfold try_function_call.
  rewrite (contains_avoids "(" "(" e) by (auto; reflexivity). reflexivity.
Qed.

Lemma try_ternary_none (e : string) (ctx : gmap string value) :
  avoids "?" e = true -> try_ternary ev e ctx = None.
Proof.
  intros H. unfold try_ternary.
  rewrite (contains_avoids "?" "?" e) by (auto; reflexivity). reflexivity.
Qed.

Lemma try_comparison_none (e : string) (ctx : gmap string value) :
  avoids "=" e = true -> avoids ">" e = true -> avoids "<" e = true ->
  try_comparison ev comparison_ops e ctx = None.
Proof.
  intros He Hg Hl. unfold comparison_ops. cbn [try_comparison].
  rewrite (contains_avoids "=" "==" e), (contains_avoids "=" "!=" e),
    (contains_avoids "=" ">=" e), (contains_avoids "=" "<=" e),
    (contains_avoids ">" ">" e), (contains_avoids "<" "<" e) by (auto; reflexivity).
  reflexivity.
Qed.

Lemma try_logical_none (is_and : bool) (e : string) (ctx : gmap string value) :
  avoids "&" e = true -> avoids "|" e = true -> try_logical ev is_and e ctx = None.
Proof.
  intros Ha Ho. unfold try_logical. destruct is_and.
  - rewrite (contains_avoids "&" " && " e) by (auto; reflexivity). reflexivity.
  - rewrite (contains_avoids "|" " || " e) by (auto; reflexivity). reflexivity.
Qed.

Lemma try_arithmetic_none (e : string) (ctx : gmap string value) :
  avoids " " e = true -> try_arithmetic ev arithmetic_ops e ctx = None.
Proof.
  intros H. unfold arithmetic_ops. cbn [try_arithmetic].
  rewrite (contains_avoids " " (" " ++ "+" ++ " ") e), (contains_avoids " " (" " ++ "-" ++ " ") e),
    (contains_avoids " " (" " ++ "*" ++ " ") e), (contains_avoids " " (" " ++ "/" ++ " ") e),
    (contains_avoids " " (" " ++ "%" ++ " ") e) by (auto; reflexivity).
  reflexivity.
Qed.

(** An atom evaluates to the value bound to it, or else to what it reads
    as a literal. *)
Lemma eval_expr_body_atom (e : string) (ctx : gmap string value) :
  is_atom e = true ->
  eval_expr_body host ev e ctx
  = Ret (match ctx !! e with Some v => v | None => eval_literal e end).
Proof.
  intros H. unfold eval_expr_body. rewrite (strip_atom e H).
  assert (Hav : forall c, special c = true -> avoids c e = true)
    by (intros c Hc; apply atom_avoids; assumption).
  rewrite (startswith_avoids "{" "{" e), (startswith_avoids "[" "[" e) by (auto; reflexivity).
  cbn [andb].
  rewrite try_function_call_none, try_ternary_none, try_comparison_none,
    !try_logical_none, try_arithmetic_none by (apply Hav; reflexivity).
  rewrite (contains_avoids "." "." e), (contains_avoids "[" "[" e)
    by (try apply Hav; reflexivity).
  cbn [andb]. destruct (ctx !! e); reflexivity.
Qed.

End Atoms.

Lemma eval_expr_atom (host : attr_table) (e : string) (ctx : gmap string value) :
  is_atom e = true ->
  eval_expr host e ctx = Ret (match ctx !! e with Some v => v | None => eval_literal e end).
Proof. intros H. rewrite eval_expr_unfold. apply eval_expr_body_atom. exact H. Qed.

(** * Sums of two operands *)

Lemma atom_char_brackets (a : ascii) :
  special a = false -> opens a = false /\ closes a = false.
Proof.
  intros H. unfold special in H. apply orb_false_iff in H as [_ H].
  apply negb_false_iff in H. unfold avoids in H. cbn [Py.all_chars] in H.
  unfold opens, closes.
  repeat match type of H with
         | (negb (Ascii.eqb ?x ?y) && _) = true =>
             let E := fresh "E" in
             apply andb_true_iff in H as [E H]; apply negb_true_iff in E
         end.
  rewrite (Ascii.eqb_sym a "("), (Ascii.eqb_sym a "["), (Ascii.eqb_sym a "{"),
    (Ascii.eqb_sym a ")"), (Ascii.eqb_sym a "]"), (Ascii.eqb_sym a "}") in *.
  split; repeat (apply orb_false_iff; split); assumption.
Qed.

Lemma atom_char_neq (a c : ascii) : special a = false -> special c = true -> Ascii.eqb c a = false.
Proof.
  intros Ha Hc. destruct (Ascii.eqb c a) eqn:E; [|reflexivity].
  apply Ascii.eqb_eq in E. subst. congruence.
Qed.

(** Past the last operator: over an atom the search finds nothing more. *)
Lemma find_at_depth_0_loop_atom (c : ascii) (t : string) (rightmost : bool) (r : string)
    (i depth found : Z) :
  special c = true -> is_atom r = true ->
  find_at_depth_0_loop (String c t) rightmost r i depth found = found.
Proof.
  intros Hc. revert i depth. induction r as [|a r IH]; intros i depth Hr; [reflexivity|].
  simpl in Hr. apply andb_true_iff in Hr as [Ha Hr]. apply negb_true_iff in Ha.
  cbn [find_at_depth_0_loop].
  destruct (String.length (String c t) <=? String.length (String a r))%nat; [|reflexivity].
  destruct (atom_char_brackets a Ha) as [-> ->].
  cbn [Py.startswith]. rewrite (atom_char_neq a c Ha Hc). rewrite andb_false_r.
  cbn [andb]. apply IH. exact Hr.
Qed.

(** Before the first operator: over an atom the search only moves on. *)
Lemma find_at_depth_0_loop_skip (c : ascii) (t : string) (rightmost : bool)
    (l rest : string) (i found : Z) :
  special c = true -> is_atom l = true ->
  (String.length (String c t) <= String.length rest)%nat ->
  find_at_depth_0_loop (String c t) rightmost (l ++ rest) i 0 found
  = find_at_depth_0_loop (String c t) rightmost rest (i + Z.of_nat (String.length l)) 0 found.
Proof.
  intros Hc. revert i. induction l as [|a l IH]; intros i Hl Hlen.
  - change ("" ++ rest)%string with rest. simpl. f_equal. lia.
  - simpl in Hl. apply andb_true_iff in Hl as [Ha Hl]. apply negb_true_iff in Ha.
    change (String a l ++ rest)%string with (String a (l ++ rest)%string).
    cbn [find_at_depth_0_loop].
    assert ((String.length (String c t) <=? String.length (String a (l ++ rest)))%nat = true)
      as ->.
    { apply Nat.leb_le. cbn [String.length]. rewrite length_append. cbn [String.length] in Hlen. lia. }
    destruct (atom_char_brackets a Ha) as [-> ->].
    cbn [Py.startswith]. rewrite (atom_char_neq a c Ha Hc). rewrite andb_false_r.
    cbn [andb]. rewrite IH by assumption. f_equal. cbn [String.length]. lia.
Qed.

(** One turn of the loop, and one turn on a character that is no bracket. *)
Lemma find_at_depth_0_loop_cons (target : string) (rightmost : bool) (c : ascii)
    (rest : string) (i depth found : Z) :
  find_at_depth_0_loop target rightmost (String c rest) i depth found
  = if (String.length target <=? String.length (String c rest))%nat then
      if opens c then
        find_at_depth_0_loop target rightmost rest (i + 1) (depth + 1) found
      else if closes c then
        find_at_depth_0_loop target rightmost rest (i + 1) (depth - 1) found
      else if (depth =? 0)%Z && Py.startswith target (String c rest) then
        if rightmost then find_at_depth_0_loop target rightmost rest (i + 1) depth i
        else i
      else find_at_depth_0_loop target rightmost rest (i + 1) depth found
    else found.
Proof. reflexivity. Qed.

Lemma find_at_depth_0_loop_plain (target : string) (rightmost : bool) (c : ascii)
    (rest : string) (i depth found : Z) :
  opens c = false -> closes c = false ->
  (String.length target <= String.length (String c rest))%nat ->
  find_at_depth_0_loop target rightmost (String c rest) i depth found
  = if (depth =? 0)%Z && Py.startswith target (String c rest) then
      if rightmost then find_at_depth_0_loop target rightmost rest (i + 1) depth i
      else i
    else find_at_depth_0_loop target rightmost rest (i + 1) depth found.
Proof.
  intros Ho Hc Hlen. rewrite find_at_depth_0_loop_cons, Ho, Hc.
  apply Nat.leb_le in Hlen. rewrite Hlen. reflexivity.
Qed.

(** In [l + r] with atoms [l] and [r], the rightmost [ + ] outside brackets
    is the one between them. *)
Lemma find_at_depth_0_plus (l r : string) :
  is_atom l = true -> is_atom r = true -> r <> EmptyString ->
  find_at_depth_0 (l ++ " + " ++ r) " + " true = Z.of_nat (String.length l).
Proof.
  intros Hl Hr Hne. unfold find_at_depth_0.
  rewrite find_at_depth_0_loop_skip; [| reflexivity | exact Hl |].
  2:{ rewrite length_append. cbn [String.length]. lia. }
  change (" + " ++ r)%string with (String " " (String "+" (String " " r))).
  rewrite find_at_depth_0_loop_plain;
    [| reflexivity | reflexivity | cbn [String.length]; lia].
  change (Py.startswith " + " (String " " (String "+" (String " " r)))) with true.
  cbn [Z.eqb andb].
  rewrite find_at_depth_0_loop_plain; [| reflexivity | reflexivity |].
  2:{ destruct r; [congruence | cbn [String.length]; lia]. }
  change (Py.startswith " + " (String "+" (String " " r))) with false.
  cbn [Z.eqb andb].
  assert (Hsp : Py.startswith "+ " r = false).
  { apply (startswith_avoids " "); [apply atom_avoids; [exact Hr | reflexivity] | reflexivity]. }
  rewrite find_at_depth_0_loop_cons.
  destruct (String.length " + " <=? String.length (String " " r))%nat; [|reflexivity].
  change (opens " ") with false. change (closes " ") with false.
  change (Py.startswith " + " (String " " r)) with (Py.startswith "+ " r).
  rewrite Hsp. cbn [Z.eqb andb].
  rewrite find_at_depth_0_loop_atom; [reflexivity | reflexivity | exact Hr].
Qed.

Lemma take_app (p s : string) : Py.take (String.length p) (p ++ s) = p.
Proof. induction p as [|a p IH]; simpl; [destruct s; reflexivity | rewrite IH; reflexivity]. Qed.

Lemma drop_app (p s : string) : Py.drop (String.length p) (p ++ s) = s.
Proof. induction p as [|a p IH]; simpl; [destruct s; reflexivity | exact IH]. Qed.

Lemma take_all (s : string) : Py.take (String.length s) s = s.
Proof. induction s as [|a s IH]; simpl; [reflexivity | rewrite IH; reflexivity]. Qed.

(** [(p + s)[:len(p)] == p] and [(p + s)[len(p):] == s]. *)
Lemma slice_to_app (p s : string) :
  Py.slice (p ++ s) None (Some (Z.of_nat (String.length p))) = p.
Proof.
  unfold Py.slice, Py.clamp. rewrite length_append.
  assert ((Z.of_nat (String.length p) <? 0)%Z = false) as -> by (apply Z.ltb_ge; lia).
  simpl Py.drop.
  replace (Z.to_nat _) with (String.length p) by lia.
  apply take_app.
Qed.

Lemma slice_from_app (p s : string) :
  Py.slice (p ++ s) (Some (Z.of_nat (String.length p))) None = s.
Proof.
  unfold Py.slice, Py.clamp. rewrite length_append.
  assert ((Z.of_nat (String.length p) <? 0)%Z = false) as -> by (apply Z.ltb_ge; lia).
  replace (Z.to_nat (Z.min _ _)) with (String.length p) by lia.
  rewrite drop_app.
  replace (Z.to_nat _) with (String.length s) by lia.
  apply take_all.
Qed.

Lemma contains_app (p l r : string) : Py.contains p (l ++ p ++ r) = true.
Proof.
  assert (H : Py.startswith p (p ++ r) = true).
  { induction p as [|a p IH]; simpl; [reflexivity|]. rewrite Ascii.eqb_refl. exact IH. }
  induction l as [|a l IH].
  - change ("" ++ p ++ r)%string with (p ++ r)%string.
    destruct (p ++ r)%string; simpl in *; rewrite H; reflexivity.
  - change (String a l ++ p ++ r)%string with (String a (l ++ p ++ r)%string).
    cbn [Py.contains]. rewrite IH. apply orb_true_r.
Qed.

Lemma strip_plus (l r : string) :
  is_atom l = true -> is_atom r = true -> l <> EmptyString -> r <> EmptyString ->
  Py.strip (l ++ " + " ++ r) = (l ++ " + " ++ r)%string.
Proof.
  intros Hl Hr Hnl Hnr. unfold Py.strip.
  assert (Py.lstrip (l ++ " + " ++ r) = (l ++ " + " ++ r)%string) as ->.
  { destruct l as [|a l]; [congruence|]. simpl in Hl.
    apply andb_true_iff in Hl as [Ha _]. unfold special in Ha.
    change (String a l ++ " + " ++ r)%string with (String a (l ++ " + " ++ r)%string).
    cbn [Py.lstrip]. destruct (Py.isspace a); [discriminate | reflexivity]. }
  rewrite <- (append_assoc l " + " r).
  apply rstrip_app_no_space; [exact Hnr | apply atom_not_space; exact Hr].
Qed.

(** [l + r] with atoms [l] and [r]: both operands are evaluated, left
    first; a string on the left takes the text of the right operand, and
    otherwise the operands are added. *)
Theorem eval_expr_plus (host : attr_table) (l r : string) (ctx : gmap string value) :
  is_atom l = true -> is_atom r = true -> l <> EmptyString -> r <> EmptyString ->
  eval_expr host (l ++ " + " ++ r) ctx
  = (let* left := eval_expr host l ctx in
     let* right := eval_expr host r ctx in
     match left with
     | VStr s => let* t := py_str right in Ret (VStr (s ++ t))
     | _ => operator_add left right
     end).
Proof.
  intros Hl Hr Hnl Hnr. rewrite eval_expr_unfold. unfold eval_expr_body.
  rewrite strip_plus by assumption.
  set (e := (l ++ " + " ++ r)%string).
  assert (Hav : forall c, special c = true -> avoids c " + " = true -> avoids c e = true).
  { intros c Hc Hp. subst e. rewrite !avoids_app, Hp.
    rewrite !atom_avoids by assumption. reflexivity. }
  rewrite (startswith_avoids "{" "{" e), (startswith_avoids "[" "[" e)
    by (try apply Hav; reflexivity).
  cbn [andb].
  rewrite try_function_call_none, try_ternary_none, try_comparison_none,
    !try_logical_none by (apply Hav; reflexivity).
  unfold arithmetic_ops. cbn [try_arithmetic].
  change (" " ++ "+" ++ " ")%string with " + ".
  subst e. rewrite contains_app, find_at_depth_0_plus by assumption.
  assert ((0 <=? Z.of_nat (String.length l))%Z = true) as -> by (apply Z.leb_le; lia).
  rewrite slice_to_app.
  replace (Z.of_nat (String.length l) + Z.of_nat (String.length " + "))%Z
    with (Z.of_nat (String.length (l ++ " + "))) by (rewrite length_append; lia).
  rewrite <- (append_assoc l " + " r), slice_from_app.
  rewrite !strip_atom by assumption.
  destruct l as [|a l]; [congruence|]. destruct r as [|b r]; [congruence|].
  reflexivity.
Qed.

(** * Adding an integer literal *)

Lemma numchar_not_special (c : ascii) : numchar c = true -> special c = false.
Proof.
  unfold numchar, Py.isdecimal. intros H. apply orb_true_iff in H as [H | H].
  - unfold Py.between in H. apply andb_true_iff in H as [H1 H2].
    apply Nat.leb_le in H1, H2.
    unfold special, Py.isspace, avoids. simpl.
    rewrite <- (ascii_nat_embedding c). unfold Py.ord in *.
    remember (nat_of_ascii c) as n eqn:En. clear En c.
    do 48 (destruct n as [|n]; [lia|]).
    do 10 (destruct n as [|n]; [reflexivity|]). lia.
  - apply Ascii.eqb_eq in H. subst c. reflexivity.
Qed.

Lemma numeral_atom (s : string) : Py.all_chars numchar s = true -> is_atom s = true.
Proof.
  unfold is_atom. induction s as [|c s IH]; cbn [Py.all_chars]; [reflexivity|].
  intros H. apply andb_true_iff in H as [Hc Hs].
  rewrite (numchar_not_special c Hc), IH by exact Hs. reflexivity.
Qed.

Lemma str_of_int_atom (n : Z) :
  is_atom (PyConv.str_of_int n) = true /\ PyConv.str_of_int n <> EmptyString.
Proof.
  destruct (str_of_int_numchars n) as [H (c & s & E)].
  split; [apply numeral_atom; exact H | rewrite E; discriminate].
Qed.

(** The text of an integer reads back as that integer. *)
Lemma eval_literal_str_of_int (n : Z) : eval_literal (PyConv.str_of_int n) = VInt n.
Proof.
  destruct (str_of_int_atom n) as [Hatom _].
  destruct (str_of_int_numchars n) as [Hnum (c & s & E)].
  unfold eval_literal. rewrite strip_atom by exact Hatom.
  rewrite int_of_str_of_int.
  rewrite E in *. cbn [Py.all_chars] in Hnum. apply andb_true_iff in Hnum as [Hc _].
  assert (Hne : forall c', numchar c' = false -> Ascii.eqb c c' = false).
  { intros c' Hc'. destruct (Ascii.eqb c c') eqn:Ec; [|reflexivity].
    apply Ascii.eqb_eq in Ec. subst. congruence. }
  cbn [String.eqb Py.startswith].
  rewrite (Hne "t"%char), (Hne "f"%char), (Hne "n"%char) by reflexivity.
  rewrite (Ascii.eqb_sym dquote c), (Ascii.eqb_sym squote c).
  rewrite (Hne dquote), (Hne squote) by reflexivity.
  reflexivity.
Qed.

Lemma str_of_int_not_x (n : Z) : "x" <> PyConv.str_of_int n.
Proof.
  destruct (str_of_int_numchars n) as [Hnum (c & s & E)]. rewrite E in *.
  cbn [Py.all_chars] in Hnum. apply andb_true_iff in Hnum as [Hc _].
  intros [= <- _]. discriminate.
Qed.

(** A lambda of the one parameter [x] evaluates its body with [x] bound to
    the input. *)
Lemma parse_expr_x (host : attr_table) (body : string) (v : value) :
  Py.strip body = body ->
  parse_expr host ("x => " ++ body) v = eval_expr host body {["x" := v]}.
Proof.
  intros Hb. unfold parse_expr, parse_expr_with.
  change ("x => " ++ body)%string
    with (String "x" (String " " (String "=" (String ">" (String " " body))))).
  cbn [Py.contains Py.startswith Ascii.eqb Bool.eqb andb orb negb].
  unfold Py.split1, Py.find.
  cbn [Py.find_from Py.startswith Ascii.eqb Bool.eqb andb orb negb
       Py.take Py.drop String.length Nat.add].
  assert (Py.strip (String " " body) = body) as ->.
  { unfold Py.strip. cbn [Py.lstrip]. change (Py.isspace " ") with true. cbn.
    exact Hb. }
  reflexivity.
Qed.

(** C1, the part on integers, and more: for every integer [a] and every
    input [v], [compile("x => x + a")(v)] is [v + a]; on a string [v] it is
    [v] followed by the text of [a]. *)
Theorem add_int_literal (host : attr_table) (a : Z) (v : value) :
  parse_expr host ("x => x + " ++ PyConv.str_of_int a) v
  = match v with
    | VStr s => Ret (VStr (s ++ PyConv.str_of_int a))
    | _ => operator_add v (VInt a)
    end.
Proof.
  destruct (str_of_int_atom a) as [Hatom Hne].
  change ("x => x + " ++ PyConv.str_of_int a)%string
    with ("x => " ++ ("x" ++ " + " ++ PyConv.str_of_int a))%string.
  rewrite parse_expr_x
    by (apply (strip_plus "x" (PyConv.str_of_int a)); auto; discriminate).
  rewrite eval_expr_plus by (auto; discriminate).
  rewrite !eval_expr_atom by (auto; reflexivity).
  rewrite lookup_singleton_eq.
  rewrite lookup_singleton_ne by apply str_of_int_not_x.
  rewrite eval_literal_str_of_int. cbn [outcome_bind].
  destruct v; reflexivity.
Qed.

(** For integers [a] and [b], [compile("x => x + a")(b) == a + b]. *)
Corollary add_int_int (host : attr_table) (a b : Z) :
  parse_expr host ("x => x + " ++ PyConv.str_of_int a) (VInt b) = Ret (VInt (a + b)).
Proof.
  rewrite add_int_literal.
  cbn [operator_add lift_num as_num PyNum.add PyNum.arith of_num outcome_bind].
  rewrite Z.add_comm. reflexivity.
Qed.

(** * The evaluator never runs out of fuel *)

(** ** The operations of the host do not use fuel *)

Lemma bind_fueled {A B : Type} (m : outcome A) (f : A -> outcome B) :
  m <> NoFuel -> (forall a, f a <> NoFuel) -> (let* x := m in f x) <> NoFuel.
Proof. intros Hm Hf. destruct m; simpl; auto; discriminate. Qed.

(** Splits a goal [m <> NoFuel] along the binds, conditionals and matches
    of [m]; what is left are calls, for [auto]. *)
Ltac fueled :=
  repeat first
    [ discriminate
    | assumption
    | apply bind_fueled; [| intros ? ]
    | match goal with
      | |- (if ?b then _ else _) <> NoFuel => destruct b
      | |- match ?x with _ => _ end <> NoFuel => destruct x
      end ];
  auto.

Lemma or_raise_fueled {A : Type} (e : exc) (o : option A) : or_raise e o <> NoFuel.
Proof. destruct o; discriminate. Qed.

Lemma of_int_fueled (n : Z) : PyNum.of_int n <> NoFuel.
Proof. unfold PyNum.of_int. fueled. Qed.

Lemma to_int_fueled (f : spec_float) : PyNum.to_int f <> NoFuel.
Proof. unfold PyNum.to_int. fueled. Qed.

Lemma to_float_fueled (a : PyNum.num) : PyNum.to_float a <> NoFuel.
Proof. unfold PyNum.to_float. destruct a; [apply of_int_fueled | discriminate]. Qed.

Lemma arith_fueled iop fop (a b : PyNum.num) :
  (forall x y, iop x y <> NoFuel) -> (forall x y, fop x y <> NoFuel) ->
  PyNum.arith iop fop a b <> NoFuel.
Proof.
  intros Hi Hf. pose proof to_float_fueled.
  unfold PyNum.arith. destruct a, b; fueled.
Qed.

Lemma int_truediv_fueled (n d : Z) : PyNum.int_truediv n d <> NoFuel.
Proof. unfold PyNum.int_truediv. fueled. Qed.

Lemma float_truediv_fueled (x y : spec_float) : PyNum.float_truediv x y <> NoFuel.
Proof. unfold PyNum.float_truediv. fueled. Qed.

Lemma float_mod_fueled (x y : spec_float) : PyNum.float_mod x y <> NoFuel.
Proof. unfold PyNum.float_mod. fueled. Qed.

Lemma int_mod_fueled (n d : Z) : PyNum.int_mod n d <> NoFuel.
Proof. unfold PyNum.int_mod. fueled. Qed.

Lemma num_ops_fueled (a b : PyNum.num) :
  PyNum.add a b <> NoFuel /\ PyNum.sub a b <> NoFuel /\ PyNum.mul a b <> NoFuel
  /\ PyNum.truediv a b <> NoFuel /\ PyNum.mod_ a b <> NoFuel.
Proof.
  pose proof int_truediv_fueled. pose proof float_truediv_fueled.
  pose proof float_mod_fueled. pose proof int_mod_fueled.
  repeat split; apply arith_fueled; intros; fueled.
Qed.

Lemma truthy_fueled (v : value) : truthy v <> NoFuel.
Proof. destruct v; discriminate. Qed.

Lemma py_eq_fueled (a : value) : forall inner w, py_eq inner a w <> NoFuel.
Proof.
  induction a using value_nested_ind; intros inner w;
    try (destruct w; simpl; fueled; fail).
  - destruct w as [| | | | |l2| | | | | | |]; simpl; try discriminate.
    destruct (Nat.eqb _ _); [|discriminate]. clear inner.
    revert l2. induction H as [|x l1 Hx Hl IH]; intros l2; [destruct l2; discriminate|].
    destruct l2 as [|y l2]; [discriminate|].
    apply bind_fueled; [apply Hx|]. intros []; [apply IH | discriminate].
  - destruct w as [| | | | | |l2| | | | | |]; simpl; try discriminate.
    destruct (Nat.eqb _ _); [|discriminate]. clear inner.
    revert l2. induction H as [|x l1 Hx Hl IH]; intros l2; [destruct l2; discriminate|].
    destruct l2 as [|y l2]; [discriminate|].
    apply bind_fueled; [apply Hx|]. intros []; [apply IH | discriminate].
  - destruct w as [| | | | | | |d2| | | | |]; simpl; try discriminate.
    destruct (Nat.eqb _ _); [|discriminate]. clear inner.
    induction H as [|[k x] d1 Hx Hd IH]; [discriminate|].
    destruct (dict_lookup k d2); [|discriminate].
    apply bind_fueled; [apply Hx|]. intros []; [apply IH | discriminate].
Qed.

Lemma py_order_fueled (op : cmpop) (a : value) : forall w, py_order op a w <> NoFuel.
Proof.
  induction a using value_nested_ind; intros w;
    try (destruct w; simpl; fueled; fail).
  - destruct w as [| | | | |l2| | | | | | |]; simpl; try discriminate.
    revert l2. induction H as [|x l1 Hx Hl IH]; intros l2; [destruct l2; discriminate|].
    destruct l2 as [|y l2]; [discriminate|].
    apply bind_fueled; [apply py_eq_fueled|]. intros []; [apply IH | apply Hx].
  - destruct w as [| | | | | |l2| | | | | |]; simpl; try discriminate.
    revert l2. induction H as [|x l1 Hx Hl IH]; intros l2; [destruct l2; discriminate|].
    destruct l2 as [|y l2]; [discriminate|].
    apply bind_fueled; [apply py_eq_fueled|]. intros []; [apply IH | apply Hx].
Qed.

Lemma hashable_fueled (v : value) : hashable v <> NoFuel.
Proof.
  induction v using value_nested_ind; simpl; try discriminate.
  induction H as [|x l Hx Hl IH]; [discriminate|].
  apply bind_fueled; [exact Hx|]. intros []; [exact IH | discriminate].
Qed.

Lemma py_repr_fueled (v : value) : py_repr v <> NoFuel.
Proof.
  induction v using value_nested_ind; simpl; try discriminate;
    try (apply bind_fueled; [assumption | intros; discriminate]).
  - apply bind_fueled; [|intros; discriminate].
    induction H as [|x l Hx Hl IH]; [discriminate|].
    apply bind_fueled; [exact Hx|]. intros r. apply bind_fueled; [exact IH | intros; discriminate].
  - apply bind_fueled; [|intros rs; destruct rs as [|? [|? ?]]; discriminate].
    induction H as [|x l Hx Hl IH]; [discriminate|].
    apply bind_fueled; [exact Hx|]. intros r. apply bind_fueled; [exact IH | intros; discriminate].
  - apply bind_fueled; [|intros; discriminate].
    induction H as [|[k x] d Hx Hd IH]; [discriminate|].
    apply bind_fueled; [exact Hx|]. intros r. apply bind_fueled; [exact IH | intros; discriminate].
Qed.

Lemma py_str_fueled (v : value) : py_str v <> NoFuel.
Proof. destruct v; try apply py_repr_fueled. discriminate. Qed.

Lemma lift_num_fueled op (a b : value) :
  (forall x y, op x y <> NoFuel) -> lift_num op a b <> NoFuel.
Proof. intros H. unfold lift_num. fueled. Qed.

Lemma operators_fueled (a b : value) :
  operator_add a b <> NoFuel /\ operator_sub a b <> NoFuel /\ operator_mul a b <> NoFuel
  /\ operator_truediv a b <> NoFuel /\ operator_mod a b <> NoFuel
  /\ operator_eq a b <> NoFuel /\ operator_ne a b <> NoFuel
  /\ forall op, operator_cmp op a b <> NoFuel.
Proof.
  assert (Hn : forall op, (forall x y, op x y <> NoFuel) -> lift_num op a b <> NoFuel)
    by (intros; apply lift_num_fueled; assumption).
  assert (Hnum := fun x y => num_ops_fueled x y).
  repeat split.
  - unfold operator_add. destruct a, b; try discriminate; apply Hn; intros; apply Hnum.
  - apply Hn; intros; apply Hnum.
  - unfold operator_mul.
    destruct (match as_count b with Some _ => _ | None => _ end); [discriminate|].
    destruct (match as_count a with Some _ => _ | None => _ end); [discriminate|].
    apply Hn; intros; apply Hnum.
  - apply Hn; intros; apply Hnum.
  - unfold operator_mod. destruct a; try discriminate; apply Hn; intros; apply Hnum.
  - unfold operator_eq. apply bind_fueled; [apply py_eq_fueled | discriminate].
  - unfold operator_ne. apply bind_fueled; [apply py_eq_fueled | discriminate].
  - intros op. unfold operator_cmp. apply bind_fueled; [apply py_order_fueled | discriminate].
Qed.

Lemma dict_get_fueled d (index default : value) : dict_get d index default <> NoFuel.
Proof.
  unfold dict_get. apply bind_fueled; [apply hashable_fueled|]. intros []; fueled.
Qed.

Lemma py_int_fueled (v : value) : py_int v <> NoFuel.
Proof. destruct v; simpl; try discriminate; [apply to_int_fueled | apply or_raise_fueled]. Qed.

Lemma py_float_fueled (v : value) : py_float v <> NoFuel.
Proof. destruct v; simpl; try discriminate; try apply of_int_fueled. apply or_raise_fueled. Qed.

Lemma seq_index_fueled (l : list value) (i : Z) : seq_index l i <> NoFuel.
Proof. unfold seq_index. destruct (_ || _); [discriminate | apply or_raise_fueled]. Qed.

Lemma py_iter_fueled (v : value) : py_iter v <> NoFuel.
Proof. destruct v; discriminate. Qed.

Lemma extremum_fueled (op : cmpop) (l : list value) : forall best, extremum op best l <> NoFuel.
Proof.
  induction l as [|x l IH]; intros best; simpl; [discriminate|].
  apply bind_fueled; [apply py_order_fueled | intros; apply IH].
Qed.

Lemma sum_loop_fueled (l : list value) : forall acc, sum_loop acc l <> NoFuel.
Proof.
  induction l as [|x l IH]; intros acc; simpl; [discriminate|].
  destruct x; try discriminate;
    (apply bind_fueled; [apply operators_fueled | intros; apply IH]).
Qed.

Lemma builtin_fueled (host : attr_table) (fn_name : string) (f : value -> outcome value)
    (x : value) :
  builtin host fn_name = Some f -> f x <> NoFuel.
Proof.
  pose proof py_str_fueled. pose proof py_int_fueled. pose proof py_float_fueled.
  pose proof py_iter_fueled. pose proof extremum_fueled. pose proof sum_loop_fueled.
  unfold builtin.
  repeat (destruct (String.eqb fn_name _);
          [intros [= <-];
           try unfold builtin_length, builtin_toNumber, py_upper, py_lower, py_abs,
             py_extremum, py_sum;
           fueled |]).
  discriminate.
Qed.

Lemma bind_params_fueled (names : list string) (input : value) :
  bind_params names input <> NoFuel.
Proof. unfold bind_params. destruct names as [|? [|? ?]]; destruct input; discriminate. Qed.

Lemma mapM_outcome_fueled {A B : Type} (f : A -> outcome B) (l : list A) :
  (forall x, f x <> NoFuel) -> mapM_outcome f l <> NoFuel.
Proof. intros Hf. induction l; simpl; fueled. Qed.

Lemma filterM_outcome_fueled {A : Type} (p : A -> outcome bool) (l : list A) :
  (forall x, p x <> NoFuel) -> filterM_outcome p l <> NoFuel.
Proof. intros Hp. induction l; simpl; fueled. Qed.

(** ** The body of the evaluator does not use fuel of its own *)

Section Fueled.

Variable host : attr_table.
Variable ev : string -> gmap string value -> outcome value.

Lemma parse_expr_with_fueled (L : nat) (expr : string) (x : value) :
  fueled_below ev L -> (String.length expr < L)%nat -> parse_expr_with ev expr x <> NoFuel.
Proof.
  intros Ha Hl. unfold parse_expr_with.
  destruct (negb (Py.contains "=>" expr)); [discriminate|].
  destruct (Py.split1 "=>" expr) as [|p [|b [|? ?]]] eqn:Hs; try discriminate.
  apply split1_lengths in Hs as [_ Hb].
  apply bind_fueled; [apply bind_params_fueled|].
  intros ctx. apply Ha. pose proof (length_strip b). lia.
Qed.

Lemma object_entry_fueled (L : nat) (current : string) (ctx : gmap string value)
    (result : list (string * value)) :
  fueled_below ev L -> (String.length current < L)%nat ->
  object_entry ev current ctx result <> NoFuel.
Proof.
  intros Ha Hl. unfold object_entry.
  destruct (Py.split1 ":" current) as [|k [|v [|? ?]]] eqn:Hs; try discriminate.
  apply split1_lengths in Hs as [_ Hv].
  apply bind_fueled; [|discriminate]. apply Ha. pose proof (length_strip v). lia.
Qed.

Lemma eval_object_loop_fueled (L : nat) (inner : string) (ctx : gmap string value)
    (depth : Z) (current : string) (result : list (string * value)) :
  fueled_below ev L -> (String.length current + String.length inner < L)%nat ->
  eval_object_loop ev inner ctx depth current result <> NoFuel.
Proof.
  intros Ha. revert depth current result.
  induction inner as [|c inner IH]; intros depth current result Hl; simpl in *.
  - destruct (_ && _); [|discriminate]. apply (object_entry_fueled L); [exact Ha | lia].
  - destruct (Ascii.eqb c "," && _).
    + apply bind_fueled.
      * destruct (Py.contains ":" current); [|discriminate].
        apply (object_entry_fueled L); [exact Ha | lia].
      * intros r. apply IH. simpl. lia.
    + apply IH. rewrite length_append. simpl. lia.
Qed.

Lemma eval_array_loop_fueled (L : nat) (inner : string) (ctx : gmap string value)
    (depth : Z) (current : string) (result : list value) :
  fueled_below ev L -> (String.length current + String.length inner < L)%nat ->
  eval_array_loop ev inner ctx depth current result <> NoFuel.
Proof.
  intros Ha. revert depth current result.
  induction inner as [|c inner IH]; intros depth current result Hl; simpl in *.
  - destruct (negb _); [|discriminate].
    apply bind_fueled; [|discriminate]. apply Ha. pose proof (length_strip current). lia.
  - destruct (Ascii.eqb c "," && _).
    + apply bind_fueled; [apply Ha; pose proof (length_strip current); lia|].
      intros x. apply IH. simpl. lia.
    + apply IH. rewrite length_append. simpl. lia.
Qed.

Lemma eval_object_fueled (expr : string) (ctx : gmap string value) :
  fueled_below ev (String.length expr) -> (0 < String.length expr)%nat ->
  eval_object ev expr ctx <> NoFuel.
Proof.
  intros Ha Hl. unfold eval_object. destruct (String.eqb _ ""); [discriminate|].
  apply bind_fueled; [|discriminate].
  apply (eval_object_loop_fueled (String.length expr)); [exact Ha|].
  pose proof (length_inner expr Hl). simpl. lia.
Qed.

Lemma eval_array_fueled (expr : string) (ctx : gmap string value) :
  fueled_below ev (String.length expr) -> (0 < String.length expr)%nat ->
  eval_array ev expr ctx <> NoFuel.
Proof.
  intros Ha Hl. unfold eval_array. destruct (String.eqb _ ""); [discriminate|].
  apply bind_fueled; [|discriminate].
  apply (eval_array_loop_fueled (String.length expr)); [exact Ha|].
  pose proof (length_inner expr Hl). simpl. lia.
Qed.

Lemma eval_ternary_fueled (expr : string) (ctx : gmap string value) :
  fueled_below ev (String.length expr) -> eval_ternary ev expr ctx <> NoFuel.
Proof.
  intros Ha. unfold eval_ternary.
  destruct (Py.find "?" expr) as [q|] eqn:Hq; cbn [or_raise outcome_bind]; [|discriminate].
  destruct (Py.rfind ":" expr) as [c|] eqn:Hc; cbn [or_raise outcome_bind]; [|discriminate].
  apply find_range in Hq. apply rfind_range in Hc. cbn [String.length] in Hq, Hc.
  apply bind_fueled.
  { apply Ha. pose proof (length_slice_to expr (Z.of_nat q)). lia. }
  intros cond. apply bind_fueled.
  { apply Ha. apply length_slice_from; lia. }
  intros t. apply bind_fueled.
  { apply Ha. apply length_slice_from; lia. }
  intros e. apply bind_fueled; [apply truthy_fueled | discriminate].
Qed.

Lemma eval_index_access_fueled (expr : string) (ctx : gmap string value) :
  fueled_below ev (String.length expr) -> eval_index_access ev expr ctx <> NoFuel.
Proof.
  intros Ha. unfold eval_index_access.
  destruct (Py.find "[" expr) as [b|] eqn:Hb; cbn [or_raise outcome_bind]; [|discriminate].
  apply find_range in Hb. cbn [String.length] in Hb.
  apply bind_fueled.
  { apply Ha. pose proof (length_slice_to expr (Z.of_nat b)). lia. }
  intros base. apply bind_fueled.
  { apply Ha. apply length_slice_from; lia. }
  intros index. pose proof py_int_fueled. pose proof seq_index_fueled.
  destruct base; try apply dict_get_fueled; fueled.
Qed.

Lemma eval_function_call_fueled (expr : string) (ctx : gmap string value) :
  fueled_below ev (String.length expr) -> eval_function_call host ev expr ctx <> NoFuel.
Proof.
  intros Ha. unfold eval_function_call.
  destruct (Py.find "(" expr) as [p|] eqn:Hp; cbn [or_raise outcome_bind]; [|discriminate].
  apply find_range in Hp. cbn [String.length] in Hp.
  set (args_str := Py.slice expr (Some (Z.of_nat p + 1)%Z) (Some (-1)%Z)).
  assert (Hargs : (String.length args_str < String.length expr)%nat)
    by (apply length_slice_from; lia).
  destruct (builtin host _) as [f|] eqn:Hf.
  { apply bind_fueled; [apply Ha; exact Hargs|]. intros arg.
    eapply builtin_fueled. exact Hf. }
  assert (Hpart : forall i a, nth_error (split_args args_str) i = Some a ->
                    (String.length a < String.length expr)%nat).
  { intros i a H. apply split_args_lengths in H. lia. }
  assert (Hparse : forall part x, nth_error (split_args args_str) 1 = Some part ->
                     parse_expr_with ev part x <> NoFuel).
  { intros part x H. apply (parse_expr_with_fueled (String.length expr)); [exact Ha|].
    eapply Hpart. exact H. }
  destruct (String.eqb _ "filter").
  { destruct (nth_error (split_args args_str) 0) as [part0|] eqn:H0;
      cbn [or_raise outcome_bind]; [|discriminate].
    apply bind_fueled; [apply Ha; eapply Hpart; exact H0|]. intros lst.
    destruct (nth_error (split_args args_str) 1) as [part1|] eqn:H1;
      cbn [or_raise outcome_bind]; [|discriminate].
    apply bind_fueled; [apply py_iter_fueled|]. intros items.
    apply bind_fueled; [|discriminate].
    apply filterM_outcome_fueled. intros x.
    apply bind_fueled; [apply Hparse; reflexivity | intros; apply truthy_fueled]. }
  destruct (String.eqb _ "map"); [|discriminate].
  destruct (nth_error (split_args args_str) 0) as [part0|] eqn:H0;
    cbn [or_raise outcome_bind]; [|discriminate].
  apply bind_fueled; [apply Ha; eapply Hpart; exact H0|]. intros lst.
  destruct (nth_error (split_args args_str) 1) as [part1|] eqn:H1;
    cbn [or_raise outcome_bind]; [|discriminate].
  apply bind_fueled; [apply py_iter_fueled|]. intros items.
  apply bind_fueled; [|discriminate].
  apply mapM_outcome_fueled. intros x. apply Hparse. reflexivity.
Qed.

Lemma try_function_call_fueled (expr : string) (ctx : gmap string value) (r : outcome value) :
  fueled_below ev (String.length expr) ->
  try_function_call host ev expr ctx = Some r -> r <> NoFuel.
Proof.
  intros Ha. unfold try_function_call.
  destruct (_ && _); [|discriminate].
  destruct (Py.find "(" expr); [|intros [= <-]; discriminate].
  destruct (_ || _); [|discriminate].
  destruct (_ =? 0)%Z; [|discriminate].
  intros [= <-]. apply eval_function_call_fueled. exact Ha.
Qed.

Lemma try_ternary_fueled (expr : string) (ctx : gmap string value) (r : outcome value) :
  fueled_below ev (String.length expr) -> try_ternary ev expr ctx = Some r -> r <> NoFuel.
Proof.
  intros Ha. unfold try_ternary.
  destruct (_ && _); [|discriminate].
  destruct (0 <? _)%Z; [|discriminate].
  intros [= <-]. apply eval_ternary_fueled. exact Ha.
Qed.

Lemma try_comparison_fueled (ops : list (string * (value -> value -> outcome value)))
    (expr : string) (ctx : gmap string value) (r : outcome value) :
  Forall (fun o => fst o <> EmptyString /\ forall a b, snd o a b <> NoFuel) ops ->
  fueled_below ev (String.length expr) ->
  try_comparison ev ops expr ctx = Some r -> r <> NoFuel.
Proof.
  intros Hops Ha. induction Hops as [|[op f] ops [Hop Hf] Hops IH]; simpl; [discriminate|].
  destruct (Py.contains op expr); [|exact IH].
  destruct (0 <=? find_at_depth_0 expr op false)%Z eqn:E; [|exact IH].
  apply Z.leb_le in E. destruct (length_sides expr op false Hop E) as [Hl Hr].
  intros [= <-]. apply bind_fueled; [apply Ha; exact Hl|]. intros left.
  apply bind_fueled; [apply Ha; exact Hr|]. intros right. apply Hf.
Qed.

Lemma try_logical_fueled (is_and : bool) (expr : string) (ctx : gmap string value)
    (r : outcome value) :
  fueled_below ev (String.length expr) -> try_logical ev is_and expr ctx = Some r -> r <> NoFuel.
Proof.
  intros Ha. unfold try_logical.
  set (op := if is_and then " && " else " || ").
  assert (Hop : op <> EmptyString) by (subst op; destruct is_and; discriminate).
  assert (Hlen : Z.of_nat (String.length op) = 4%Z) by (subst op; destruct is_and; reflexivity).
  destruct (Py.contains op expr); [|discriminate].
  destruct (0 <=? find_at_depth_0 expr op false)%Z eqn:E; [|discriminate].
  apply Z.leb_le in E. destruct (length_sides expr op false Hop E) as [Hl Hr].
  rewrite Hlen in Hr.
  intros [= <-]. apply bind_fueled; [apply Ha; exact Hl|]. intros left.
  apply bind_fueled; [apply truthy_fueled|]. intros t.
  destruct (Bool.eqb t is_and); [apply Ha; exact Hr | discriminate].
Qed.

Lemma try_arithmetic_fueled (ops : list (string * (value -> value -> outcome value)))
    (expr : string) (ctx : gmap string value) (r : outcome value) :
  Forall (fun o => forall a b, snd o a b <> NoFuel) ops ->
  fueled_below ev (String.length expr) ->
  try_arithmetic ev ops expr ctx = Some r -> r <> NoFuel.
Proof.
  intros Hops Ha. induction Hops as [|[op f] ops Hf Hops IH]; simpl; [discriminate|].
  set (spaced_op := (" " ++ op ++ " ")%string).
  destruct (Py.contains spaced_op expr); [|exact IH].
  destruct (0 <=? find_at_depth_0 expr spaced_op true)%Z eqn:E; [|exact IH].
  apply Z.leb_le in E.
  destruct (length_sides expr spaced_op true ltac:(discriminate) E) as [Hl Hr].
  destruct (_ && _); [|exact IH].
  intros [= <-]. apply bind_fueled.
  { apply Ha.
    pose proof (length_strip (Py.slice expr None (Some (find_at_depth_0 expr spaced_op true)))).
    lia. }
  intros left. apply bind_fueled.
  { apply Ha.
    match goal with |- (String.length (Py.strip (Py.slice _ (Some ?l) None)) < _)%nat =>
      pose proof (length_strip (Py.slice expr (Some l) None));
      pose proof (length_slice_from expr l None ltac:(lia) ltac:(lia))
    end. lia. }
  intros right. pose proof py_str_fueled.
  destruct left; try apply Hf. destruct (String.eqb op "+"); [|apply Hf]. fueled.
Qed.

Lemma eval_expr_body_fueled (expr : string) (ctx : gmap string value) :
  fueled_below ev (String.length expr) -> eval_expr_body host ev expr ctx <> NoFuel.
Proof.
  intros Ha0. unfold eval_expr_body.
  set (e := Py.strip expr).
  assert (Ha : fueled_below ev (String.length e)).
  { intros s c Hs. apply Ha0. pose proof (length_strip expr). fold e in H. lia. }
  clearbody e. clear Ha0.
  destruct (Py.startswith "{" e && Py.endswith "}" e) eqn:E1.
  { apply eval_object_fueled; [exact Ha|].
    apply andb_true_iff in E1 as [E1 _].
    eapply startswith_nonempty; [|exact E1]. discriminate. }
  destruct (Py.startswith "[" e && Py.endswith "]" e) eqn:E2.
  { apply eval_array_fueled; [exact Ha|].
    apply andb_true_iff in E2 as [E2 _].
    eapply startswith_nonempty; [|exact E2]. discriminate. }
  destruct (try_function_call host ev e ctx) eqn:T1;
    [eapply try_function_call_fueled; eauto|].
  destruct (try_ternary ev e ctx) eqn:T2; [eapply try_ternary_fueled; eauto|].
  destruct (try_comparison ev comparison_ops e ctx) eqn:T3.
  { eapply try_comparison_fueled; [| exact Ha | exact T3].
    repeat constructor; try discriminate; intros; apply operators_fueled. }
  destruct (try_logical ev true e ctx) eqn:T4; [eapply try_logical_fueled; eauto|].
  destruct (try_logical ev false e ctx) eqn:T5; [eapply try_logical_fueled; eauto|].
  destruct (try_arithmetic ev arithmetic_ops e ctx) eqn:T6.
  { eapply try_arithmetic_fueled; [| exact Ha | exact T6].
    repeat constructor; intros; apply operators_fueled. }
  destruct (Py.contains "." e && _).
  { unfold eval_property_access. destruct (Py.split_char "." e); discriminate. }
  destruct (Py.contains "[" e && _); [apply eval_index_access_fueled; exact Ha|].
  destruct (ctx !! e); discriminate.
Qed.

End Fueled.

Lemma eval_expr_fuel_enough (host : attr_table) (n : nat) (expr : string)
    (ctx : gmap string value) :
  (String.length expr < n)%nat -> eval_expr_fuel host n expr ctx <> NoFuel.
Proof.
  revert expr ctx. induction n as [|n IH]; intros expr ctx Hn; [lia|].
  simpl. apply eval_expr_body_fueled. intros s c Hs. apply IH. lia.
Qed.

(** [eval_expr] never runs out of fuel: it returns, raises, or meets an
    operation of the host that is not modelled. *)
Theorem eval_expr_fueled (host : attr_table) (expr : string) (ctx : gmap string value) :
  eval_expr host expr ctx <> NoFuel.
Proof. apply eval_expr_fuel_enough. lia. Qed.

Corollary parse_expr_fueled (host : attr_table) (expr : string) (input : value) :
  parse_expr host expr input <> NoFuel.
Proof.
  apply (parse_expr_with_fueled (eval_expr host) (S (String.length expr))); [|lia].
  intros s c _. apply eval_expr_fueled.
Qed.

(** * The rightmost operator outside brackets *)

Lemma occurs_at_cons (target : string) (c : ascii) (s : string) (d : Z) (j : nat) :
  occurs_at target (String c s) d (S j)
  <-> occurs_at target s (if opens c then d + 1 else if closes c then d - 1 else d)%Z j.
Proof. unfold occurs_at. simpl. split; intros (H1 & H2 & H3); repeat split; auto; lia. Qed.

Lemma find_at_depth_0_loop_rightmost (c0 : ascii) (t : string) (rest : string)
    (i depth found : Z) :
  opens c0 = false -> closes c0 = false ->
  let target := String c0 t in
  let r := find_at_depth_0_loop target true rest i depth found in
  (r = found /\ forall j, ~ occurs_at target rest depth j)
  \/ (exists j, r = (i + Z.of_nat j)%Z /\ occurs_at target rest depth j
                /\ forall j', (j < j')%nat -> ~ occurs_at target rest depth j').
Proof.
  intros Ho Hc target. revert i depth found.
  induction rest as [|c rest IH]; intros i depth found; cbn zeta.
  - left. split; [reflexivity|]. intros j (H & _). simpl in H. lia.
  - cbn [find_at_depth_0_loop].
    destruct (String.length target <=? String.length (String c rest))%nat eqn:El.
    2:{ left. split; [reflexivity|]. intros j (H & _). apply Nat.leb_gt in El. lia. }
    assert (Hshift : forall d' f,
               (if opens c then depth + 1 else if closes c then depth - 1 else depth)%Z = d' ->
               ~ occurs_at target (String c rest) depth 0 ->
               let r := find_at_depth_0_loop target true rest (i + 1) d' f in
               (r = f /\ forall j, ~ occurs_at target (String c rest) depth j)
               \/ (exists j, r = (i + Z.of_nat j)%Z /\ occurs_at target (String c rest) depth j
                             /\ forall j', (j < j')%nat ->
                                  ~ occurs_at target (String c rest) depth j')).
    { intros d' f Hd H0. cbn zeta.
      destruct (IH (i + 1)%Z d' f) as [[Hr Hno] | (j & Hr & Hocc & Hlast)].
      - left. split; [exact Hr|]. intros [|j]; [exact H0|].
        rewrite occurs_at_cons, Hd. apply Hno.
      - right. exists (S j). split; [lia|]. split; [rewrite occurs_at_cons, Hd; exact Hocc|].
        intros [|j'] Hj; [lia|]. rewrite occurs_at_cons, Hd. apply Hlast. lia. }
    assert (Hfirst : occurs_at target (String c rest) depth 0 ->
                     (depth =? 0)%Z && Py.startswith target (String c rest) = true
                     /\ opens c = false /\ closes c = false).
    { intros (_ & Hd & Hs). simpl in Hd, Hs.
      apply andb_true_iff in Hs as [Hs1 Hs2]. apply Ascii.eqb_eq in Hs1. subst c.
      rewrite Ho, Hc. split; [|auto].
      apply andb_true_iff. split; [apply Z.eqb_eq; exact Hd|].
      simpl. rewrite Ascii.eqb_refl. exact Hs2. }
    destruct (opens c) eqn:Eo.
    { apply Hshift; [reflexivity|]. intros H. apply Hfirst in H. destruct H as (_ & H & _).
      discriminate. }
    destruct (closes c) eqn:Ec.
    { apply Hshift; [reflexivity|]. intros H. apply Hfirst in H. destruct H as (_ & _ & H).
      discriminate. }
    destruct ((depth =? 0)%Z && Py.startswith target (String c rest)) eqn:Em.
    + assert (H0 : occurs_at target (String c rest) depth 0).
      { apply andb_true_iff in Em as [Ed Es]. apply Z.eqb_eq in Ed.
        apply Nat.leb_le in El. repeat split; simpl; auto. }
      destruct (IH (i + 1)%Z depth i) as [[Hr Hno] | (j & Hr & Hocc & Hlast)].
      * right. exists 0%nat. split; [lia|]. split; [exact H0|].
        intros [|j'] Hj; [lia|]. rewrite occurs_at_cons, Eo, Ec. apply Hno.
      * right. exists (S j). split; [lia|].
        split; [rewrite occurs_at_cons, Eo, Ec; exact Hocc|].
        intros [|j'] Hj; [lia|]. rewrite occurs_at_cons, Eo, Ec. apply Hlast. lia.
    + apply Hshift; [reflexivity|]. intros H. apply Hfirst in H. destruct H as (H & _).
      congruence.
Qed.

(** X12.  With [rightmost] set, [find_at_depth_0] returns the last position at
    which the target stands outside brackets, and [-1] when there is
    none.  (The target starts with a character that is not a bracket, as
    the operators padded with spaces do.) *)
Theorem find_at_depth_0_rightmost (expr : string) (c0 : ascii) (t : string) :
  opens c0 = false -> closes c0 = false ->
  let target := String c0 t in
  let r := find_at_depth_0 expr target true in
  (r = (-1)%Z /\ forall j, ~ occurs_at target expr 0 j)
  \/ (exists j, r = Z.of_nat j /\ occurs_at target expr 0 j
                /\ forall j', (j < j')%nat -> ~ occurs_at target expr 0 j').
Proof.
  intros Ho Hc. cbn zeta. unfold find_at_depth_0.
  destruct (find_at_depth_0_loop_rightmost c0 t expr 0 0 (-1) Ho Hc)
    as [H | (j & Hr & H)]; [left; exact H|].
  right. exists j. split; [lia | exact H].
Qed.

(** * Index access on a variable *)

(** [a[i]] with [a] bound to a list and [i] to an integer: below the
    length the item is read with the host's indexing, which raises below
    [-len]; from the length on the result is [NONE]. *)
Lemma index_access_list (host : attr_table) (s : list value) (n : Z) :
  eval_expr host "a[i]" (<["a" := VList s]> {["i" := VInt n]})
  = if (n <? Z.of_nat (List.length s))%Z then seq_index s n else Ret VNONE.
Proof. vm_compute. reflexivity. Qed.

Lemma index_access_tuple (host : attr_table) (s : list value) (n : Z) :
  eval_expr host "a[i]" (<["a" := VTuple s]> {["i" := VInt n]})
  = if (n <? Z.of_nat (List.length s))%Z then seq_index s n else Ret VNONE.
Proof. vm_compute. reflexivity. Qed.

(** The part of C3 that holds: an index at or past the end gives [NONE],
    and so does a key a dict does not have. *)
Lemma index_past_end (host : attr_table) (s : list value) (n : Z) :
  (Z.of_nat (List.length s) <= n)%Z ->
  eval_expr host "a[i]" (<["a" := VList s]> {["i" := VInt n]}) = Ret VNONE
  /\ eval_expr host "a[i]" (<["a" := VTuple s]> {["i" := VInt n]}) = Ret VNONE.
Proof.
  intros H. rewrite index_access_list, index_access_tuple.
  assert ((n <? Z.of_nat (List.length s))%Z = false) as -> by (apply Z.ltb_ge; lia).
  auto.
Qed.

(** The part that fails: every index below [-len(s)] raises. *)
Lemma index_before_start (host : attr_table) (s : list value) (n : Z) :
  (n < - Z.of_nat (List.length s))%Z ->
  eval_expr host "a[i]" (<["a" := VList s]> {["i" := VInt n]}) = Raise IndexError.
Proof.
  intros H. rewrite index_access_list.
  assert ((n <? Z.of_nat (List.length s))%Z = true) as -> by (apply Z.ltb_lt; lia).
  unfold seq_index.
  assert ((n <? 0)%Z = true) as -> by (apply Z.ltb_lt; lia).
  assert ((n + Z.of_nat (List.length s) <? 0)%Z = true) as -> by (apply Z.ltb_lt; lia).
  reflexivity.
Qed.

Lemma index_missing_key (host : attr_table) (d : list (string * value)) (k : string) :
  dict_lookup k d = None ->
  eval_expr host "a[k]" (<["a" := VDict d]> {["k" := VStr k]}) = Ret VNONE.
Proof.
  intros H.
  assert (E : eval_expr host "a[k]" (<["a" := VDict d]> {["k" := VStr k]})
              = Ret (match dict_lookup k d with Some v => v | None => VNONE end))
    by (vm_compute; reflexivity).
  rewrite E, H. reflexivity.
Qed.

(** * The result handling blocks *)

Lemma parse_expr_identity (host : attr_table) (v : value) :
  parse_expr host "x => x" v = Ret v.
Proof. vm_compute. reflexivity. Qed.

Lemma py_repr_returns_or_unmodelled (v : value) :
  (exists r, py_repr v = Ret r) \/ py_repr v = Unmodelled.
Proof.
  induction v using value_nested_ind; simpl; eauto;
    try (destruct IHv as [[r ->] | ->]; simpl; eauto).
  - assert (Hl : (exists rs, (fix items (l : list value) : outcome (list string) :=
                     match l with
                     | [] => Ret []
                     | x :: l' => let* r := py_repr x in let* rs := items l' in Ret (r :: rs)
                     end) l = Ret rs)
                 \/ (fix items (l : list value) : outcome (list string) :=
                     match l with
                     | [] => Ret []
                     | x :: l' => let* r := py_repr x in let* rs := items l' in Ret (r :: rs)
                     end) l = Unmodelled).
    { induction H as [|x l [[r Hx] | Hx] Hl [[rs IH] | IH]]; eauto;
        rewrite Hx; simpl; try rewrite IH; simpl; eauto. }
    destruct Hl as [[rs ->] | ->]; simpl; eauto.
  - assert (Hl : (exists rs, (fix items (l : list value) : outcome (list string) :=
                     match l with
                     | [] => Ret []
                     | x :: l' => let* r := py_repr x in let* rs := items l' in Ret (r :: rs)
                     end) l = Ret rs)
                 \/ (fix items (l : list value) : outcome (list string) :=
                     match l with
                     | [] => Ret []
                     | x :: l' => let* r := py_repr x in let* rs := items l' in Ret (r :: rs)
                     end) l = Unmodelled).
    { induction H as [|x l [[r Hx] | Hx] Hl [[rs IH] | IH]]; eauto;
        rewrite Hx; simpl; try rewrite IH; simpl; eauto. }
    destruct Hl as [[rs ->] | ->]; simpl; eauto.
    destruct rs as [|? [|? ?]]; eauto.
  - assert (Hl : (exists rs, (fix entries (d : list (string * value)) : outcome (list string) :=
                     match d with
                     | [] => Ret []
                     | (k, x) :: d' =>
                         let* r := py_repr x in
                         let* rs := entries d' in
                         Ret ((repr_str k ++ ": " ++ r)%string :: rs)
                     end) d = Ret rs)
                 \/ (fix entries (d : list (string * value)) : outcome (list string) :=
                     match d with
                     | [] => Ret []
                     | (k, x) :: d' =>
                         let* r := py_repr x in
                         let* rs := entries d' in
                         Ret ((repr_str k ++ ": " ++ r)%string :: rs)
                     end) d = Unmodelled).
    { induction H as [|[k x] l [[r Hx] | Hx] Hl [[rs IH] | IH]]; eauto;
        simpl in Hx; rewrite Hx; simpl; try rewrite IH; simpl; eauto. }
    destruct Hl as [[rs ->] | ->]; simpl; eauto.
Qed.



(** X23.  [map_ok] and [map_err] commute: in a pipe the two may stand in either
    order, on every input and for every pair of expressions, whatever the
    expressions do (return or raise). *)
Theorem map_ok_map_err_commute (host : attr_table) (f g : string) (result : value) :
  call (Primitives.pipe [map_ok host f; map_err host g]) result
  = call (Primitives.pipe [map_err host g; map_ok host f]) result.
Proof.
  unfold call. simpl. unfold call. simpl.
  destruct result; simpl; try reflexivity.
  - destruct (parse_expr host f result); reflexivity.
  - destruct (parse_expr host g result); reflexivity.
Qed.

(** X24.  [map_ok] on [Ok] values: the identity expression changes nothing, on
    any input; two [map_ok] blocks in a pipe apply the first expression
    and then the second inside [Ok]; and any input that is not an [Ok]
    passes through a [map_ok] unchanged, the expression not being run. *)
Theorem map_ok_functor (host : attr_table) (f g : string) (result : value) :
  call (map_ok host "x => x") result = Ret result
  /\ (forall v, result = VOk v ->
        call (Primitives.pipe [map_ok host f; map_ok host g]) result
        = (let* y := parse_expr host f v in
           let* z := parse_expr host g y in
           Ret (VOk z)))
  /\ ((forall v, result <> VOk v) -> call (map_ok host f) result = Ret result).
Proof.
  unfold call. simpl. unfold call. simpl. repeat split.
  - destruct result; try reflexivity; unfold map_ok_fn;
      rewrite parse_expr_identity; reflexivity.
  - intros v ->. simpl. destruct (parse_expr host f v); simpl; try reflexivity.
    destruct (parse_expr host g a); reflexivity.
  - intros H. destruct result; simpl; try reflexivity. exfalso. eapply H. reflexivity.
Qed.

(** [map_ok] followed by [unwrap]: on [Ok(v)] the pipe gives what the
    expression gives on [v]; on [Err(e)] the expression is not run and
    [unwrap] raises with [e]. *)
Theorem map_ok_then_unwrap (host : attr_table) (f : string) (result : value) :
  (forall v, result = VOk v ->
     call (Primitives.pipe [map_ok host f; unwrap]) result = parse_expr host f v)
  /\ (forall e, result = VIOErr e ->
        call (Primitives.pipe [map_ok host f; unwrap]) result
        = Raise (PyException "Unwrap failed: " e)).
Proof.
  unfold call. simpl. unfold call. simpl. split.
  - intros v ->. simpl. destruct (parse_expr host f v); reflexivity.
  - intros e ->. reflexivity.
Qed.

(** * The store and the runtime *)

Lemma store_writes_snoc (writes : list (string * value)) (kv : string * value)
    (store : Store.t) :
  store_writes (writes ++ [kv]) store = Store.set (store_writes writes store) (fst kv) (snd kv).
Proof. unfold store_writes. rewrite fold_left_app. reflexivity. Qed.

(** X18.  The store is a last-write-wins map: after any sequence of [set]
    calls, [get(key)] is the value of the last [set] on that key, and when
    there was none it is what the store held before, [NONE] for a key never
    set. *)
Theorem store_get_after_writes (writes : list (string * value)) (store : Store.t)
    (key : string) :
  Store.get (store_writes writes store) key
  = match last_write key writes with
    | Some v => v
    | None => Store.get store key
    end
  /\ Store.get Store.init key = VNONE.
Proof.
  split; [|reflexivity].
  induction writes as [|[k v] writes IH] using rev_ind; [reflexivity|].
  rewrite store_writes_snoc. unfold last_write. rewrite rev_unit.
  cbn [List.find fst snd]. unfold Store.get, Store.set, Store.t in *.
  destruct (String.eqb k key) eqn:E.
  - apply String.eqb_eq in E. subst k. rewrite lookup_insert_eq. reflexivity.
  - apply String.eqb_neq in E. rewrite lookup_insert_ne by exact E. exact IH.
Qed.

(** [update(key, fn)] is [set(key, fn(get(key)))]: when [fn] returns [v],
    [get(key)] is [v] afterwards and every other key is as it was; when
    [fn] raises, [update] raises the same and the store is not written; a
    key that was never set is shown to [fn] as [NONE]. *)
Theorem store_update_spec (store : Store.t) (key : string) (f : value -> outcome value) :
  (forall v, f (Store.get store key) = Ret v ->
     Store.update store key f = Ret (Store.set store key v)
     /\ Store.get (Store.set store key v) key = v
     /\ forall k, k <> key -> Store.get (Store.set store key v) k = Store.get store k)
  /\ (forall e, f (Store.get store key) = Raise e -> Store.update store key f = Raise e)
  /\ (store !! key = None ->
      Store.update store key f = (let* v := f VNONE in Ret (Store.set store key v))).
Proof.
  unfold Store.update, Store.get, Store.set, Store.t in *. repeat split.
  - rewrite H. reflexivity.
  - rewrite lookup_insert_eq. reflexivity.
  - intros k Hk. rewrite lookup_insert_ne by congruence. reflexivity.
  - intros e H. rewrite H. reflexivity.
  - intros H. rewrite H. reflexivity.
Qed.

Lemma parse_expr_increment (host : attr_table) (m : Z) :
  parse_expr host "x => x + 1" (VInt m) = Ret (VInt (m + 1)).
Proof.
  change "x => x + 1" with ("x => x + " ++ PyConv.str_of_int 1)%string.
  rewrite add_int_int. rewrite Z.add_comm. reflexivity.
Qed.

(** X19.  A counter in the store: from [set(key, m)], [n] times
    [update(key, "x => x + 1")] return and leave [m + n] under the key. *)
Theorem store_counter (host : attr_table) (store : Store.t) (key : string) (m : Z) (n : nat) :
  exists store',
    store_updates n key (parse_expr host "x => x + 1") (Store.set store key (VInt m))
    = Ret store'
    /\ Store.get store' key = VInt (m + Z.of_nat n).
Proof.
  revert store m. induction n as [|n IH]; intros store m.
  - exists (Store.set store key (VInt m)). split; [reflexivity|].
    unfold Store.get, Store.set, Store.t in *. rewrite lookup_insert_eq. f_equal. lia.
  - cbn [store_updates]. unfold Store.update at 1.
    assert (Hget : Store.get (Store.set store key (VInt m)) key = VInt m).
    { unfold Store.get, Store.set, Store.t in *. rewrite lookup_insert_eq. reflexivity. }
    rewrite Hget, parse_expr_increment. cbn [outcome_bind].
    destruct (IH (Store.set store key (VInt m)) (m + 1)%Z) as (store' & Hrun & Hval).
    exists store'. split; [exact Hrun|]. rewrite Hval. f_equal. lia.
Qed.

Lemma lookup_blocks_spec (rt : Runtime.t) (block_names : list string) :
  match Runtime.lookup_blocks rt block_names with
  | inr bs => Forall2 (fun n blk => Runtime.blocks rt !! n = Some blk) block_names bs
  | inl (KeyError k) =>
      exists before after,
        block_names = before ++ k :: after
        /\ Runtime.blocks rt !! k = None
        /\ Forall (fun n => Runtime.blocks rt !! n <> None) before
  end.
Proof.
  induction block_names as [|n ns IH]; cbn [Runtime.lookup_blocks]; [constructor|].
  destruct (Runtime.blocks rt !! n) as [b|] eqn:E.
  - destruct (Runtime.lookup_blocks rt ns) as [[k]|bs].
    + destruct IH as (before & after & -> & Hk & Hb).
      exists (n :: before), after. repeat split; auto.
      constructor; [congruence | exact Hb].
    + constructor; assumption.
  - exists [], ns. repeat split; auto.
Qed.

(** X20.  [runtime.pipe] by names: when every name is registered the result is
    the pipe of the registered blocks, in the order of the names; otherwise
    it is a [KeyError] for the first name that is not registered. *)
Theorem runtime_pipe_spec (rt : Runtime.t) (block_names : list string) :
  match Runtime.pipe rt block_names with
  | inr b =>
      exists bs, Forall2 (fun n blk => Runtime.blocks rt !! n = Some blk) block_names bs
                 /\ b = Primitives.pipe bs
  | inl (KeyError k) =>
      exists before after,
        block_names = before ++ k :: after
        /\ Runtime.blocks rt !! k = None
        /\ Forall (fun n => Runtime.blocks rt !! n <> None) before
  end.
Proof.
  unfold Runtime.pipe. pose proof (lookup_blocks_spec rt block_names) as H.
  destruct (Runtime.lookup_blocks rt block_names) as [[k]|bs]; [exact H|].
  exists bs. split; [exact H | reflexivity].
Qed.

Lemma register_all_blocks (named : list (string * Block)) (rt : Runtime.t) (n : string)
    (b : Block) :
  List.NoDup (List.map fst named) -> In (n, b) named ->
  Runtime.blocks (register_all named rt) !! n = Some b.
Proof.
  revert rt. induction named as [|[n' b'] named IH] using rev_ind; intros rt Hnd Hin;
    [destruct Hin|].
  unfold register_all in *. rewrite fold_left_app. cbn [fold_left fst snd Runtime.register
    Runtime.blocks].
  rewrite List.map_app in Hnd. cbn [List.map fst] in Hnd.
  apply List.NoDup_remove in Hnd as [Hnd Hnot]. rewrite app_nil_r in Hnd, Hnot.
  apply in_app_or in Hin as [Hin | [Hin | []]].
  - rewrite lookup_insert_ne.
    + apply IH; assumption.
    + intros <-. apply Hnot. apply (in_map fst) in Hin. exact Hin.
  - injection Hin as <- <-. apply lookup_insert_eq.
Qed.

(** X21.  Registering blocks under pairwise different names and then piping
    them by name composes them: the pipe of the names runs the blocks one
    after the other, in the order of the names. *)
Theorem runtime_pipe_registered (named : list (string * Block)) (rt : Runtime.t)
    (x : value) :
  List.NoDup (List.map fst named) ->
  exists b,
    Runtime.pipe (register_all named rt) (List.map fst named) = inr b
    /\ Runtime.run (register_all named rt) b (Some x) = pipe_loop (List.map snd named) x.
Proof.
  intros Hnd. unfold Runtime.pipe.
  assert (H : Runtime.lookup_blocks (register_all named rt) (List.map fst named)
              = inr (List.map snd named)).
  { assert (Hall : forall n b, In (n, b) named ->
                     Runtime.blocks (register_all named rt) !! n = Some b)
      by (intros; apply register_all_blocks; assumption).
    clear Hnd. revert Hall. generalize (register_all named rt) as rt'. intros rt'.
    induction named as [|[n b] named IH]; intros Hall; [reflexivity|].
    cbn [List.map fst snd Runtime.lookup_blocks].
    rewrite (Hall n b) by (left; reflexivity).
    rewrite IH by (intros; apply Hall; right; assumption). reflexivity. }
  rewrite H. eexists. split; reflexivity.
Qed.

Lemma runtime_pipe_registered_witness :
  exists b,
    Runtime.pipe (register_all [("inc", Primitives.transform HostAttrs.cpython "x => x + 1");
                                ("dbl", Primitives.transform HostAttrs.cpython "x => x * 2")]
                    Runtime.init) ["inc"; "dbl"] = inr b
    /\ Runtime.run (register_all
                      [("inc", Primitives.transform HostAttrs.cpython "x => x + 1");
                       ("dbl", Primitives.transform HostAttrs.cpython "x => x * 2")]
                      Runtime.init) b (Some (VInt 5))
       = pipe_loop [Primitives.transform HostAttrs.cpython "x => x + 1";
                    Primitives.transform HostAttrs.cpython "x => x * 2"] (VInt 5).
Proof.
  apply (runtime_pipe_registered
           [("inc", Primitives.transform HostAttrs.cpython "x => x + 1");
            ("dbl", Primitives.transform HostAttrs.cpython "x => x * 2")]
           Runtime.init (VInt 5)).
  repeat constructor; simpl; intuition discriminate.
Defined.

(** * More on the combinators *)

Lemma parallel_propagates_witness :
  call (Primitives.parallel
          ([Primitives.transform HostAttrs.cpython "x => x + 1"]
           ++ Primitives.transform HostAttrs.cpython "x => x / 0"
              :: [Primitives.transform HostAttrs.cpython "x => x * 2"])) (VInt 5)
  = Raise ZeroDivisionError.
Proof.
  apply (parallel_propagates
           [Primitives.transform HostAttrs.cpython "x => x + 1"]
           [Primitives.transform HostAttrs.cpython "x => x * 2"]
           (Primitives.transform HostAttrs.cpython "x => x / 0")
           (VInt 5) [VInt 6] ZeroDivisionError).
  - repeat constructor.
  - vm_compute. reflexivity.
Defined.

(** X14.  A pipe stops at the first block that raises: the exception is the
    outcome of the pipe, and the blocks after it are not run, whatever
    they are. *)
Theorem pipe_stops_at_first_failure (before after : list Block) (b : Block) (x y : value)
    (e : exc) :
  pipe_loop before x = Ret y ->
  call b y = Raise e ->
  call (Primitives.pipe (before ++ b :: after)) x = Raise e.
Proof.
  intros Hbefore Hb. unfold call at 1. cbn [Primitives.pipe fn].
  rewrite pipe_loop_app, Hbefore. cbn [outcome_bind pipe_loop]. rewrite Hb. reflexivity.
Qed.

Lemma pipe_stops_at_first_failure_witness :
  call (Primitives.pipe
          ([Primitives.transform HostAttrs.cpython "x => x - 5"]
           ++ Primitives.transform HostAttrs.cpython "x => 1 / x"
              :: [Primitives.transform HostAttrs.cpython "x => x.nothing.at.all"])) (VInt 5)
  = Raise ZeroDivisionError.
Proof.
  apply (pipe_stops_at_first_failure
           [Primitives.transform HostAttrs.cpython "x => x - 5"]
           [Primitives.transform HostAttrs.cpython "x => x.nothing.at.all"]
           (Primitives.transform HostAttrs.cpython "x => 1 / x")
           (VInt 5) (VInt 0) ZeroDivisionError).
  - vm_compute. reflexivity.
  - vm_compute. reflexivity.
Defined.

Lemma merge_add_pair (host : attr_table) (a b : value) :
  parse_expr host "(a, b) => a + b" (VTuple [a; b])
  = match a with
    | VStr s => let* t := py_str b in Ret (VStr (s ++ t))
    | _ => operator_add a b
    end.
Proof.
  unfold parse_expr, parse_expr_with.
  change (Py.contains "=>" "(a, b) => a + b") with true. cbn [negb].
  change (Py.split1 "=>" "(a, b) => a + b") with ["(a, b) "; " a + b"].
  cbv beta iota zeta.
  change (param_names_of (Py.strip "(a, b) ")) with ["a"; "b"].
  change (Py.strip " a + b") with ("a" ++ " + " ++ "b")%string.
  cbn [bind_params bind_each outcome_bind List.length Nat.ltb Nat.leb nth].
  rewrite eval_expr_plus by (reflexivity || discriminate).
  rewrite !eval_expr_atom by reflexivity.
  rewrite lookup_insert_ne by discriminate.
  rewrite lookup_insert_eq, lookup_insert_eq. reflexivity.
Qed.

(** X16.  Fan-out and merge: the tuple that [fanout(A, B)] returns is taken
    apart by the two parameters of a merge expression, so
    [pipe(fanout(A, B), merge("(a, b) => a + b"))] adds what [A] and [B]
    return on the same input (a string on the left is followed by the text
    of the right). *)
Theorem fanout_merge_adds (host : attr_table) (A B : Block) (x a b : value) :
  call A x = Ret a -> call B x = Ret b ->
  call (Primitives.pipe [Primitives.fanout [A; B]; Primitives.merge host "(a, b) => a + b"]) x
  = match a with
    | VStr s => let* t := py_str b in Ret (VStr (s ++ t))
    | _ => operator_add a b
    end.
Proof.
  intros HA HB. unfold call at 1. cbn [Primitives.pipe fn pipe_loop].
  unfold call at 1. cbn [Primitives.fanout Primitives.parallel fn].
  unfold Primitives.parallel_fn. cbn [mapM_outcome]. rewrite HA, HB. cbn [outcome_bind].
  unfold call. cbn [Primitives.merge fn]. rewrite merge_add_pair.
  destruct a; try destruct (operator_add _ _); try reflexivity.
  destruct (py_str b); reflexivity.
Qed.

Lemma fanout_merge_adds_witness :
  call (Primitives.pipe
          [Primitives.fanout [Primitives.transform HostAttrs.cpython "x => x * 2";
                              Primitives.transform HostAttrs.cpython "x => x - 1"];
           Primitives.merge HostAttrs.cpython "(a, b) => a + b"]) (VInt 5)
  = operator_add (VInt 10) (VInt 4).
Proof.
  apply (fanout_merge_adds HostAttrs.cpython
           (Primitives.transform HostAttrs.cpython "x => x * 2")
           (Primitives.transform HostAttrs.cpython "x => x - 1")
           (VInt 5) (VInt 10) (VInt 4)); vm_compute; reflexivity.
Defined.

(** X13.  [branch] runs the condition and then exactly one arm: the [then] arm
    when the condition gives a true value, the [else] arm when it gives a
    false one; the arm that is not selected is not run, so what it would
    do does not matter; an exception of the condition is the outcome and
    no arm is run.  An arm is an expression or a block. *)
Theorem branch_selects (host : attr_table) (condition : string) (then_ else_ : target)
    (x : value) :
  (forall c, parse_expr host condition x = Ret c -> truthy c = Ret true ->
     call (Primitives.branch host condition then_ else_) x = Primitives.target_fn host then_ x)
  /\ (forall c, parse_expr host condition x = Ret c -> truthy c = Ret false ->
        call (Primitives.branch host condition then_ else_) x
        = Primitives.target_fn host else_ x)
  /\ (forall e, parse_expr host condition x = Raise e ->
        call (Primitives.branch host condition then_ else_) x = Raise e).
Proof.
  unfold call. cbn [Primitives.branch fn]. unfold Primitives.branch_fn.
  repeat split.
  - intros c -> Ht. cbn [outcome_bind]. rewrite Ht. reflexivity.
  - intros c -> Ht. cbn [outcome_bind]. rewrite Ht. reflexivity.
  - intros e ->. reflexivity.
Qed.

(** X17.  With an iteration cap of zero or less, [repeat] returns its input as
    it is: neither the condition nor the body is run. *)
Theorem repeat_without_iterations (host : attr_table) (condition : string) (block : Block)
    (max_iterations : Z) (x : value) :
  (max_iterations <= 0)%Z ->
  call (Primitives.repeat host condition block max_iterations) x = Ret x.
Proof.
  intros H. unfold call. cbn [Primitives.repeat fn]. unfold Primitives.repeat_fn.
  replace (Z.to_nat max_iterations) with 0%nat by lia. reflexivity.
Qed.

Lemma repeat_without_iterations_witness :
  call (Primitives.repeat HostAttrs.cpython "x => 1 / 0"
          (Primitives.transform HostAttrs.cpython "x => x + 1") (-3)) (VInt 7)
  = Ret (VInt 7).
Proof.
  apply (repeat_without_iterations HostAttrs.cpython "x => 1 / 0"
           (Primitives.transform HostAttrs.cpython "x => x + 1") (-3) (VInt 7)).
  lia.
Defined.

(** * White space around an expression *)

Lemma rstrip_cons (c : ascii) (s : string) :
  Py.rstrip (String c s)
  = match Py.rstrip s with
    | EmptyString => if Py.isspace c then EmptyString else String c EmptyString
    | r => String c r
    end.
Proof. reflexivity. Qed.

Lemma rstrip_idempotent (s : string) : Py.rstrip (Py.rstrip s) = Py.rstrip s.
Proof.
  induction s as [|a s IH]; [reflexivity|].
  rewrite rstrip_cons. destruct (Py.rstrip s) as [|b r] eqn:E.
  - destruct (Py.isspace a) eqn:Ea; [reflexivity|].
    rewrite rstrip_cons. cbn [Py.rstrip]. rewrite Ea. reflexivity.
  - rewrite rstrip_cons, IH. reflexivity.
Qed.

Lemma lstrip_head (s : string) :
  Py.lstrip s = EmptyString
  \/ exists c t, Py.lstrip s = String c t /\ Py.isspace c = false.
Proof.
  induction s as [|a s IH]; [left; reflexivity|].
  cbn [Py.lstrip]. destruct (Py.isspace a) eqn:Ea; [exact IH|].
  right. exists a, s. split; [reflexivity | exact Ea].
Qed.

Lemma rstrip_first (c : ascii) (t : string) :
  Py.isspace c = false -> exists r, Py.rstrip (String c t) = String c r.
Proof.
  intros Hc. rewrite rstrip_cons, Hc. destruct (Py.rstrip t); eauto.
Qed.

Lemma strip_idempotent (s : string) : Py.strip (Py.strip s) = Py.strip s.
Proof.
  unfold Py.strip. destruct (lstrip_head s) as [E | (c & t & E & Hc)]; rewrite E.
  - reflexivity.
  - destruct (rstrip_first c t Hc) as [r Hr]. rewrite Hr.
    cbn [Py.lstrip]. rewrite Hc, <- Hr. apply rstrip_idempotent.
Qed.

(** An expression and its stripped text evaluate alike. *)
Lemma eval_expr_strip (host : attr_table) (e : string) (ctx : gmap string value) :
  eval_expr host (Py.strip e) ctx = eval_expr host e ctx.
Proof.
  rewrite !eval_expr_unfold. unfold eval_expr_body. rewrite strip_idempotent. reflexivity.
Qed.

(** * A name followed by brackets *)

Lemma find_from_app_avoids (c : ascii) (a r : string) (i : nat) :
  avoids c a = true ->
  Py.find_from (String c EmptyString) (a ++ String c r) i = Some (i + String.length a)%nat.
Proof.
  unfold avoids. revert i. induction a as [|x a IH]; intros i H.
  - change (EmptyString ++ String c r)%string with (String c r).
    cbn [Py.find_from Py.startswith]. rewrite Ascii.eqb_refl. cbn [andb String.length].
    f_equal. lia.
  - cbn [Py.all_chars] in H. apply andb_true_iff in H as [Hx Ha].
    apply negb_true_iff in Hx. rewrite append_cons.
    cbn [Py.find_from Py.startswith]. rewrite (Ascii.eqb_sym c x), Hx. cbn [andb].
    rewrite IH by exact Ha. cbn [String.length]. f_equal. lia.
Qed.

Lemma find_app_avoids (c : ascii) (a r : string) :
  avoids c a = true ->
  Py.find (String c EmptyString) (a ++ String c r) = Some (String.length a).
Proof. intros H. unfold Py.find. rewrite find_from_app_avoids by exact H. reflexivity. Qed.

Lemma endswith_app (p s : string) : Py.endswith p (s ++ p) = true.
Proof.
  unfold Py.endswith. rewrite length_append.
  replace (String.length s + String.length p - String.length p)%nat
    with (String.length s) by lia.
  rewrite drop_app, String.eqb_refl.
  assert ((String.length p <=? String.length s + String.length p)%nat = true) as ->
      by (apply Nat.leb_le; lia).
  reflexivity.
Qed.

(** [(a + c + i + d)[len(a) + 1 : -1] == i] for characters [c] and [d]. *)
Lemma slice_inner (a i : string) (c d : ascii) :
  Py.slice (a ++ String c (i ++ String d EmptyString))
    (Some (Z.of_nat (String.length a) + 1)%Z) (Some (-1)%Z) = i.
Proof.
  unfold Py.slice, Py.clamp. rewrite length_append. cbn [String.length].
  rewrite length_append. cbn [String.length].
  assert ((Z.of_nat (String.length a) + 1 <? 0)%Z = false) as -> by (apply Z.ltb_ge; lia).
  change (-1 <? 0)%Z with true. cbv iota.
  replace (Z.to_nat (Z.min _ _)) with (String.length (a ++ String c EmptyString))
    by (rewrite length_append; cbn [String.length]; lia).
  replace (a ++ String c (i ++ String d EmptyString))%string
    with ((a ++ String c EmptyString) ++ (i ++ String d EmptyString))%string
    by (rewrite append_assoc; reflexivity).
  rewrite drop_app.
  replace (Z.to_nat _) with (String.length i) by lia.
  apply take_app.
Qed.

Lemma lstrip_first (c : ascii) (s : string) :
  Py.isspace c = false -> Py.lstrip (String c s) = String c s.
Proof. intros H. cbn [Py.lstrip]. rewrite H. reflexivity. Qed.

(** A text that starts and ends with characters that are not white space
    is its own [strip]. *)
Lemma strip_between (c d : ascii) (s : string) :
  Py.isspace c = false -> Py.isspace d = false ->
  Py.strip (String c (s ++ String d EmptyString)) = String c (s ++ String d EmptyString).
Proof.
  intros Hc Hd. unfold Py.strip. rewrite lstrip_first by exact Hc.
  change (String c (s ++ String d EmptyString))
    with ((String c s) ++ String d EmptyString)%string.
  apply rstrip_app_no_space; [discriminate|].
  cbn [Py.all_chars]. rewrite Hd. reflexivity.
Qed.

Lemma atom_head (a : string) :
  is_atom a = true -> a <> EmptyString ->
  exists c a', a = String c a' /\ special c = false /\ is_atom a' = true.
Proof.
  intros H Hne. destruct a as [|c a']; [congruence|].
  unfold is_atom in H. cbn [Py.all_chars] in H. apply andb_true_iff in H as [Hc Ha].
  apply negb_true_iff in Hc. eauto.
Qed.

Lemma not_special_not_space (c : ascii) : special c = false -> Py.isspace c = false.
Proof. unfold special. intros H. apply orb_false_iff in H. tauto. Qed.

Section Brackets.

Variable host : attr_table.
Variable ev : string -> gmap string value -> outcome value.

(** The dispatch of [eval_expr] on a text with no call, no ternary and no
    operator: what is left is property access, index access, a name or a
    literal. *)
Lemma eval_expr_body_operand (e : string) (ctx : gmap string value) :
  Py.strip e = e ->
  Py.startswith "{" e = false -> Py.startswith "[" e = false ->
  (forall c, Py.char_in c "(?=<>&| " = true -> avoids c e = true) ->
  eval_expr_body host ev e ctx
  = if Py.contains "." e
       && negb (match e with String c _ => Py.isdigit c | EmptyString => false end)
    then eval_property_access host e ctx
    else if Py.contains "[" e && Py.endswith "]" e
    then eval_index_access ev e ctx
    else match ctx !! e with
         | Some v => Ret v
         | None => Ret (eval_literal e)
         end.
Proof.
  intros Hs H1 H2 Hav. unfold eval_expr_body. rewrite Hs, H1, H2. cbn [andb].
  rewrite try_function_call_none, try_ternary_none, try_comparison_none,
    !try_logical_none, try_arithmetic_none by (apply Hav; reflexivity).
  reflexivity.
Qed.

Lemma eval_index_access_parts (a i : string) (ctx : gmap string value) :
  avoids "[" a = true ->
  eval_index_access ev (a ++ "[" ++ i ++ "]") ctx
  = (let* base := ev a ctx in
     let* index := ev i ctx in
     match base with
     | VList l | VTuple l =>
         let* n := py_int index in
         if (n <? Z.of_nat (List.length l))%Z then seq_index l n else Ret VNONE
     | VDict d => dict_get d index VNONE
     | _ => Ret VNONE
     end).
Proof.
  intros Ha. unfold eval_index_access.
  change ("[" ++ i ++ "]")%string with (String "[" (i ++ String "]" EmptyString)).
  rewrite find_app_avoids by exact Ha. cbn [or_raise outcome_bind].
  rewrite slice_to_app, slice_inner. reflexivity.
Qed.

End Brackets.

(** X8.  [a[i]] for a name or literal [a] and a name or literal [i]: both are
    evaluated, [a] first.  A list or a tuple is read at [int(i)] when that
    is below its length, with the host's indexing, so that a negative index
    counts from the end and raises below [-len]; from the length on the
    result is [NONE].  A dict is read with [get], [NONE] for a missing key.
    Any other base, a string included, gives [NONE]. *)
Theorem index_access_of_atoms (host : attr_table) (a i : string) (ctx : gmap string value) :
  is_atom a = true -> is_atom i = true -> a <> EmptyString ->
  eval_expr host (a ++ "[" ++ i ++ "]") ctx
  = (let* base := eval_expr host a ctx in
     let* index := eval_expr host i ctx in
     match base with
     | VList l | VTuple l =>
         let* n := py_int index in
         if (n <? Z.of_nat (List.length l))%Z then seq_index l n else Ret VNONE
     | VDict d => dict_get d index VNONE
     | _ => Ret VNONE
     end).
Proof.
  intros Ha Hi Hne. rewrite eval_expr_unfold.
  destruct (atom_head a Ha Hne) as (c & a' & -> & Hc & Ha').
  set (e := (String c a' ++ "[" ++ i ++ "]")%string).
  assert (Hav : forall x, special x = true -> avoids x "[]" = true -> avoids x e = true).
  { intros x Hx Hb. subst e.
    change ("[" ++ i ++ "]")%string with ("[" ++ (i ++ "]"))%string.
    rewrite !avoids_app, (atom_avoids x (String c a')), (atom_avoids x i) by assumption.
    unfold avoids in *. cbn [Py.all_chars] in *.
    apply andb_true_iff in Hb as [-> Hb]. apply andb_true_iff in Hb as [-> _]. reflexivity. }
  rewrite eval_expr_body_operand.
  - rewrite (contains_avoids "." "." e) by (try apply Hav; reflexivity). cbn [andb].
    subst e. rewrite contains_app.
    replace (String c a' ++ "[" ++ i ++ "]")%string
      with ((String c a' ++ "[" ++ i) ++ "]")%string at 1
      by (rewrite !append_assoc; reflexivity).
    rewrite endswith_app. cbn [andb].
    apply eval_index_access_parts. apply atom_avoids; [exact Ha | reflexivity].
  - subst e. change ("[" ++ i ++ "]")%string with (String "[" (i ++ String "]" EmptyString)).
    replace (String c a' ++ String "[" (i ++ String "]" EmptyString))%string
      with (String c ((a' ++ String "[" i) ++ String "]" EmptyString))
      by (rewrite append_cons; f_equal; rewrite append_assoc; reflexivity).
    apply strip_between; [apply not_special_not_space; exact Hc | reflexivity].
  - apply (startswith_avoids "{"); [apply Hav|]; reflexivity.
  - subst e. rewrite append_cons. cbn [Py.startswith].
    rewrite (atom_char_neq c "[" Hc eq_refl). reflexivity.
  - intros x Hx. apply Hav.
    + cbn [Py.char_in] in Hx. unfold special.
      repeat (apply orb_true_iff in Hx as [Hx | Hx];
              [apply Ascii.eqb_eq in Hx; subst x; reflexivity |]).
      discriminate.
    + cbn [Py.char_in] in Hx.
      repeat (apply orb_true_iff in Hx as [Hx | Hx];
              [apply Ascii.eqb_eq in Hx; subst x; reflexivity |]).
      discriminate.
Qed.

Lemma index_access_of_atoms_witness :
  eval_expr HostAttrs.cpython ("xs" ++ "[" ++ "-1" ++ "]") {["xs" := VList [VInt 4; VInt 7]]}
  = Ret (VInt 7).
Proof.
  rewrite (index_access_of_atoms HostAttrs.cpython "xs" "-1"
             {["xs" := VList [VInt 4; VInt 7]]});
    [vm_compute; reflexivity | reflexivity | reflexivity | discriminate].
Defined.

(** * Calls *)

Lemma xid_continue_not_special (c : ascii) : Py.xid_continue c = true -> special c = false.
Proof.
  destruct c as [[] [] [] [] [] [] [] []]; vm_compute; intros H;
    first [reflexivity | discriminate].
Qed.

Lemma xid_start_continue (c : ascii) : Py.xid_start c = true -> Py.xid_continue c = true.
Proof. unfold Py.xid_continue. intros ->. reflexivity. Qed.

Lemma identifier_atom (s : string) :
  Py.isidentifier s = true -> is_atom s = true /\ s <> EmptyString.
Proof.
  destruct s as [|c s]; [discriminate|]. cbn [Py.isidentifier]. intros H.
  apply andb_true_iff in H as [Hc Hs]. split; [|discriminate].
  unfold is_atom. cbn [Py.all_chars].
  rewrite (xid_continue_not_special c (xid_start_continue c Hc)). cbn [negb andb].
  induction s as [|a s IH]; [reflexivity|].
  cbn [Py.all_chars] in *. apply andb_true_iff in Hs as [Ha Hs].
  rewrite (xid_continue_not_special a Ha), IH by exact Hs. reflexivity.
Qed.

Lemma builtin_identifier (host : attr_table) (fn_name : string) (f : value -> outcome value) :
  builtin host fn_name = Some f -> Py.isidentifier fn_name = true.
Proof.
  unfold builtin.
  repeat match goal with
         | |- (if String.eqb fn_name ?n then _ else _) = _ -> _ =>
             destruct (String.eqb fn_name n) eqn:E;
             [apply String.eqb_eq in E; subst fn_name; intros _; reflexivity | clear E]
         end.
  discriminate.
Qed.


Section Calling.

Variable host : attr_table.
Variable ev : string -> gmap string value -> outcome value.

(** The parts [eval_function_call] takes a call apart into. *)
Lemma eval_function_call_parts (fn_name args : string) (ctx : gmap string value) :
  avoids "(" fn_name = true ->
  eval_function_call host ev (fn_name ++ "(" ++ args ++ ")") ctx
  = match builtin host fn_name with
    | Some f => let* arg := ev args ctx in f arg
    | None =>
        if String.eqb fn_name "filter" then
          let parts := split_args args in
          let* part0 := or_raise IndexError (nth_error parts 0) in
          let* lst := ev part0 ctx in
          let* part1 := or_raise IndexError (nth_error parts 1) in
          let* items := py_iter lst in
          let* kept :=
            filterM_outcome (fun x => let* r := parse_expr_with ev part1 x in truthy r) items in
          Ret (VList kept)
        else if String.eqb fn_name "map" then
          let parts := split_args args in
          let* part0 := or_raise IndexError (nth_error parts 0) in
          let* lst := ev part0 ctx in
          let* part1 := or_raise IndexError (nth_error parts 1) in
          let* items := py_iter lst in
          let* mapped := mapM_outcome (parse_expr_with ev part1) items in
          Ret (VList mapped)
        else Ret VNONE
    end.
Proof.
  intros Hf. unfold eval_function_call.
  change ("(" ++ args ++ ")")%string with (String "(" (args ++ String ")" EmptyString)).
  rewrite find_app_avoids by exact Hf. cbn [or_raise outcome_bind].
  rewrite slice_to_app, slice_inner. reflexivity.
Qed.

(** An identifier followed by a parenthesised text with balanced
    parentheses is taken as a call. *)
Lemma eval_expr_body_call (fn_name args : string) (ctx : gmap string value) :
  Py.isidentifier fn_name = true ->
  paren_depth ("(" ++ args ++ ")") 0 = 0%Z ->
  eval_expr_body host ev (fn_name ++ "(" ++ args ++ ")") ctx
  = eval_function_call host ev (fn_name ++ "(" ++ args ++ ")") ctx.
Proof.
  intros Hid Hdepth. destruct (identifier_atom fn_name Hid) as [Hatom Hne].
  destruct (atom_head fn_name Hatom Hne) as (c & f' & E & Hc & Hf').
  assert (Hparen : avoids "(" fn_name = true) by (apply atom_avoids; [exact Hatom | reflexivity]).
  unfold eval_expr_body.
  assert (Hs : Py.strip (fn_name ++ "(" ++ args ++ ")") = (fn_name ++ "(" ++ args ++ ")")%string).
  { rewrite E. change ("(" ++ args ++ ")")%string with (String "(" (args ++ String ")" EmptyString)).
    replace (String c f' ++ String "(" (args ++ String ")" EmptyString))%string
      with (String c ((f' ++ String "(" args) ++ String ")" EmptyString))
      by (rewrite append_cons; f_equal; rewrite append_assoc; reflexivity).
    apply strip_between; [apply not_special_not_space; exact Hc | reflexivity]. }
  rewrite Hs.
  assert (H1 : Py.startswith "{" (fn_name ++ "(" ++ args ++ ")") = false).
  { rewrite E, append_cons. cbn [Py.startswith]. rewrite (atom_char_neq c "{" Hc eq_refl).
    reflexivity. }
  assert (H2 : Py.startswith "[" (fn_name ++ "(" ++ args ++ ")") = false).
  { rewrite E, append_cons. cbn [Py.startswith]. rewrite (atom_char_neq c "[" Hc eq_refl).
    reflexivity. }
  rewrite H1, H2. cbn [andb].
  unfold try_function_call.
  rewrite contains_app.
  replace (fn_name ++ "(" ++ args ++ ")")%string
    with ((fn_name ++ "(" ++ args) ++ ")")%string at 1
    by (rewrite !append_assoc; reflexivity).
  rewrite endswith_app. cbn [andb].
  change ("(" ++ args ++ ")")%string with (String "(" (args ++ String ")" EmptyString)).
  rewrite find_app_avoids by exact Hparen.
  rewrite slice_to_app, Hid, slice_from_app. cbn [orb].
  change (String "(" (args ++ String ")" EmptyString)) with ("(" ++ args ++ ")")%string.
  rewrite Hdepth. reflexivity.
Qed.

End Calling.

Lemma eval_expr_call (host : attr_table) (fn_name args : string) (ctx : gmap string value) :
  Py.isidentifier fn_name = true ->
  paren_depth ("(" ++ args ++ ")") 0 = 0%Z ->
  eval_expr host (fn_name ++ "(" ++ args ++ ")") ctx
  = eval_function_call host (eval_expr host) (fn_name ++ "(" ++ args ++ ")") ctx.
Proof. intros Hid Hd. rewrite eval_expr_unfold. apply eval_expr_body_call; assumption. Qed.

(** X9.  A call of a builtin function ([length], [uppercase], [lowercase],
    [toString], [toNumber], [abs], [min], [max], [sum], [keys], [values]):
    the text between the parentheses is evaluated as one expression and
    the builtin is applied to its value; an exception of the argument is
    the outcome. *)
Theorem builtin_call (host : attr_table) (fn_name args : string) (f : value -> outcome value)
    (ctx : gmap string value) :
  builtin host fn_name = Some f ->
  paren_depth ("(" ++ args ++ ")") 0 = 0%Z ->
  eval_expr host (fn_name ++ "(" ++ args ++ ")") ctx
  = (let* arg := eval_expr host args ctx in f arg).
Proof.
  intros Hb Hd. pose proof (builtin_identifier host fn_name f Hb) as Hid.
  rewrite eval_expr_call by assumption.
  rewrite eval_function_call_parts, Hb; [reflexivity|].
  apply atom_avoids; [apply identifier_atom; exact Hid | reflexivity].
Qed.

Lemma builtin_call_witness :
  eval_expr HostAttrs.cpython ("length" ++ "(" ++ "xs" ++ ")") {["xs" := VStr "abc"]}
  = (let* arg := eval_expr HostAttrs.cpython "xs" {["xs" := VStr "abc"]} in
     builtin_length HostAttrs.cpython arg).
Proof.
  apply (builtin_call HostAttrs.cpython "length" "xs" (builtin_length HostAttrs.cpython)
           {["xs" := VStr "abc"]}); reflexivity.
Defined.





(** * Names and literals *)



Lemma eval_literal_quoted (q : ascii) (t : string) :
  q = dquote \/ q = squote ->
  eval_literal (String q (t ++ String q EmptyString)) = VStr t.
Proof.
  intros Hq. unfold eval_literal.
  rewrite strip_between by (destruct Hq; subst q; reflexivity).
  cbv zeta.
  assert (Hend : Py.endswith (String q EmptyString) (String q (t ++ String q EmptyString)) = true)
    by (apply (endswith_app (String q EmptyString) (String q t))).
  assert (Hslice : Py.slice (String q (t ++ String q EmptyString)) (Some 1%Z) (Some (-1)%Z) = t)
    by (apply (slice_inner EmptyString t q q)).
  rewrite Hslice.
  destruct Hq; subst q.
  - change (String.eqb (String dquote (t ++ String dquote EmptyString)) "true") with false.
    change (String.eqb (String dquote (t ++ String dquote EmptyString)) "false") with false.
    change (String.eqb (String dquote (t ++ String dquote EmptyString)) "null") with false.
    change (Py.startswith (String dquote EmptyString)
              (String dquote (t ++ String dquote EmptyString))) with true.
    rewrite Hend. reflexivity.
  - change (String.eqb (String squote (t ++ String squote EmptyString)) "true") with false.
    change (String.eqb (String squote (t ++ String squote EmptyString)) "false") with false.
    change (String.eqb (String squote (t ++ String squote EmptyString)) "null") with false.
    change (Py.startswith (String dquote EmptyString)
              (String squote (t ++ String squote EmptyString))) with false.
    change (Py.startswith (String squote EmptyString)
              (String squote (t ++ String squote EmptyString))) with true.
    rewrite Hend. reflexivity.
Qed.

(** X2.  What [eval_literal] reads back: the decimal text of any integer is
    that integer, and any text between two double quotes or between two
    single quotes is that text, character for character (there are no
    escapes, and quotes inside stay). *)
Theorem eval_literal_round_trips (n : Z) (t : string) :
  eval_literal (PyConv.str_of_int n) = VInt n
  /\ eval_literal (String dquote (t ++ String dquote EmptyString)) = VStr t
  /\ eval_literal (String squote (t ++ String squote EmptyString)) = VStr t.
Proof.
  split; [apply eval_literal_str_of_int|].
  split; apply eval_literal_quoted; auto.
Qed.

Lemma find_at_depth_0_rightmost_witness :
  (find_at_depth_0 "a - (b - c) - d" " - " true = (-1)%Z
   /\ forall j, ~ occurs_at " - " "a - (b - c) - d" 0 j)
  \/ (exists j, find_at_depth_0 "a - (b - c) - d" " - " true = Z.of_nat j
                /\ occurs_at " - " "a - (b - c) - d" 0 j
                /\ forall j', (j < j')%nat -> ~ occurs_at " - " "a - (b - c) - d" 0 j').
Proof.
  apply (find_at_depth_0_rightmost "a - (b - c) - d" " " "- "); reflexivity.
Defined.

(** * Arithmetic on two operands *)

Lemma arith_char_facts (o : ascii) :
  arith_char o = true ->
  opens o = false /\ closes o = false /\ Ascii.eqb " " o = false /\ Ascii.eqb o " " = false.
Proof.
  unfold arith_char. cbn [Py.char_in]. intros H.
  repeat (apply orb_true_iff in H as [H | H];
          [apply Ascii.eqb_eq in H; subst o; repeat split; reflexivity |]).
  discriminate.
Qed.

Lemma atom_no_space_start (o : ascii) (r : string) :
  is_atom r = true -> Py.startswith (String o (String " " EmptyString)) r = false.
Proof.
  intros Hr. apply (startswith_avoids " "); [apply atom_avoids; [exact Hr | reflexivity]|].
  unfold avoids. cbn [Py.all_chars]. rewrite Ascii.eqb_refl. cbn [negb andb].
  apply andb_false_r.
Qed.

(** In [l o r] with atoms [l] and [r] and single spaces around the
    operator, the rightmost operator outside brackets is the one between
    them. *)
Lemma find_at_depth_0_spaced (o : ascii) (l r : string) :
  arith_char o = true -> is_atom l = true -> is_atom r = true -> r <> EmptyString ->
  find_at_depth_0 (l ++ spaced o ++ r) (spaced o) true = Z.of_nat (String.length l).
Proof.
  intros Ho Hl Hr Hne. destruct (arith_char_facts o Ho) as (Hopen & Hclose & Hsp & _).
  unfold find_at_depth_0, spaced.
  rewrite find_at_depth_0_loop_skip; [| reflexivity | exact Hl |].
  2:{ rewrite length_append. cbn [String.length]. lia. }
  change (String " " (String o (String " " EmptyString)) ++ r)%string
    with (String " " (String o (String " " r))).
  rewrite find_at_depth_0_loop_plain;
    [| reflexivity | reflexivity | cbn [String.length]; lia].
  cbn [Py.startswith]. rewrite !Ascii.eqb_refl. cbn [Z.eqb andb].
  rewrite find_at_depth_0_loop_plain; [| exact Hopen | exact Hclose |].
  2:{ destruct r; [congruence | cbn [String.length]; lia]. }
  cbn [Py.startswith]. rewrite Hsp. cbn [Z.eqb andb].
  rewrite find_at_depth_0_loop_cons.
  destruct (String.length (String " " (String o (String " " EmptyString)))
            <=? String.length (String " " r))%nat; [|reflexivity].
  change (opens " ") with false. change (closes " ") with false. cbv iota.
  cbn [Py.startswith]. rewrite Ascii.eqb_refl. cbn [andb].
  fold (Py.startswith (String o (String " " EmptyString)) r).
  rewrite (atom_no_space_start o r Hr). cbn [Z.eqb andb].
  rewrite find_at_depth_0_loop_atom; [reflexivity | reflexivity | exact Hr].
Qed.

(** No other spaced operator stands in [l o r]. *)
Lemma contains_spaced_other (o o' : ascii) (l r : string) :
  arith_char o = true -> o' <> o -> is_atom l = true -> is_atom r = true ->
  Py.contains (spaced o') (l ++ spaced o ++ r) = false.
Proof.
  intros Ho Hneq Hl Hr. destruct (arith_char_facts o Ho) as (_ & _ & Hsp & _).
  unfold spaced.
  change (String " " (String o (String " " EmptyString)) ++ r)%string
    with (String " " (String o (String " " r))).
  assert (Hoo : Ascii.eqb o' o = false) by (apply Ascii.eqb_neq; exact Hneq).
  induction l as [|a l IH].
  - change (EmptyString ++ String " " (String o (String " " r)))%string
      with (String " " (String o (String " " r))).
    cbn [Py.contains Py.startswith]. rewrite Ascii.eqb_refl, Hoo, Hsp. cbn [andb orb].
    fold (Py.startswith (String o' (String " " EmptyString)) r).
    rewrite (atom_no_space_start o' r Hr). cbn [orb].
    fold (Py.contains (String " " (String o' (String " " EmptyString))) r).
    apply (contains_avoids " "); [apply atom_avoids; [exact Hr | reflexivity] | reflexivity].
  - unfold is_atom in Hl. cbn [Py.all_chars] in Hl. apply andb_true_iff in Hl as [Ha Hl].
    apply negb_true_iff in Ha. rewrite append_cons.
    cbn [Py.contains Py.startswith]. rewrite (atom_char_neq a " " Ha eq_refl). cbn [andb orb].
    apply IH. exact Hl.
Qed.

Lemma strip_spaced (o : ascii) (l r : string) :
  is_atom l = true -> is_atom r = true -> l <> EmptyString -> r <> EmptyString ->
  Py.strip (l ++ spaced o ++ r) = (l ++ spaced o ++ r)%string.
Proof.
  intros Hl Hr Hnl Hnr. unfold Py.strip.
  destruct (atom_head l Hl Hnl) as (c & l' & -> & Hc & _).
  rewrite append_cons, lstrip_first by (apply not_special_not_space; exact Hc).
  rewrite <- append_cons, <- (append_assoc (String c l') (spaced o) r).
  apply rstrip_app_no_space; [exact Hnr | apply atom_not_space; exact Hr].
Qed.

Section Arithmetic.

Variable host : attr_table.
Variable ev : string -> gmap string value -> outcome value.

(** The operators tried before [o] do not stand in [l o r]. *)
Lemma try_arithmetic_skip (before : list (string * (value -> value -> outcome value)))
    (rest ops : list (string * (value -> value -> outcome value)))
    (o : ascii) (l r : string) (ctx : gmap string value) :
  arith_char o = true -> is_atom l = true -> is_atom r = true ->
  Forall (fun opfn => exists o', fst opfn = String o' EmptyString /\ o' <> o) before ->
  ops = before ++ rest ->
  try_arithmetic ev ops (l ++ spaced o ++ r) ctx
  = try_arithmetic ev rest (l ++ spaced o ++ r) ctx.
Proof.
  intros Ho Hl Hr Hb ->.
  induction Hb as [|[op f] before (o' & E & Hneq) Hb IH]; [reflexivity|].
  cbn [fst] in E. subst op. cbn [app try_arithmetic].
  change (" " ++ String o' EmptyString ++ " ")%string with (spaced o').
  rewrite contains_spaced_other by assumption. exact IH.
Qed.

Lemma try_arithmetic_here (rest : list (string * (value -> value -> outcome value)))
    (o : ascii) (f : value -> value -> outcome value) (l r : string)
    (ctx : gmap string value) :
  arith_char o = true -> is_atom l = true -> is_atom r = true ->
  l <> EmptyString -> r <> EmptyString ->
  try_arithmetic ev ((String o EmptyString, f) :: rest) (l ++ spaced o ++ r) ctx
  = Some (let* left := ev l ctx in
          let* right := ev r ctx in
          match left with
          | VStr s =>
              if String.eqb (String o EmptyString) "+"
              then let* t := py_str right in Ret (VStr (s ++ t))
              else f left right
          | _ => f left right
          end).
Proof.
  intros Ho Hl Hr Hnl Hnr. cbn [try_arithmetic].
  change (" " ++ String o EmptyString ++ " ")%string with (spaced o).
  rewrite contains_app, find_at_depth_0_spaced by assumption.
  assert ((0 <=? Z.of_nat (String.length l))%Z = true) as -> by (apply Z.leb_le; lia).
  rewrite slice_to_app.
  replace (Z.of_nat (String.length l) + Z.of_nat (String.length (spaced o)))%Z
    with (Z.of_nat (String.length (l ++ spaced o))) by (rewrite length_append; lia).
  rewrite <- (append_assoc l (spaced o) r), slice_from_app.
  rewrite !strip_atom by assumption.
  destruct l as [|a l]; [congruence|]. destruct r as [|b r]; [congruence|].
  reflexivity.
Qed.

Lemma eval_expr_body_spaced (o : ascii) (f : value -> value -> outcome value)
    (l r : string) (ctx : gmap string value) :
  In (String o EmptyString, f) arithmetic_ops ->
  is_atom l = true -> is_atom r = true -> l <> EmptyString -> r <> EmptyString ->
  eval_expr_body host ev (l ++ spaced o ++ r) ctx
  = (let* left := ev l ctx in
     let* right := ev r ctx in
     match left with
     | VStr s =>
         if String.eqb (String o EmptyString) "+"
         then let* t := py_str right in Ret (VStr (s ++ t))
         else f left right
     | _ => f left right
     end).
Proof.
  intros Hin Hl Hr Hnl Hnr. unfold eval_expr_body.
  rewrite strip_spaced by assumption.
  set (e := (l ++ spaced o ++ r)%string).
  assert (Ho : arith_char o = true).
  { unfold arithmetic_ops in Hin. cbn [In] in Hin.
    repeat (destruct Hin as [Hin | Hin]; [injection Hin as <- _; reflexivity |]).
    destruct Hin. }
  assert (Hav : forall c, special c = true -> Ascii.eqb c " " = false -> avoids c e = true).
  { intros c Hc Hsp. subst e. rewrite !avoids_app.
    rewrite (atom_avoids c l), (atom_avoids c r) by assumption.
    unfold avoids, spaced. cbn [Py.all_chars].
    rewrite (Ascii.eqb_sym " " c), Hsp.
    assert (Ascii.eqb o c = false) as ->; [|reflexivity].
    apply Ascii.eqb_neq. intros <-. unfold arith_char in Ho. cbn [Py.char_in] in Ho.
    repeat (apply orb_true_iff in Ho as [Ho | Ho];
            [apply Ascii.eqb_eq in Ho; subst o; discriminate |]).
    discriminate. }
  rewrite (startswith_avoids "{" "{" e), (startswith_avoids "[" "[" e)
    by (try apply Hav; reflexivity).
  cbn [andb].
  rewrite try_function_call_none, try_ternary_none, try_comparison_none,
    !try_logical_none by (apply Hav; reflexivity).
  subst e. unfold arithmetic_ops in *. cbn [In] in Hin.
  destruct Hin as [Hin | [Hin | [Hin | [Hin | [Hin | []]]]]]; injection Hin as <- <-.
  - rewrite try_arithmetic_here by assumption. reflexivity.
  - rewrite (try_arithmetic_skip
               [("+", operator_add)]
               [("-", operator_sub); ("*", operator_mul); ("/", operator_truediv); ("%", operator_mod)]) by
        (first [assumption | reflexivity
               | repeat (apply List.Forall_cons;
                         [eexists; split; [reflexivity | discriminate] |]);
                 apply List.Forall_nil]).
    rewrite try_arithmetic_here by assumption. reflexivity.
  - rewrite (try_arithmetic_skip
               [("+", operator_add); ("-", operator_sub)]
               [("*", operator_mul); ("/", operator_truediv); ("%", operator_mod)]) by
        (first [assumption | reflexivity
               | repeat (apply List.Forall_cons;
                         [eexists; split; [reflexivity | discriminate] |]);
                 apply List.Forall_nil]).
    rewrite try_arithmetic_here by assumption. reflexivity.
  - rewrite (try_arithmetic_skip
               [("+", operator_add); ("-", operator_sub); ("*", operator_mul)]
               [("/", operator_truediv); ("%", operator_mod)]) by
        (first [assumption | reflexivity
               | repeat (apply List.Forall_cons;
                         [eexists; split; [reflexivity | discriminate] |]);
                 apply List.Forall_nil]).
    rewrite try_arithmetic_here by assumption. reflexivity.
  - rewrite (try_arithmetic_skip
               [("+", operator_add); ("-", operator_sub); ("*", operator_mul); ("/", operator_truediv)]
               [("%", operator_mod)]) by
        (first [assumption | reflexivity
               | repeat (apply List.Forall_cons;
                         [eexists; split; [reflexivity | discriminate] |]);
                 apply List.Forall_nil]).
    rewrite try_arithmetic_here by assumption. reflexivity.
Qed.

End Arithmetic.

(** X4.  A binary arithmetic expression [l o r], with [o] one of [+ - * / %]
    between single spaces and operands that are names or literals: both
    operands are evaluated, the left one first, and the operator of the
    host is applied to the two values; only with [+] and a string on the
    left the result is the string followed by the text of the right
    operand. *)
Theorem arithmetic_of_atoms (host : attr_table) (o : ascii)
    (f : value -> value -> outcome value) (l r : string) (ctx : gmap string value) :
  In (String o EmptyString, f) arithmetic_ops ->
  is_atom l = true -> is_atom r = true -> l <> EmptyString -> r <> EmptyString ->
  eval_expr host (l ++ spaced o ++ r) ctx
  = (let* left := eval_expr host l ctx in
     let* right := eval_expr host r ctx in
     match left with
     | VStr s =>
         if String.eqb (String o EmptyString) "+"
         then let* t := py_str right in Ret (VStr (s ++ t))
         else f left right
     | _ => f left right
     end).
Proof.
  intros Hin Hl Hr Hnl Hnr. rewrite eval_expr_unfold.
  apply eval_expr_body_spaced; assumption.
Qed.

Lemma arithmetic_of_atoms_witness :
  eval_expr HostAttrs.cpython ("n" ++ spaced "%" ++ "3") {["n" := VInt 10]}
  = Ret (VInt 1).
Proof.
  rewrite (arithmetic_of_atoms HostAttrs.cpython "%" operator_mod "n" "3" {["n" := VInt 10]});
    [vm_compute; reflexivity | cbn; tauto | reflexivity | reflexivity
     | discriminate | discriminate].
Defined.

(** * Dicts as lists of items *)

Section DictLemmas.

Context {A : Type}.
Implicit Types (d : list (string * A)) (k : string) (v : A).

Lemma dict_get_set_eq k v d : PyDict.get k (PyDict.set k v d) = Some v.
Proof.
  induction d as [|[k' v'] d IH]; cbn [PyDict.set PyDict.get].
  - rewrite String.eqb_refl. reflexivity.
  - destruct (String.eqb k k') eqn:E; cbn [PyDict.get].
    + rewrite String.eqb_refl. reflexivity.
    + rewrite E. exact IH.
Qed.

Lemma dict_get_set_ne k k' v d : k <> k' -> PyDict.get k' (PyDict.set k v d) = PyDict.get k' d.
Proof.
  intros Hne. induction d as [|[k0 v0] d IH]; cbn [PyDict.set PyDict.get].
  - assert (String.eqb k' k = false) as -> by (apply String.eqb_neq; congruence). reflexivity.
  - destruct (String.eqb k k0) eqn:E; cbn [PyDict.get].
    + apply String.eqb_eq in E. subst k0.
      assert (String.eqb k' k = false) as -> by (apply String.eqb_neq; congruence).
      reflexivity.
    + rewrite IH. reflexivity.
Qed.

Lemma dict_get_none k d : PyDict.get k d = None <-> ~ In k (PyDict.keys d).
Proof.
  induction d as [|[k' v'] d IH]; cbn [PyDict.get PyDict.keys List.map fst In]; [tauto|].
  destruct (String.eqb k k') eqn:E.
  - apply String.eqb_eq in E. subst k'. split; [discriminate | tauto].
  - apply String.eqb_neq in E. unfold PyDict.keys in IH. rewrite IH. intuition congruence.
Qed.

Lemma dict_keys_set k v d :
  PyDict.keys (PyDict.set k v d)
  = if PyDict.mem k d then PyDict.keys d else PyDict.keys d ++ [k].
Proof.
  unfold PyDict.mem, PyDict.keys.
  induction d as [|[k' v'] d IH]; cbn [PyDict.set PyDict.get List.map fst]; [reflexivity|].
  destruct (String.eqb k k') eqn:E; cbn [List.map fst].
  - apply String.eqb_eq in E. subst k'. reflexivity.
  - rewrite IH. destruct (PyDict.get k d); reflexivity.
Qed.

Lemma dict_keys_del k d : forall x, In x (PyDict.keys (PyDict.del k d)) -> In x (PyDict.keys d).
Proof.
  unfold PyDict.keys. induction d as [|[k' v'] d IH]; intros x; cbn [PyDict.del]; [tauto|].
  destruct (String.eqb k k'); cbn [List.map fst In]; [tauto|].
  intros [H | H]; [left; exact H | right; apply IH; exact H].
Qed.

Lemma dict_nodup_del k d :
  List.NoDup (PyDict.keys d) -> List.NoDup (PyDict.keys (PyDict.del k d)).
Proof.
  unfold PyDict.keys. induction d as [|[k' v'] d IH]; intros H; cbn [PyDict.del]; [exact H|].
  cbn [List.map fst] in H. inversion H as [|? ? Hnot Hnd]; subst.
  destruct (String.eqb k k'); [exact Hnd|].
  cbn [List.map fst]. constructor; [|apply IH; exact Hnd].
  intros Hin. apply Hnot. apply (dict_keys_del k d). exact Hin.
Qed.

Lemma dict_get_del_eq k d : List.NoDup (PyDict.keys d) -> PyDict.get k (PyDict.del k d) = None.
Proof.
  unfold PyDict.keys. induction d as [|[k' v'] d IH]; intros H; cbn [PyDict.del PyDict.get];
    [reflexivity|].
  cbn [List.map fst] in H. inversion H as [|? ? Hnot Hnd]; subst.
  destruct (String.eqb k k') eqn:E.
  - apply String.eqb_eq in E. subst k'. apply dict_get_none. exact Hnot.
  - cbn [PyDict.get]. rewrite E. apply IH. exact Hnd.
Qed.

Lemma dict_get_del_ne k k' d : k <> k' -> PyDict.get k' (PyDict.del k d) = PyDict.get k' d.
Proof.
  intros Hne. induction d as [|[k0 v0] d IH]; cbn [PyDict.del PyDict.get]; [reflexivity|].
  destruct (String.eqb k k0) eqn:E.
  - apply String.eqb_eq in E. subst k0.
    assert (String.eqb k' k = false) as -> by (apply String.eqb_neq; congruence).
    reflexivity.
  - cbn [PyDict.get]. rewrite IH. reflexivity.
Qed.

Lemma dict_nodup_set k v d :
  List.NoDup (PyDict.keys d) -> List.NoDup (PyDict.keys (PyDict.set k v d)).
Proof.
  intros H. rewrite dict_keys_set. unfold PyDict.mem.
  destruct (PyDict.get k d) eqn:E; [exact H|].
  apply dict_get_none in E. apply List.NoDup_app; [exact H | repeat constructor; tauto |].
  intros x Hx [<- | []]. exact (E Hx).
Qed.

End DictLemmas.

(** * Paths of the mock adapter *)

Lemma rstrip_chars_cons (chars : string) (c : ascii) (s : string) :
  Py.rstrip_chars chars (String c s)
  = match Py.rstrip_chars chars s with
    | EmptyString => if Py.char_in c chars then EmptyString else String c EmptyString
    | r => String c r
    end.
Proof. reflexivity. Qed.

Lemma rstrip_chars_idempotent (chars s : string) :
  Py.rstrip_chars chars (Py.rstrip_chars chars s) = Py.rstrip_chars chars s.
Proof.
  induction s as [|a s IH]; [reflexivity|].
  rewrite rstrip_chars_cons. destruct (Py.rstrip_chars chars s) as [|b r] eqn:E.
  - destruct (Py.char_in a chars) eqn:Ea; [reflexivity|].
    rewrite rstrip_chars_cons. cbn [Py.rstrip_chars]. rewrite Ea. reflexivity.
  - rewrite rstrip_chars_cons, IH. reflexivity.
Qed.

Lemma lstrip_chars_head (chars s : string) :
  Py.lstrip_chars chars s = EmptyString
  \/ exists c t, Py.lstrip_chars chars s = String c t /\ Py.char_in c chars = false.
Proof.
  induction s as [|a s IH]; [left; reflexivity|].
  cbn [Py.lstrip_chars]. destruct (Py.char_in a chars) eqn:Ea; [exact IH|].
  right. exists a, s. split; [reflexivity | exact Ea].
Qed.

Lemma rstrip_chars_first (chars : string) (c : ascii) (t : string) :
  Py.char_in c chars = false -> exists r, Py.rstrip_chars chars (String c t) = String c r.
Proof.
  intros Hc. rewrite rstrip_chars_cons, Hc. destruct (Py.rstrip_chars chars t); eauto.
Qed.

(** A stripped text starts with no character of [chars]: stripping it on
    the left again changes nothing. *)
Lemma lstrip_chars_strip_chars (chars s : string) :
  Py.lstrip_chars chars (Py.strip_chars chars s) = Py.strip_chars chars s.
Proof.
  unfold Py.strip_chars.
  destruct (lstrip_chars_head chars s) as [E | (c & t & E & Hc)]; rewrite E; [reflexivity|].
  destruct (rstrip_chars_first chars c t Hc) as [r Hr]. rewrite Hr.
  cbn [Py.lstrip_chars]. rewrite Hc. reflexivity.
Qed.

Lemma strip_chars_idempotent (chars s : string) :
  Py.strip_chars chars (Py.strip_chars chars s) = Py.strip_chars chars s.
Proof.
  unfold Py.strip_chars at 1. rewrite lstrip_chars_strip_chars.
  unfold Py.strip_chars. apply rstrip_chars_idempotent.
Qed.

Lemma avoids_lstrip_chars (c : ascii) (chars s : string) :
  avoids c s = true -> avoids c (Py.lstrip_chars chars s) = true.
Proof.
  unfold avoids. induction s as [|a s IH]; [reflexivity|].
  cbn [Py.lstrip_chars]. destruct (Py.char_in a chars); [|tauto].
  cbn [Py.all_chars]. intros H. apply andb_true_iff in H. apply IH. tauto.
Qed.

Lemma avoids_rstrip_chars (c : ascii) (chars s : string) :
  avoids c s = true -> avoids c (Py.rstrip_chars chars s) = true.
Proof.
  unfold avoids. induction s as [|a s IH]; [reflexivity|].
  rewrite rstrip_chars_cons. cbn [Py.all_chars]. intros H.
  apply andb_true_iff in H as [Ha Hs]. specialize (IH Hs).
  destruct (Py.rstrip_chars chars s).
  - destruct (Py.char_in a chars); [reflexivity|]. cbn [Py.all_chars]. rewrite Ha. reflexivity.
  - cbn [Py.all_chars] in *. rewrite Ha. exact IH.
Qed.

Lemma avoids_replace_char (old new : ascii) (s : string) :
  old <> new -> avoids old (Py.replace_char old new s) = true.
Proof.
  intros Hne. unfold avoids. induction s as [|a s IH]; [reflexivity|].
  cbn [Py.replace_char Py.all_chars]. rewrite IH, andb_true_r.
  destruct (Ascii.eqb a old) eqn:E.
  - apply negb_true_iff. apply Ascii.eqb_neq. congruence.
  - rewrite E. reflexivity.
Qed.

Lemma replace_char_avoids (old new : ascii) (s : string) :
  avoids old s = true -> Py.replace_char old new s = s.
Proof.
  unfold avoids. induction s as [|a s IH]; [reflexivity|].
  cbn [Py.replace_char Py.all_chars]. intros H. apply andb_true_iff in H as [Ha Hs].
  apply negb_true_iff in Ha. rewrite Ha, IH by exact Hs. reflexivity.
Qed.

(** [s.endswith(c)] for one character, by the characters of [s]. *)
Lemma endswith_char (c a : ascii) (s : string) :
  Py.endswith (String c EmptyString) (String a s)
  = match s with
    | EmptyString => Ascii.eqb a c
    | String _ _ => Py.endswith (String c EmptyString) s
    end.
Proof.
  unfold Py.endswith. destruct s as [|b s].
  - cbn. destruct (Ascii.eqb a c); reflexivity.
  - cbn [String.length Nat.leb Nat.sub andb]. rewrite !Nat.sub_0_r.
    cbn [Py.drop]. reflexivity.
Qed.

Lemma rstrip_chars_endswith (chars : string) (c : ascii) (s : string) :
  Py.char_in c chars = true ->
  Py.endswith (String c EmptyString) (Py.rstrip_chars chars s) = false.
Proof.
  intros Hc. induction s as [|a s IH]; [reflexivity|].
  rewrite rstrip_chars_cons. destruct (Py.rstrip_chars chars s) as [|b r] eqn:E.
  - destruct (Py.char_in a chars) eqn:Ea; [reflexivity|].
    rewrite endswith_char. apply Ascii.eqb_neq. intros ->. congruence.
  - rewrite endswith_char. exact IH.
Qed.

Lemma normalize_path_fixed (path : string) :
  Mock.normalize_path (Mock.normalize_path path) = Mock.normalize_path path.
Proof.
  unfold Mock.normalize_path at 1.
  rewrite replace_char_avoids.
  - apply strip_chars_idempotent.
  - unfold Mock.normalize_path, Py.strip_chars.
    apply avoids_rstrip_chars, avoids_lstrip_chars, avoids_replace_char. discriminate.
Qed.

Lemma normalize_path_no_leading_slash (path : string) :
  Py.startswith "/" (Mock.normalize_path path) = false.
Proof.
  unfold Mock.normalize_path.
  rewrite <- lstrip_chars_strip_chars.
  destruct (lstrip_chars_head "/" (Py.strip_chars "/" (Py.replace_char "\" "/" path)))
    as [-> | (c & t & -> & Hc)]; [reflexivity|].
  cbn [Py.startswith]. cbn [Py.char_in] in Hc. rewrite orb_false_r in Hc.
  rewrite Ascii.eqb_sym, Hc. reflexivity.
Qed.

(** X25.  [_normalize_path] gives a canonical form: normalizing again changes
    nothing, and the result has no backslash, does not start with a slash
    and does not end with one. *)
Theorem normalize_path_canonical (path : string) :
  Mock.normalize_path (Mock.normalize_path path) = Mock.normalize_path path
  /\ Py.contains "\" (Mock.normalize_path path) = false
  /\ Py.startswith "/" (Mock.normalize_path path) = false
  /\ Py.endswith "/" (Mock.normalize_path path) = false.
Proof.
  split; [apply normalize_path_fixed|]. split; [|split].
  - apply (contains_avoids "\"); [|reflexivity].
    unfold Mock.normalize_path, Py.strip_chars.
    apply avoids_rstrip_chars, avoids_lstrip_chars, avoids_replace_char. discriminate.
  - apply normalize_path_no_leading_slash.
  - unfold Mock.normalize_path, Py.strip_chars. apply rstrip_chars_endswith. reflexivity.
Qed.

(** * The file system of the mock adapter *)

Lemma mock_read_get (st : Mock.t) (path : string) :
  Mock.fs_read st path
  = match PyDict.get (Mock.normalize_path path) (Mock.fs st) with
    | Some content => Mock.Ok content
    | None => Mock.Err (Mock.mkIOError "NotFound" None (Some (Mock.normalize_path path)))
    end.
Proof. reflexivity. Qed.

(** X26.  [fs_write]: in mode [create_new] on a path that exists the write is
    refused with [AlreadyExists] and the adapter is left as it was.  Every
    other write succeeds; afterwards the path exists and reading it, under
    any spelling with the same normal form, gives the content written, or
    in mode [append] on a file that existed the old content followed by
    the new; every file with another normal form reads as before. *)
Theorem mock_fs_write_spec (st : Mock.t) (path content mode : string) :
  if String.eqb mode "create_new" && Mock.fs_exists st path then
    Mock.fs_write st path content mode
    = (Mock.Err (Mock.mkIOError "AlreadyExists" None (Some (Mock.normalize_path path))), st)
  else
    exists st',
      Mock.fs_write st path content mode = (Mock.Ok tt, st')
      /\ Mock.fs_exists st' path = true
      /\ (forall same, Mock.normalize_path same = Mock.normalize_path path ->
            Mock.fs_read st' same
            = Mock.Ok (match Mock.fs_read st path with
                       | Mock.Ok old =>
                           if String.eqb mode "append" then (old ++ content)%string else content
                       | Mock.Err _ => content
                       end))
      /\ (forall other, Mock.normalize_path other <> Mock.normalize_path path ->
            Mock.fs_read st' other = Mock.fs_read st other
            /\ Mock.fs_exists st' other = Mock.fs_exists st other).
Proof.
  unfold Mock.fs_write, Mock.fs_exists. rewrite !mock_read_get.
  destruct (String.eqb mode "create_new" && PyDict.mem (Mock.normalize_path path) (Mock.fs st));
    [reflexivity|].
  set (p := Mock.normalize_path path).
  destruct (String.eqb mode "append") eqn:Em;
    [destruct (PyDict.get p (Mock.fs st)) as [old|] eqn:Eg|];
    (eexists; split; [reflexivity|]; split; [|split]).
  all: try (unfold PyDict.mem; cbn [Mock.fs Mock.with_fs]; rewrite dict_get_set_eq; reflexivity).
  all: try (intros same Hs; rewrite mock_read_get, Hs; fold p; cbn [Mock.fs Mock.with_fs];
            rewrite dict_get_set_eq; try rewrite Eg; try reflexivity;
            destruct (PyDict.get p (Mock.fs st)); reflexivity).
  all: intros other Ho; rewrite !mock_read_get; unfold PyDict.mem;
    cbn [Mock.fs Mock.with_fs]; rewrite dict_get_set_ne by (subst p; congruence); auto.
Qed.

(** X27.  [fs_delete], the paths of the file system being pairwise
    different as the keys of a dict are: a
    path that exists is removed, after which it does not exist and reading
    it is [NotFound], while every file with another normal form reads as
    before; a path that does not exist is [NotFound] and the adapter is
    left as it was. *)
Theorem mock_fs_delete_spec (st : Mock.t) (path : string) :
  List.NoDup (PyDict.keys (Mock.fs st)) ->
  if Mock.fs_exists st path then
    exists st',
      Mock.fs_delete st path = (Mock.Ok tt, st')
      /\ Mock.fs_exists st' path = false
      /\ Mock.fs_read st' path
         = Mock.Err (Mock.mkIOError "NotFound" None (Some (Mock.normalize_path path)))
      /\ (forall other, Mock.normalize_path other <> Mock.normalize_path path ->
            Mock.fs_read st' other = Mock.fs_read st other
            /\ Mock.fs_exists st' other = Mock.fs_exists st other)
  else
    Mock.fs_delete st path
    = (Mock.Err (Mock.mkIOError "NotFound" None (Some (Mock.normalize_path path))), st).
Proof.
  intros Hnd. unfold Mock.fs_delete, Mock.fs_exists.
  destruct (PyDict.mem (Mock.normalize_path path) (Mock.fs st)); [|reflexivity].
  eexists. split; [reflexivity|]. split; [|split].
  - unfold PyDict.mem. cbn [Mock.fs Mock.with_fs]. rewrite dict_get_del_eq by exact Hnd.
    reflexivity.
  - rewrite mock_read_get. cbn [Mock.fs Mock.with_fs]. rewrite dict_get_del_eq by exact Hnd.
    reflexivity.
  - intros other Ho. rewrite !mock_read_get. unfold PyDict.mem. cbn [Mock.fs Mock.with_fs].
    rewrite dict_get_del_ne by congruence. auto.
Qed.

Lemma mock_fs_delete_spec_witness :
  exists st',
    Mock.fs_delete (snd (Mock.fs_write Mock.init "/tmp\notes.txt/" "hello" "overwrite"))
      "tmp/notes.txt" = (Mock.Ok tt, st')
    /\ Mock.fs_exists st' "tmp/notes.txt" = false.
Proof.
  destruct (mock_fs_delete_spec
              (snd (Mock.fs_write Mock.init "/tmp\notes.txt/" "hello" "overwrite"))
              "tmp/notes.txt") as (st' & Hd & He & _).
  - repeat constructor; cbn; intuition discriminate.
  - exists st'. split; [exact Hd | exact He].
Defined.

(** X28.  The adapter keeps its file system well formed: a new adapter has no
    file, and after any write and any delete the paths are still pairwise
    different and normalized. *)
Theorem mock_fs_stays_well_formed (st : Mock.t) (path content mode : string) :
  fs_wf (Mock.fs Mock.init)
  /\ (fs_wf (Mock.fs st) ->
      fs_wf (Mock.fs (snd (Mock.fs_write st path content mode)))
      /\ fs_wf (Mock.fs (snd (Mock.fs_delete st path)))).
Proof.
  split; [split; constructor|].
  intros [Hnd Hnorm]. split.
  - unfold Mock.fs_write.
    destruct (String.eqb mode "create_new" && _); [split; assumption|].
    assert (Hset : forall c, fs_wf (PyDict.set (Mock.normalize_path path) c (Mock.fs st))).
    { intros c. split; [apply dict_nodup_set; exact Hnd|].
      rewrite dict_keys_set. destruct (PyDict.mem _ _); [exact Hnorm|].
      apply Forall_app. split; [exact Hnorm|].
      constructor; [apply normalize_path_fixed | constructor]. }
    destruct (if String.eqb mode "append" then _ else _); apply Hset.
  - unfold Mock.fs_delete. destruct (PyDict.mem _ _); [|split; assumption].
    cbn [snd Mock.fs Mock.with_fs]. split; [apply dict_nodup_del; exact Hnd|].
    rewrite List.Forall_forall in *. intros x Hx. apply Hnorm.
    apply (dict_keys_del _ _ _ Hx).
Qed.

(** * Listings of the mock adapter *)

Lemma split_char_head_avoids (c : ascii) (s : string) :
  avoids c (hd EmptyString (Py.split_char c s)) = true.
Proof.
  unfold avoids. induction s as [|a s IH]; [reflexivity|].
  cbn [Py.split_char]. destruct (Ascii.eqb a c) eqn:E; [reflexivity|].
  destruct (Py.split_char c s) as [|w ws]; cbn [hd Py.all_chars] in *.
  - rewrite E. reflexivity.
  - rewrite E, IH. reflexivity.
Qed.

Lemma fs_list_loop_entries (path : string) (pattern : option string)
    (file_paths : list string) (entries : list Mock.entry) (seen : gset string) :
  (forall n, In n (List.map Mock.entry_name entries) -> n ∈ seen) ->
  List.NoDup (List.map Mock.entry_name entries) ->
  Forall entry_ok entries ->
  List.NoDup (List.map Mock.entry_name
                (Mock.fs_list_loop path pattern file_paths entries seen))
  /\ Forall entry_ok (Mock.fs_list_loop path pattern file_paths entries seen).
Proof.
  revert entries seen.
  induction file_paths as [|file_path file_paths IH]; intros entries seen Hseen Hnd Hok;
    cbn [Mock.fs_list_loop]; [auto|].
  destruct (Py.startswith path file_path); [|apply IH; assumption].
  set (remainder := Py.slice file_path (Some (Z.of_nat (String.length path))) None).
  assert (Hname : exists n ty,
             (if Py.contains "/" remainder
              then (hd EmptyString (Py.split_char "/" remainder), "directory")
              else (remainder, "file")) = (n, ty)
             /\ Py.contains "/" n = false
             /\ (ty = "file" \/ ty = "directory")).
  { destruct (Py.contains "/" remainder) eqn:E.
    - eexists _, _. split; [reflexivity|]. split; [|auto].
      apply (contains_avoids "/"); [apply split_char_head_avoids | reflexivity].
    - eexists _, _. split; [reflexivity|]. auto. }
  destruct Hname as (n & ty & -> & Hslash & Hty).
  destruct (String.eqb n "") eqn:En; cbn [negb andb]; [apply IH; assumption|].
  destruct (bool_decide (n ∈ seen)) eqn:Es; cbn [negb]; [apply IH; assumption|].
  destruct (match pattern with Some pat => Mock.matches_glob n pat | None => true end);
    [|apply IH; assumption].
  apply bool_decide_eq_false in Es. apply String.eqb_neq in En.
  apply IH.
  - intros m. rewrite List.map_app. cbn [List.map Mock.entry_name]. intros Hin.
    apply elem_of_union. apply in_app_or in Hin as [Hin | [<- | []]].
    + left. apply Hseen. exact Hin.
    + right. apply elem_of_singleton. reflexivity.
  - rewrite List.map_app. cbn [List.map Mock.entry_name].
    apply List.NoDup_app; [exact Hnd | repeat constructor; tauto |].
    intros m Hm [<- | []]. apply Es, Hseen, Hm.
  - apply Forall_app. split; [exact Hok|]. constructor; [|constructor].
    repeat split; assumption.
Qed.

(** X29.  [fs_list] always succeeds, and in the listing no name comes twice,
    every name is non-empty and has no slash, and every entry is a file or
    a directory.  A path that normalizes to the empty text, the root,
    lists nothing in a well formed file system, whatever files there
    are: no normalized path starts with the slash the listing looks for. *)
Theorem mock_fs_list_spec (st : Mock.t) (path : string) (pattern : option string) :
  exists entries,
    Mock.fs_list st path pattern = Mock.Ok entries
    /\ List.NoDup (List.map Mock.entry_name entries)
    /\ Forall entry_ok entries
    /\ (fs_wf (Mock.fs st) -> Mock.normalize_path path = EmptyString -> entries = []).
Proof.
  unfold Mock.fs_list. eexists. split; [reflexivity|].
  destruct (fs_list_loop_entries
              (if negb (Py.endswith "/" (Mock.normalize_path path))
               then (Mock.normalize_path path ++ "/")%string else Mock.normalize_path path)
              pattern (PyDict.keys (Mock.fs st)) [] ∅) as [Hnd Hok];
    [intros n [] | constructor | constructor |].
  split; [exact Hnd|]. split; [exact Hok|].
  intros [_ Hnorm] ->. cbn [Py.endswith negb String.length Nat.leb andb].
  change ("" ++ "/")%string with "/".
  clear Hnd Hok. induction Hnorm as [|file_path file_paths Hp Hnorm IH]; [reflexivity|].
  cbn [Mock.fs_list_loop].
  assert (Py.startswith "/" file_path = false) as ->; [|exact IH].
  rewrite <- Hp. apply normalize_path_no_leading_slash.
Qed.

Example mock_fs_list_example :
  Mock.fs_list
    (snd (Mock.fs_write
            (snd (Mock.fs_write
                    (snd (Mock.fs_write Mock.init "docs/a.txt" "1" "overwrite"))
                    "docs/sub/b.txt" "2" "overwrite"))
            "docs/sub/c.md" "3" "overwrite"))
    "docs" None
  = Mock.Ok [{| Mock.entry_name := "a.txt"; Mock.entry_type := "file" |};
             {| Mock.entry_name := "sub"; Mock.entry_type := "directory" |}].
Proof. vm_compute. reflexivity. Qed.

(** * Operands *)

(** Equalities of texts up to the grouping of their parts. *)
Ltac regroup :=
  repeat first [rewrite append_assoc | rewrite append_cons]; reflexivity.

Lemma avoids_all_avoids (chars : string) (x : ascii) (s : string) :
  avoids_all chars s = true -> Py.char_in x chars = true -> avoids x s = true.
Proof.
  unfold avoids_all, avoids. intros H Hx. induction s as [|a s IH]; [reflexivity|].
  cbn [Py.all_chars] in *. apply andb_true_iff in H as [Ha Hs]. rewrite IH by exact Hs.
  rewrite andb_true_r. apply negb_true_iff, Ascii.eqb_neq. intros ->.
  rewrite Hx in Ha. discriminate.
Qed.

Lemma bracket_char_in (c : ascii) :
  opens c || closes c = true -> Py.char_in c "{}[]()" = true.
Proof.
  unfold opens, closes. intros H.
  repeat (apply orb_true_iff in H as [H | H]);
    apply Ascii.eqb_eq in H; subst c; reflexivity.
Qed.

Lemma no_brackets (chars s : string) :
  (forall c, Py.char_in c "{}[]()" = true -> Py.char_in c chars = true) ->
  avoids_all chars s = true ->
  Py.all_chars (fun c => negb (opens c || closes c)) s = true.
Proof.
  unfold avoids_all. intros Hsub H. induction s as [|a s IH]; [reflexivity|].
  cbn [Py.all_chars] in *. apply andb_true_iff in H as [Ha Hs]. rewrite IH by exact Hs.
  rewrite andb_true_r. apply negb_true_iff. apply negb_true_iff in Ha.
  destruct (opens a || closes a) eqn:E; [|reflexivity].
  rewrite (Hsub a (bracket_char_in a E)) in Ha. discriminate.
Qed.

Lemma operand_head (chars s : string) :
  is_operand chars s -> exists c s', s = String c s' /\ Py.isspace c = false.
Proof.
  intros (_ & Hs & Hne). unfold Py.strip in Hs.
  destruct (lstrip_head s) as [E | (c & t & E & Hc)]; rewrite E in Hs.
  - cbn in Hs. congruence.
  - destruct (rstrip_first c t Hc) as [r Hr]. rewrite Hr in Hs. eauto.
Qed.

Lemma operand_rstrip (s : string) : Py.strip s = s -> Py.rstrip s = s.
Proof.
  intros Hs. rewrite <- Hs at 1. unfold Py.strip. rewrite rstrip_idempotent. exact Hs.
Qed.

Lemma rstrip_app_fixed (p r : string) :
  Py.rstrip r = r -> r <> EmptyString -> Py.rstrip (p ++ r) = (p ++ r)%string.
Proof.
  intros Hr Hne. induction p as [|a p IH]; [exact Hr|].
  rewrite append_cons, rstrip_cons, IH.
  destruct (p ++ r)%string eqn:E; [|reflexivity].
  destruct p; [exact (False_ind _ (Hne E)) | discriminate].
Qed.

(** Operands at both ends make a text its own [strip]. *)
Lemma strip_join (chars chars' l m r : string) :
  is_operand chars l -> is_operand chars' r ->
  Py.strip (l ++ m ++ r) = (l ++ m ++ r)%string.
Proof.
  intros Hl Hr. destruct (operand_head chars l Hl) as (c & l' & -> & Hc).
  destruct Hr as (_ & Hr & Hnr). unfold Py.strip.
  rewrite append_cons, lstrip_first by exact Hc. rewrite <- append_cons.
  rewrite <- (append_assoc (String c l') m r).
  apply rstrip_app_fixed; [apply operand_rstrip; exact Hr | exact Hnr].
Qed.

Lemma lstrip_app_space (s : string) :
  Py.lstrip (s ++ " ")
  = match Py.lstrip s with
    | EmptyString => EmptyString
    | t => (t ++ " ")%string
    end.
Proof.
  induction s as [|a s IH]; [reflexivity|].
  rewrite append_cons. cbn [Py.lstrip]. destruct (Py.isspace a); [exact IH | reflexivity].
Qed.

Lemma rstrip_app_space (s : string) : Py.rstrip (s ++ " ") = Py.rstrip s.
Proof.
  induction s as [|a s IH]; [reflexivity|].
  rewrite append_cons, !rstrip_cons, IH. reflexivity.
Qed.

Lemma strip_app_space (s : string) : Py.strip (s ++ " ") = Py.strip s.
Proof.
  unfold Py.strip. rewrite lstrip_app_space.
  destruct (Py.lstrip s) as [|a t]; [reflexivity|]. apply rstrip_app_space.
Qed.

(** A space before or after an expression changes nothing. *)
Lemma eval_expr_pad (host : attr_table) (s : string) (ctx : gmap string value) :
  eval_expr host (s ++ " ") ctx = eval_expr host s ctx
  /\ eval_expr host (" " ++ s) ctx = eval_expr host s ctx.
Proof.
  split.
  - rewrite <- (eval_expr_strip host (s ++ " ")), strip_app_space.
    apply eval_expr_strip.
  - rewrite <- (eval_expr_strip host (" " ++ s)).
    change (Py.strip (" " ++ s)) with (Py.strip s).
    apply eval_expr_strip.
Qed.

(** X3.  White space before and after an expression does not matter: the
    expression and its stripped text evaluate alike, in every context, and
    so do an expression and the expression between spaces. *)
Theorem eval_expr_ignores_outer_space (host : attr_table) (e : string)
    (ctx : gmap string value) :
  eval_expr host (Py.strip e) ctx = eval_expr host e ctx
  /\ eval_expr host (" " ++ e ++ " ") ctx = eval_expr host e ctx.
Proof.
  split; [apply eval_expr_strip|].
  destruct (eval_expr_pad host (e ++ " ") ctx) as [_ ->].
  apply eval_expr_pad.
Qed.

Lemma comparison_chars_brackets (c : ascii) :
  Py.char_in c "{}[]()" = true -> Py.char_in c comparison_chars = true.
Proof.
  cbn [Py.char_in]. intros H.
  repeat (apply orb_true_iff in H as [H | H];
          [apply Ascii.eqb_eq in H; subst c; reflexivity |]).
  discriminate.
Qed.

Lemma operator_chars_brackets (c : ascii) :
  Py.char_in c "{}[]()" = true -> Py.char_in c operator_chars = true.
Proof.
  cbn [Py.char_in]. intros H.
  repeat (apply orb_true_iff in H as [H | H];
          [apply Ascii.eqb_eq in H; subst c; reflexivity |]).
  discriminate.
Qed.

Lemma ternary_chars_brackets (c : ascii) :
  Py.char_in c "{}[]()" = true -> Py.char_in c ternary_chars = true.
Proof.
  cbn [Py.char_in]. intros H.
  repeat (apply orb_true_iff in H as [H | H];
          [apply Ascii.eqb_eq in H; subst c; reflexivity |]).
  discriminate.
Qed.

Lemma all_chars_space (q : ascii -> bool) (s : string) :
  q " "%char = true -> Py.all_chars q s = true -> Py.all_chars q (s ++ " ") = true.
Proof.
  intros Hq Hs. rewrite all_chars_app, Hs. cbn [Py.all_chars]. rewrite Hq. reflexivity.
Qed.

Lemma startswith_app (p r : string) : Py.startswith p (p ++ r) = true.
Proof.
  induction p as [|a p IH]; [reflexivity|].
  rewrite append_cons. cbn [Py.startswith]. rewrite Ascii.eqb_refl. exact IH.
Qed.

Lemma operand_space_no_brackets (chars l : string) :
  (forall c, Py.char_in c "{}[]()" = true -> Py.char_in c chars = true) ->
  avoids_all chars l = true ->
  Py.all_chars (fun c => negb (opens c || closes c)) (l ++ " ") = true.
Proof.
  intros Hsub Hl. apply all_chars_space; [reflexivity | apply (no_brackets chars); assumption].
Qed.

(** A character of [chars] other than the space occurs neither in an
    operand nor in an operand with a space before or after it. *)
Lemma operand_avoids (chars : string) (x : ascii) (l : string) :
  avoids_all chars l = true -> Py.char_in x chars = true -> Ascii.eqb x " " = false ->
  avoids x (l ++ " ") = true /\ avoids x (" " ++ l) = true.
Proof.
  intros Hl Hx Hsp. rewrite !avoids_app, (avoids_all_avoids chars x l Hl Hx).
  unfold avoids. cbn [Py.all_chars]. rewrite (Ascii.eqb_sym " " x), Hsp. split; reflexivity.
Qed.

(** * Searching past a text *)

Lemma no_match_cons (target : string) (a : ascii) (p rest : string) :
  no_match_in target (String a p) rest ->
  Py.startswith target (String a (p ++ rest)) = false /\ no_match_in target p rest.
Proof.
  intros H. split.
  - apply (H EmptyString a p). reflexivity.
  - intros p1 b p2 E. apply (H (String a p1) b p2). rewrite E. reflexivity.
Qed.

(** A target whose first character does not occur in [p] stands nowhere
    in [p]. *)
Lemma no_match_first (x : ascii) (t p rest : string) :
  avoids x p = true -> no_match_in (String x t) p rest.
Proof.
  intros H p1 a p2 ->. rewrite avoids_app in H. apply andb_true_iff in H as [_ H].
  unfold avoids in H. cbn [Py.all_chars] in H. apply andb_true_iff in H as [H _].
  apply negb_true_iff in H. cbn [Py.startswith]. rewrite (Ascii.eqb_sym x a), H. reflexivity.
Qed.

(** A target whose second character occurs neither in [p] nor at the
    start of [rest] stands nowhere in [p]. *)
Lemma no_match_second (x y : ascii) (t p rest : string) :
  avoids y p = true -> Py.startswith (String y EmptyString) rest = false ->
  no_match_in (String x (String y t)) p rest.
Proof.
  intros H Hr p1 a p2 ->. rewrite avoids_app in H. apply andb_true_iff in H as [_ H].
  unfold avoids in H. cbn [Py.all_chars] in H. apply andb_true_iff in H as [_ H].
  cbn [Py.startswith]. destruct (Ascii.eqb x a); [|reflexivity]. cbn [andb].
  destruct p2 as [|b p2].
  - change (EmptyString ++ rest)%string with rest. destruct rest as [|c rest]; [reflexivity|].
    cbn [Py.startswith] in Hr. rewrite andb_true_r in Hr. rewrite Hr. reflexivity.
  - cbn [Py.all_chars] in H. apply andb_true_iff in H as [H _]. apply negb_true_iff in H.
    rewrite append_cons, (Ascii.eqb_sym y b), H. reflexivity.
Qed.

Lemma contains_skip (target p rest : string) :
  no_match_in target p rest -> Py.contains target (p ++ rest) = Py.contains target rest.
Proof.
  induction p as [|a p IH]; intros H; [reflexivity|].
  apply no_match_cons in H as [Ha Hp]. rewrite append_cons.
  cbn [Py.contains]. rewrite Ha. cbn [orb]. apply IH. exact Hp.
Qed.

Lemma find_at_depth_0_loop_pass (target : string) (rightmost : bool) (p rest : string)
    (i found : Z) :
  no_match_in target p rest ->
  Py.all_chars (fun c => negb (opens c || closes c)) p = true ->
  (String.length target <= String.length rest)%nat ->
  find_at_depth_0_loop target rightmost (p ++ rest) i 0 found
  = find_at_depth_0_loop target rightmost rest (i + Z.of_nat (String.length p)) 0 found.
Proof.
  revert i. induction p as [|a p IH]; intros i H Hb Hlen.
  - change (EmptyString ++ rest)%string with rest. cbn [String.length]. f_equal. lia.
  - apply no_match_cons in H as [Ha Hp].
    cbn [Py.all_chars] in Hb. apply andb_true_iff in Hb as [Hab Hb].
    apply negb_true_iff in Hab. apply orb_false_iff in Hab as [Ho Hc].
    rewrite append_cons, find_at_depth_0_loop_cons, Ho, Hc, Ha.
    assert ((String.length target <=? String.length (String a (p ++ rest)))%nat = true) as ->.
    { apply Nat.leb_le. cbn [String.length]. rewrite length_append. lia. }
    rewrite andb_false_r. rewrite IH by assumption. cbn [String.length]. f_equal. lia.
Qed.

(** The first place where a target that starts with no bracket stands
    outside brackets, past a text without brackets in which it stands
    nowhere. *)
Lemma find_at_depth_0_past (x : ascii) (t p rest : string) :
  opens x = false -> closes x = false ->
  no_match_in (String x t) p rest ->
  Py.all_chars (fun c => negb (opens c || closes c)) p = true ->
  Py.startswith (String x t) rest = true ->
  find_at_depth_0 (p ++ rest) (String x t) false = Z.of_nat (String.length p).
Proof.
  intros Ho Hc Hno Hb Hs. unfold find_at_depth_0.
  rewrite find_at_depth_0_loop_pass;
    [| exact Hno | exact Hb | apply startswith_length; exact Hs].
  destruct rest as [|c' rest]; [discriminate|].
  assert (c' = x) as ->.
  { cbn [Py.startswith] in Hs. apply andb_true_iff in Hs as [Hs _].
    apply Ascii.eqb_eq in Hs. congruence. }
  rewrite find_at_depth_0_loop_plain;
    [| exact Ho | exact Hc | apply startswith_length; exact Hs].
  rewrite Hs. reflexivity.
Qed.

(** * Comparisons of two operands *)

Section Comparisons.

Variable ev : string -> gmap string value -> outcome value.

Lemma try_comparison_next (op : string) (f : value -> value -> outcome value)
    (ops : list (string * (value -> value -> outcome value))) (e : string)
    (ctx : gmap string value) :
  Py.contains op e = false ->
  try_comparison ev ((op, f) :: ops) e ctx = try_comparison ev ops e ctx.
Proof. intros H. cbn [try_comparison]. rewrite H. reflexivity. Qed.

Lemma try_comparison_here (op : string) (f : value -> value -> outcome value)
    (ops : list (string * (value -> value -> outcome value))) (p q : string)
    (ctx : gmap string value) :
  find_at_depth_0 (p ++ op ++ q) op false = Z.of_nat (String.length p) ->
  try_comparison ev ((op, f) :: ops) (p ++ op ++ q) ctx
  = Some (let* left := ev p ctx in
          let* right := ev q ctx in
          f left right).
Proof.
  intros H. cbn [try_comparison]. rewrite contains_app, H.
  assert ((0 <=? Z.of_nat (String.length p))%Z = true) as -> by (apply Z.leb_le; lia).
  rewrite slice_to_app.
  replace (Z.of_nat (String.length p) + Z.of_nat (String.length op))%Z
    with (Z.of_nat (String.length (p ++ op))) by (rewrite length_append; lia).
  rewrite <- (append_assoc p op q), slice_from_app. reflexivity.
Qed.

End Comparisons.

(** Where the comparison operators stand in [l op r]. *)
Lemma comparison_found (op l r : string) :
  In op ["=="; "!="; ">="; "<="; ">"; "<"] -> avoids_all comparison_chars l = true ->
  find_at_depth_0 ((l ++ " ") ++ op ++ (" " ++ r)) op false
  = Z.of_nat (String.length (l ++ " ")).
Proof.
  intros Hin Hl.
  assert (Hav : forall x, Py.char_in x comparison_chars = true -> Ascii.eqb x " " = false ->
                          avoids x (l ++ " ") = true).
  { intros x Hx Hsp. apply (operand_avoids comparison_chars); assumption. }
  cbn [In] in Hin.
  destruct Hin as [<- | [<- | [<- | [<- | [<- | [<- | []]]]]]];
    (apply find_at_depth_0_past;
     [reflexivity | reflexivity |
      | apply (operand_space_no_brackets comparison_chars);
        [exact comparison_chars_brackets | exact Hl]
      | apply startswith_app]).
  - apply no_match_first, Hav; reflexivity.
  - apply no_match_second; [apply Hav; reflexivity | reflexivity].
  - apply no_match_first, Hav; reflexivity.
  - apply no_match_first, Hav; reflexivity.
  - apply no_match_first, Hav; reflexivity.
  - apply no_match_first, Hav; reflexivity.
Qed.

(** A comparison operator that ends in [=] and starts with another
    character than [x] leaves no place for [x=] in [l op r]. *)
Lemma comparison_absent (x o1 : ascii) (l r : string) :
  avoids_all comparison_chars l = true -> avoids_all comparison_chars r = true ->
  x <> o1 -> Ascii.eqb "=" o1 = false ->
  Py.contains (String x "=")
    ((l ++ " ") ++ String o1 "=" ++ (" " ++ r)) = false.
Proof.
  intros Hl Hr Hx Ho.
  assert (Hle : avoids "=" (l ++ " ") = true)
    by (apply (operand_avoids comparison_chars); [exact Hl | reflexivity | reflexivity]).
  assert (Hre : avoids "=" (" " ++ r) = true)
    by (apply (operand_avoids comparison_chars); [exact Hr | reflexivity | reflexivity]).
  rewrite contains_skip.
  2:{ apply no_match_second; [exact Hle|].
      change (String o1 "=" ++ " " ++ r)%string with (String o1 (String "=" (" " ++ r))).
      cbn [Py.startswith]. rewrite Ho. reflexivity. }
  change (String o1 "=" ++ " " ++ r)%string with (String o1 (String "=" (" " ++ r))).
  cbn [Py.contains Py.startswith].
  assert (Ascii.eqb x o1 = false) as -> by (apply Ascii.eqb_neq; exact Hx).
  cbn [andb orb].
  change (" " ++ r)%string with (String " " r). cbn [Py.startswith].
  change (Ascii.eqb "=" " ") with false. rewrite !andb_false_r. cbn [andb orb].
  fold (Py.startswith (String x "=") (String " " r)).
  fold (Py.contains (String x "=") r).
  fold (Py.contains (String x "=") (String " " r)).
  apply (contains_avoids "="); [exact Hre|].
  unfold avoids. cbn [Py.all_chars]. rewrite andb_false_r. reflexivity.
Qed.

(** X5.  A comparison [l op r], with [op] one of [==], [!=], [>=], [<=], [>],
    [<] between single spaces and operands without brackets, question
    mark and comparison characters (names, literals, arithmetic, logical
    operators): both operands are evaluated, the left one first, and the
    result is the comparison of the host on the two values.  So a
    comparison binds weaker than what stands in its operands: in
    [a == b && c] the right operand is [b && c]. *)
Theorem comparison_of_operands (host : attr_table) (op : string)
    (f : value -> value -> outcome value) (l r : string) (ctx : gmap string value) :
  In (op, f) comparison_ops ->
  is_operand comparison_chars l -> is_operand comparison_chars r ->
  eval_expr host (l ++ " " ++ op ++ " " ++ r) ctx
  = (let* left := eval_expr host l ctx in
     let* right := eval_expr host r ctx in
     f left right).
Proof.
  intros Hin Hol Hor.
  pose proof Hol as (Hl & _ & _). pose proof Hor as (Hr & _ & _).
  assert (Hop : In op ["=="; "!="; ">="; "<="; ">"; "<"]).
  { unfold comparison_ops in Hin. cbn [In] in *.
    repeat (destruct Hin as [Hin | Hin]; [injection Hin as <- _; tauto |]). destruct Hin. }
  assert (Hs : Py.strip (l ++ " " ++ op ++ " " ++ r) = (l ++ " " ++ op ++ " " ++ r)%string).
  { replace (l ++ " " ++ op ++ " " ++ r)%string with (l ++ (" " ++ op ++ " ") ++ r)%string
      by regroup.
    apply (strip_join comparison_chars comparison_chars); assumption. }
  rewrite eval_expr_unfold. unfold eval_expr_body. rewrite Hs. clear Hs.
  replace (l ++ " " ++ op ++ " " ++ r)%string with ((l ++ " ") ++ op ++ (" " ++ r))%string
    by regroup.
  set (e := ((l ++ " ") ++ op ++ (" " ++ r))%string).
  assert (Hav : forall x, Py.char_in x comparison_chars = true -> Ascii.eqb x " " = false ->
                          avoids x op = true -> avoids x e = true).
  { intros x Hx Hsp Hxo. subst e. rewrite !avoids_app, Hxo.
    destruct (operand_avoids comparison_chars x l Hl Hx Hsp) as [Hla _].
    destruct (operand_avoids comparison_chars x r Hr Hx Hsp) as [_ Hra].
    rewrite avoids_app in Hla, Hra. rewrite Hla, Hra. reflexivity. }
  assert (Hfound := comparison_found op l r Hop Hl). fold e in Hfound.
  assert (Hhere : forall ops,
             try_comparison (eval_expr host) ((op, f) :: ops) e ctx
             = Some (let* left := eval_expr host l ctx in
                     let* right := eval_expr host r ctx in
                     f left right)).
  { intros ops. subst e. rewrite try_comparison_here by exact Hfound.
    destruct (eval_expr_pad host l ctx) as [-> _].
    destruct (eval_expr_pad host r ctx) as [_ ->]. reflexivity. }
  assert (Hpre : Py.startswith "{" e = false /\ Py.startswith "[" e = false
                 /\ try_function_call host (eval_expr host) e ctx = None
                 /\ try_ternary (eval_expr host) e ctx = None).
  { cbn [In] in Hop.
    destruct Hop as [<- | [<- | [<- | [<- | [<- | [<- | []]]]]]];
      (split; [apply (startswith_avoids "{"); [apply Hav|]; reflexivity|];
       split; [apply (startswith_avoids "["); [apply Hav|]; reflexivity|];
       split; [apply try_function_call_none | apply try_ternary_none];
       apply Hav; reflexivity). }
  destruct Hpre as (-> & -> & -> & ->). cbn [andb].
  unfold comparison_ops in *. cbn [In] in Hin.
  destruct Hin as [Hin | [Hin | [Hin | [Hin | [Hin | [Hin | []]]]]]];
    injection Hin as <- <-.
  - rewrite Hhere. reflexivity.
  - rewrite try_comparison_next by (apply (comparison_absent "=" "!"); auto; discriminate).
    rewrite Hhere. reflexivity.
  - rewrite try_comparison_next by (apply (comparison_absent "=" ">"); auto; discriminate).
    rewrite try_comparison_next by (apply (comparison_absent "!" ">"); auto; discriminate).
    rewrite Hhere. reflexivity.
  - rewrite try_comparison_next by (apply (comparison_absent "=" "<"); auto; discriminate).
    rewrite try_comparison_next by (apply (comparison_absent "!" "<"); auto; discriminate).
    rewrite try_comparison_next
      by (apply (contains_avoids ">"); [apply Hav|]; reflexivity).
    rewrite Hhere. reflexivity.
  - rewrite !try_comparison_next
      by (apply (contains_avoids "="); [apply Hav|]; reflexivity).
    rewrite Hhere. reflexivity.
  - rewrite 4!try_comparison_next
      by (apply (contains_avoids "="); [apply Hav|]; reflexivity).
    rewrite try_comparison_next
      by (apply (contains_avoids ">"); [apply Hav|]; reflexivity).
    rewrite Hhere. reflexivity.
Qed.

Lemma comparison_of_operands_witness :
  eval_expr HostAttrs.cpython ("n % 15" ++ " " ++ "==" ++ " " ++ "0") {["n" := VInt 30]}
  = Ret (VBool true).
Proof.
  rewrite (comparison_of_operands HostAttrs.cpython "==" operator_eq "n % 15" "0"
             {["n" := VInt 30]});
    [vm_compute; reflexivity | cbn; tauto
     | split; [reflexivity | split; [reflexivity | discriminate]]
     | split; [reflexivity | split; [reflexivity | discriminate]]].
Defined.

(** * The logical operators *)

Section Logical.

Variable ev : string -> gmap string value -> outcome value.

Lemma try_logical_here (is_and : bool) (l r : string) (ctx : gmap string value) :
  avoids_all operator_chars l = true ->
  let op := if is_and then " && " else " || " in
  try_logical ev is_and (l ++ op ++ r) ctx
  = Some (let* left := ev l ctx in
          let* t := truthy left in
          if Bool.eqb t is_and then ev r ctx else Ret left).
Proof.
  intros Hl op. subst op. unfold try_logical.
  assert (Hb : Py.all_chars (fun c => negb (opens c || closes c)) l = true)
    by (apply (no_brackets operator_chars); [exact operator_chars_brackets | exact Hl]).
  destruct is_and.
  - rewrite contains_app.
    rewrite (find_at_depth_0_past " " "&& " l (" && " ++ r));
      [| reflexivity | reflexivity
       | apply no_match_second;
         [apply (avoids_all_avoids operator_chars); [exact Hl | reflexivity] | reflexivity]
       | exact Hb | apply startswith_app].
    assert ((0 <=? Z.of_nat (String.length l))%Z = true) as -> by (apply Z.leb_le; lia).
    rewrite slice_to_app.
    replace (Z.of_nat (String.length l) + 4)%Z with (Z.of_nat (String.length (l ++ " && ")))
      by (rewrite length_append; cbn [String.length]; lia).
    rewrite <- (append_assoc l " && " r), slice_from_app. reflexivity.
  - rewrite contains_app.
    rewrite (find_at_depth_0_past " " "|| " l (" || " ++ r));
      [| reflexivity | reflexivity
       | apply no_match_second;
         [apply (avoids_all_avoids operator_chars); [exact Hl | reflexivity] | reflexivity]
       | exact Hb | apply startswith_app].
    assert ((0 <=? Z.of_nat (String.length l))%Z = true) as -> by (apply Z.leb_le; lia).
    rewrite slice_to_app.
    replace (Z.of_nat (String.length l) + 4)%Z with (Z.of_nat (String.length (l ++ " || ")))
      by (rewrite length_append; cbn [String.length]; lia).
    rewrite <- (append_assoc l " || " r), slice_from_app. reflexivity.
Qed.

End Logical.

(** X6.  [l && r] and [l || r], for operands without brackets and without the
    characters of the ternary, the comparisons and the logical operators
    (names, literals, arithmetic), are the [and] and [or] of the host on
    the two values: the left operand is evaluated first; [&&] gives the
    left value when it is false and otherwise the right value, [||] gives
    the left value when it is true and otherwise the right value.  The
    result is the value of an operand, not a boolean, and the right
    operand is not evaluated when the left one decides. *)
Theorem logical_of_operands (host : attr_table) (l r : string) (ctx : gmap string value) :
  is_operand operator_chars l -> is_operand operator_chars r ->
  eval_expr host (l ++ " && " ++ r) ctx
  = (let* left := eval_expr host l ctx in
     let* t := truthy left in
     if t then eval_expr host r ctx else Ret left)
  /\ eval_expr host (l ++ " || " ++ r) ctx
     = (let* left := eval_expr host l ctx in
        let* t := truthy left in
        if t then Ret left else eval_expr host r ctx).
Proof.
  intros Hol Hor.
  pose proof Hol as (Hl & _ & _). pose proof Hor as (Hr & _ & _).
  assert (Hbody : forall is_and : bool,
             let op := if is_and then " && " else " || " in
             eval_expr host (l ++ op ++ r) ctx
             = (let* left := eval_expr host l ctx in
                let* t := truthy left in
                if Bool.eqb t is_and then eval_expr host r ctx else Ret left)).
  { intros is_and op. rewrite eval_expr_unfold. unfold eval_expr_body.
    rewrite (strip_join operator_chars operator_chars l op r Hol Hor).
    set (e := (l ++ op ++ r)%string).
    assert (Hav : forall c, Py.char_in c operator_chars = true ->
                            avoids c op = true -> avoids c e = true).
    { intros c Hc Hp. subst e. rewrite !avoids_app, Hp.
      rewrite (avoids_all_avoids operator_chars c l), (avoids_all_avoids operator_chars c r)
        by assumption.
      reflexivity. }
    rewrite (startswith_avoids "{" "{" e), (startswith_avoids "[" "[" e)
      by (try apply Hav; destruct is_and; reflexivity).
    cbn [andb].
    rewrite try_function_call_none, try_ternary_none, try_comparison_none
      by (apply Hav; destruct is_and; reflexivity).
    destruct is_and.
    - subst e op. rewrite (try_logical_here (eval_expr host) true l r ctx Hl). reflexivity.
    - assert (try_logical (eval_expr host) true e ctx = None) as ->.
      { unfold try_logical.
        rewrite (contains_avoids "&" " && " e) by (try apply Hav; reflexivity). reflexivity. }
      subst e op. rewrite (try_logical_here (eval_expr host) false l r ctx Hl). reflexivity. }
  split.
  - rewrite (Hbody true). destruct (eval_expr host l ctx) as [left| | |]; try reflexivity.
    cbn [outcome_bind]. destruct (truthy left) as [[]| | |]; reflexivity.
  - rewrite (Hbody false). destruct (eval_expr host l ctx) as [left| | |]; try reflexivity.
    cbn [outcome_bind]. destruct (truthy left) as [[]| | |]; reflexivity.
Qed.

Lemma logical_of_operands_witness :
  eval_expr HostAttrs.cpython ("n - 1" ++ " && " ++ "missing") {["n" := VInt 1]} = Ret (VInt 0)
  /\ eval_expr HostAttrs.cpython ("n - 1" ++ " || " ++ "'none'") {["n" := VInt 1]}
     = Ret (VStr "none").
Proof.
  destruct (logical_of_operands HostAttrs.cpython "n - 1" "missing" {["n" := VInt 1]})
    as [Hand _];
    [split; [reflexivity | split; [reflexivity | discriminate]]
    | split; [reflexivity | split; [reflexivity | discriminate]] |].
  destruct (logical_of_operands HostAttrs.cpython "n - 1" "'none'" {["n" := VInt 1]})
    as [_ Hor];
    [split; [reflexivity | split; [reflexivity | discriminate]]
    | split; [reflexivity | split; [reflexivity | discriminate]] |].
  split; [rewrite Hand | rewrite Hor]; vm_compute; reflexivity.
Defined.

(** * The ternary on three operands *)

Lemma rfind_avoids (c : ascii) (s : string) :
  avoids c s = true -> Py.rfind (String c EmptyString) s = None.
Proof.
  unfold avoids. induction s as [|a s IH]; [reflexivity|].
  cbn [Py.all_chars Py.rfind]. intros H. apply andb_true_iff in H as [Ha Hs].
  apply negb_true_iff in Ha. rewrite IH by exact Hs.
  cbn [Py.startswith]. rewrite (Ascii.eqb_sym c a), Ha. reflexivity.
Qed.

Lemma rfind_app_avoids (c : ascii) (pre suf : string) :
  avoids c suf = true ->
  Py.rfind (String c EmptyString) (pre ++ String c suf) = Some (String.length pre).
Proof.
  intros H. induction pre as [|a pre IH].
  - change (EmptyString ++ String c suf)%string with (String c suf).
    cbn [Py.rfind]. rewrite (rfind_avoids c suf H).
    cbn [Py.startswith]. rewrite Ascii.eqb_refl. reflexivity.
  - rewrite append_cons. cbn [Py.rfind]. rewrite IH. reflexivity.
Qed.

(** [(a + x + b + rest)[len(a) + 1 : len(a) + 1 + len(b)] == b] *)
Lemma slice_middle (a b rest : string) (x : ascii) :
  Py.slice (a ++ String x (b ++ rest))
    (Some (Z.of_nat (String.length a) + 1)%Z)
    (Some (Z.of_nat (String.length a + 1 + String.length b))) = b.
Proof.
  unfold Py.slice, Py.clamp. rewrite length_append. cbn [String.length].
  rewrite length_append.
  assert ((Z.of_nat (String.length a) + 1 <? 0)%Z = false) as -> by (apply Z.ltb_ge; lia).
  assert ((Z.of_nat (String.length a + 1 + String.length b) <? 0)%Z = false) as ->
      by (apply Z.ltb_ge; lia).
  replace (Z.to_nat (Z.min (Z.of_nat (String.length a) + 1) _))
    with (String.length (a ++ String x EmptyString))
    by (rewrite length_append; cbn [String.length]; lia).
  replace (a ++ String x (b ++ rest))%string
    with ((a ++ String x EmptyString) ++ (b ++ rest))%string
    by (rewrite append_assoc; reflexivity).
  rewrite drop_app.
  replace (Z.to_nat _) with (String.length b) by lia.
  apply take_app.
Qed.

Lemma ternary_scan_found (s : string) (i depth q_pos : Z) :
  q_pos <> (-1)%Z -> ternary_scan s i depth q_pos = q_pos.
Proof.
  intros Hq. revert i depth. induction s as [|c s IH]; intros i depth; [reflexivity|].
  cbn [ternary_scan]. destruct (opens c); [apply IH|]. destruct (closes c); [apply IH|].
  assert ((q_pos =? -1)%Z = false) as -> by (apply Z.eqb_neq; exact Hq).
  rewrite andb_false_r. apply IH.
Qed.

Lemma ternary_scan_skip (p rest : string) (i q_pos : Z) :
  Py.all_chars (fun c => negb (opens c || closes c || Ascii.eqb c "?")) p = true ->
  ternary_scan (p ++ rest) i 0 q_pos = ternary_scan rest (i + Z.of_nat (String.length p)) 0 q_pos.
Proof.
  revert i. induction p as [|a p IH]; intros i H.
  - change (EmptyString ++ rest)%string with rest. cbn [String.length]. f_equal. lia.
  - cbn [Py.all_chars] in H. apply andb_true_iff in H as [Ha Hp].
    apply negb_true_iff in Ha. apply orb_false_iff in Ha as [Ha Hq].
    apply orb_false_iff in Ha as [Ho Hc].
    rewrite append_cons. cbn [ternary_scan]. rewrite Ho, Hc, Hq. cbn [andb].
    rewrite IH by exact Hp. cbn [String.length]. f_equal. lia.
Qed.

Lemma operand_scan_chars (c : string) :
  avoids_all ternary_chars c = true ->
  Py.all_chars (fun x => negb (opens x || closes x || Ascii.eqb x "?")) (c ++ " ") = true.
Proof.
  intros H. apply all_chars_space; [reflexivity|].
  pose proof (no_brackets ternary_chars c ternary_chars_brackets H) as Hb.
  pose proof (avoids_all_avoids ternary_chars "?" c H eq_refl) as Hq.
  unfold avoids in Hq. clear H. induction c as [|a c IH]; [reflexivity|].
  cbn [Py.all_chars] in *. apply andb_true_iff in Hb as [Hab Hb].
  apply andb_true_iff in Hq as [Haq Hq]. rewrite IH by assumption.
  apply negb_true_iff in Hab. apply negb_true_iff in Haq.
  rewrite Hab, Haq. reflexivity.
Qed.

(** X7.  [c ? t : f] for operands without brackets and question mark, the last
    one without a colon: the condition and both arms are evaluated, in
    this order, before the condition selects; so an exception in the arm
    that is not selected is the outcome all the same.  The ternary binds
    weaker than what stands in its operands: comparisons, logical
    operators and arithmetic there are parts of the operands. *)
Theorem ternary_of_operands (host : attr_table) (c t f : string) (ctx : gmap string value) :
  is_operand ternary_chars c -> is_operand ternary_chars t -> is_operand ternary_chars f ->
  avoids ":" f = true ->
  eval_expr host (c ++ " ? " ++ t ++ " : " ++ f) ctx
  = (let* cond := eval_expr host c ctx in
     let* then_val := eval_expr host t ctx in
     let* else_val := eval_expr host f ctx in
     let* b := truthy cond in
     Ret (if b then then_val else else_val)).
Proof.
  intros Hoc Hot Hof Hcolon.
  pose proof Hoc as (Hc & _ & _). pose proof Hot as (Ht & _ & _).
  pose proof Hof as (Hf & _ & _).
  rewrite eval_expr_unfold. unfold eval_expr_body.
  set (e := (c ++ " ? " ++ t ++ " : " ++ f)%string).
  assert (Hs : Py.strip e = e).
  { subst e.
    replace (c ++ " ? " ++ t ++ " : " ++ f)%string
      with (c ++ (" ? " ++ t ++ " : ") ++ f)%string by regroup.
    apply (strip_join ternary_chars ternary_chars); assumption. }
  rewrite Hs.
  assert (Hav : forall x, Py.char_in x ternary_chars = true -> avoids x " ? :" = true ->
                          avoids x e = true).
  { intros x Hx Hp. subst e. rewrite !avoids_app.
    rewrite (avoids_all_avoids ternary_chars x c), (avoids_all_avoids ternary_chars x t),
      (avoids_all_avoids ternary_chars x f) by assumption.
    unfold avoids in *. cbn [Py.all_chars] in *.
    apply andb_true_iff in Hp as [H1 Hp]. apply andb_true_iff in Hp as [H2 Hp].
    apply andb_true_iff in Hp as [_ Hp]. apply andb_true_iff in Hp as [H4 _].
    rewrite H1, H2, H4. reflexivity. }
  rewrite (startswith_avoids "{" "{" e), (startswith_avoids "[" "[" e)
    by (try apply Hav; reflexivity).
  cbn [andb]. rewrite try_function_call_none by (apply Hav; reflexivity).
  assert (E1 : e = ((c ++ " ") ++ String "?" ((" " ++ t ++ " ") ++ String ":" (" " ++ f)))%string).
  { subst e. regroup. }
  unfold try_ternary.
  assert (Py.contains "?" e = true) as ->.
  { rewrite E1. apply (contains_app "?" (c ++ " ")). }
  assert (Py.contains ":" e = true) as ->.
  { replace e with ((c ++ " ? " ++ t ++ " ") ++ ":" ++ (" " ++ f))%string
      by (subst e; regroup).
    apply contains_app. }
  cbn [andb].
  assert ((0 <? ternary_scan e 0 0 (-1))%Z = true) as ->.
  { rewrite E1, ternary_scan_skip by (apply operand_scan_chars; exact Hc).
    cbn [ternary_scan]. change (opens "?") with false. change (closes "?") with false.
    cbv iota. rewrite Ascii.eqb_refl.
    change (0 =? 0)%Z with true. change (-1 =? -1)%Z with true. cbn [andb].
    rewrite ternary_scan_found by lia.
    apply Z.ltb_lt. rewrite length_append. cbn [String.length]. lia. }
  unfold eval_ternary.
  assert (Py.find "?" e = Some (String.length (c ++ " "))) as ->.
  { rewrite E1. apply find_app_avoids. rewrite avoids_app.
    rewrite (avoids_all_avoids ternary_chars "?" c) by (assumption || reflexivity).
    reflexivity. }
  assert (Py.rfind ":" e
          = Some (String.length (c ++ " ") + 1 + String.length (" " ++ t ++ " "))%nat) as ->.
  { replace e with (((c ++ " ") ++ String "?" (" " ++ t ++ " ")) ++ String ":" (" " ++ f))%string
      by (rewrite E1; regroup).
    rewrite rfind_app_avoids.
    - rewrite length_append. cbn [String.length]. f_equal. lia.
    - rewrite avoids_app, Hcolon. reflexivity. }
  cbn [or_raise outcome_bind].
  assert (Hcond : Py.slice e None (Some (Z.of_nat (String.length (c ++ " ")))) = (c ++ " ")%string)
    by (rewrite E1; apply slice_to_app).
  assert (Hthen : Py.slice e (Some (Z.of_nat (String.length (c ++ " ")) + 1)%Z)
                    (Some (Z.of_nat (String.length (c ++ " ") + 1
                                     + String.length (" " ++ t ++ " "))))
                  = (" " ++ t ++ " ")%string)
    by (rewrite E1; apply slice_middle).
  assert (Helse : Py.slice e
                    (Some (Z.of_nat (String.length (c ++ " ") + 1
                                     + String.length (" " ++ t ++ " ")) + 1)%Z) None
                  = (" " ++ f)%string).
  { replace (Z.of_nat (String.length (c ++ " ") + 1 + String.length (" " ++ t ++ " ")) + 1)%Z
      with (Z.of_nat (String.length (((c ++ " ") ++ String "?" (" " ++ t ++ " ")) ++ ":")))
      by (rewrite !length_append; cbn [String.length]; rewrite !length_append;
          cbn [String.length]; lia).
    replace e
      with ((((c ++ " ") ++ String "?" (" " ++ t ++ " ")) ++ ":") ++ (" " ++ f))%string
      by (rewrite E1; regroup).
    apply slice_from_app. }
  rewrite Hcond, Hthen, Helse.
  destruct (eval_expr_pad host c ctx) as [-> _].
  destruct (eval_expr_pad host (t ++ " ") ctx) as [_ ->].
  destruct (eval_expr_pad host t ctx) as [-> _].
  destruct (eval_expr_pad host f ctx) as [_ ->]. reflexivity.
Qed.

Lemma ternary_of_operands_witness :
  eval_expr HostAttrs.cpython ("n % 3 == 0" ++ " ? " ++ "'fizz'" ++ " : " ++ "n")
    {["n" := VInt 9]}
  = Ret (VStr "fizz").
Proof.
  rewrite (ternary_of_operands HostAttrs.cpython "n % 3 == 0" "'fizz'" "n" {["n" := VInt 9]});
    [vm_compute; reflexivity
    | split; [reflexivity | split; [reflexivity | discriminate]]
    | split; [reflexivity | split; [reflexivity | discriminate]]
    | split; [reflexivity | split; [reflexivity | discriminate]]
    | reflexivity].
Defined.
